(** * openni2_camera: stream lifecycle, depth routing and reconfiguration

    A shallow embedding of [src/camera.cpp] (namespace
    [openni2_camera::internal]): the classes [SensorStreamManagerBase],
    [SensorStreamManager], [DepthSensorStreamManager] and [CameraImpl].

    The OpenNI2 SDK, ROS logging and image_transport are outside the
    repository.  They are represented by
    - a simulated [VideoStream] and [Device] whose fallible calls
      ([create], [start], [setVideoMode]) answer from reply scripts stored
      in the device, so that a statement quantified over all devices covers
      every behaviour of the hardware;
    - a trace of [Event]s, one per call that crosses the boundary. *)

From Stdlib Require Import ZArith List String Bool Lia.
From Stdlib Require Import PrimFloat Uint63.
From stdpp Require Import base gmap strings list pretty.

Local Open Scope string_scope.
Local Open Scope list_scope.
Local Open Scope Z_scope.

(** ** OpenNI enumerations and plain data *)

Inductive Status :=
| STATUS_OK
| STATUS_ERROR
| STATUS_NOT_IMPLEMENTED
| STATUS_NOT_SUPPORTED
| STATUS_BAD_PARAMETER
| STATUS_OUT_OF_FLOW
| STATUS_NO_DEVICE
| STATUS_TIME_OUT.

Inductive SensorType := SENSOR_IR | SENSOR_COLOR | SENSOR_DEPTH.

Inductive PixelFormat :=
| PIXEL_FORMAT_DEPTH_1_MM
| PIXEL_FORMAT_DEPTH_100_UM
| PIXEL_FORMAT_SHIFT_9_2
| PIXEL_FORMAT_SHIFT_9_3
| PIXEL_FORMAT_RGB888
| PIXEL_FORMAT_YUV422
| PIXEL_FORMAT_GRAY8
| PIXEL_FORMAT_GRAY16
| PIXEL_FORMAT_JPEG.

Inductive ImageRegistrationMode :=
| IMAGE_REGISTRATION_OFF
| IMAGE_REGISTRATION_DEPTH_TO_COLOR.

Record VideoMode := mkVideoMode {
  getResolutionX : Z;
  getResolutionY : Z;
  getFps : Z;
  getPixelFormat : PixelFormat
}.

#[global] Instance Status_eq_dec : EqDecision Status.
Proof. solve_decision. Defined.
#[global] Instance SensorType_eq_dec : EqDecision SensorType.
Proof. solve_decision. Defined.
#[global] Instance PixelFormat_eq_dec : EqDecision PixelFormat.
Proof. solve_decision. Defined.
#[global] Instance ImageRegistrationMode_eq_dec : EqDecision ImageRegistrationMode.
Proof. solve_decision. Defined.
#[global] Instance VideoMode_eq_dec : EqDecision VideoMode.
Proof. solve_decision. Defined.

(** [rc == STATUS_OK] *)
Definition is_OK (rc : Status) : bool :=
  match rc with STATUS_OK => true | _ => false end.

(** ** ROS messages and frames *)

Record Header := mkHeader { stamp : Z; frame_id : string }.

Record Image := mkImage {
  img_header : Header;
  img_height : Z;
  img_width : Z;
  img_encoding : string;
  img_step : Z;
  img_data : list Byte.byte
}.

(** [K] is the 3x3 and [P] the 3x4 row-major matrix of
    [sensor_msgs::CameraInfo]. *)
Record CameraInfo := mkCameraInfo {
  info_header : Header;
  info_height : Z;
  info_width : Z;
  K : list float;
  P : list float
}.

(** What [VideoStream::readFrame] hands to the listener. *)
Record VideoFrameRef := mkFrame {
  getWidth : Z;
  getHeight : Z;
  getStrideInBytes : Z;
  getVideoMode : VideoMode;
  getData : list Byte.byte
}.

Definition getDataSize (frame : VideoFrameRef) : nat := length (getData frame).

(** The four [image_transport::CameraPublisher] members of the depth
    manager; [publisher_] is inherited and is the only one of a plain
    manager. *)
Inductive Channel :=
| publisher_
| depth_registered_publisher_
| disparity_publisher_
| disparity_registered_publisher_.

#[global] Instance Channel_eq_dec : EqDecision Channel.
Proof. solve_decision. Defined.

(** Modelled from the spec: the type of a subscriber count.  It is what
    [getNumSubscribers] of image_transport returns, a [uint32_t], and its
    declaration is not among the sources; the spec has it as an unsigned
    integer reported by the publish boundary.  A count is kept as a natural
    number, and the arithmetic the program does on counts is written out
    with the width of the C++ types, [uint32_add] and [size_t_add]. *)
Definition SubscriberCount : Type := N.

(** The sum of two [uint32_t] values is computed in 32 bits and wraps
    around. *)
Definition uint32_add (a b : N) : N := ((a + b) mod 2 ^ 32)%N.

(** The sum of two [size_t] values; [size_t] has 64 bits on the platforms
    the node is built for. *)
Definition size_t_add (a b : N) : N := ((a + b) mod 2 ^ 64)%N.

(** ** Boundary events *)

Inductive LogLevel := LOG_INFO | LOG_WARN | LOG_ERROR.

Inductive Event :=
| EvCreate (type : SensorType) (rc : Status)
| EvDestroy
| EvStart (rc : Status)
| EvStop
| EvAddNewFrameListener
| EvRemoveNewFrameListener
| EvSetVideoMode (mode : VideoMode) (rc : Status)
| EvSetMirroringEnabled (on : bool)
| EvSetAutoExposureEnabled (on : bool)
| EvSetAutoWhiteBalanceEnabled (on : bool)
| EvSetImageRegistrationMode (mode : ImageRegistrationMode)
| EvSetDepthColorSyncEnabled (on : bool)
| EvSleep (milliseconds : Z)
| EvLog (level : LogLevel) (msg : string)
| EvAdvertiseCamera (channel : Channel)
| EvPublish (channel : Channel) (image : Image) (camera_info : CameraInfo).

(** ** A state monad with failure that collects the events of a run

    [E] is the type of events.  A run ends normally ([Done]), at a failed
    [assert] or with a C++ exception; the state and the events up to that
    point are kept. *)

Inductive Outcome (A : Type) :=
| Done (a : A)
| AssertionFailed (expr : string)
| Thrown (what : string).
Arguments Done {A} a.
Arguments AssertionFailed {A} expr.
Arguments Thrown {A} what.

Definition M (E S A : Type) : Type := S -> Outcome A * S * list E.

(** Projections of a finished run. *)
Definition outcome {E S A} (r : Outcome A * S * list E) : Outcome A := fst (fst r).
Definition final {E S A} (r : Outcome A * S * list E) : S := snd (fst r).
Definition events {E S A} (r : Outcome A * S * list E) : list E := snd r.

Definition ret {E S A} (a : A) : M E S A := fun s => (Done a, s, []).

Definition bind {E S A B} (m : M E S A) (k : A -> M E S B) : M E S B :=
  fun s =>
    let r1 := m s in
    match outcome r1 with
    | Done a =>
        let r2 := k a (final r1) in
        (outcome r2, final r2, events r1 ++ events r2)
    | AssertionFailed expr => (AssertionFailed expr, final r1, events r1)
    | Thrown what => (Thrown what, final r1, events r1)
    end.

Definition gets {E S A} (f : S -> A) : M E S A := fun s => (Done (f s), s, []).
Definition modify {E S} (f : S -> S) : M E S unit := fun s => (Done tt, f s, []).
Definition emit {E S} (e : E) : M E S unit := fun s => (Done tt, s, [e]).
Definition throw {E S A} (what : string) : M E S A := fun s => (Thrown what, s, []).
Definition assertion_failed {E S A} (expr : string) : M E S A :=
  fun s => (AssertionFailed expr, s, []).

(** Run [m] on the part of the state selected by [get], write it back
    with [put] and relabel its events with [tag]. *)
Definition zoom {E F S T A} (get : S -> T) (put : T -> S -> S) (tag : E -> F)
    (m : M E T A) : M F S A :=
  fun s => let r := m (get s) in (outcome r, put (final r) s, map tag (events r)).

Definition when {E S} (c : bool) (m : M E S unit) : M E S unit :=
  if c then m else ret tt.

(** [try { m } catch(std::exception& e) { handler(e.what()) }]: a failed
    assertion is not an exception and passes through. *)
Definition try_catch {E S} (m : M E S unit) (handler : string -> M E S unit) : M E S unit :=
  fun s =>
    let r := m s in
    match outcome r with
    | Thrown what =>
        let r2 := handler what (final r) in
        (outcome r2, final r2, events r ++ events r2)
    | _ => r
    end.

Notation "x <- m ;; k" := (bind m (fun x => k))
  (at level 100, m at next level, right associativity).
Notation "m ;;; k" := (bind m (fun _ => k))
  (at level 100, right associativity).

(** ROS console macros. *)
Definition ROS_LOG {S} (level : LogLevel) (msg : string) : M Event S unit :=
  emit (EvLog level msg).
Definition ROS_LOG_COND {S} (level : LogLevel) (c : bool) (msg : string) : M Event S unit :=
  when c (ROS_LOG level msg).

(** [ros::Duration(seconds).sleep()], the duration kept in milliseconds. *)
Definition ros_sleep {S} (milliseconds : Z) : M Event S unit :=
  emit (EvSleep milliseconds).

(** ** The simulated SDK *)

Record VideoStream := mkVideoStream {
  vs_valid : bool;                (* isValid(): a handle exists *)
  vs_sensor : SensorType;         (* getSensorInfo().getSensorType() *)
  vs_mode : VideoMode;            (* getVideoMode() *)
  vs_started : bool;
  vs_listener : bool;             (* the manager is a registered NewFrameListener *)
  vs_mirroring : bool;
  vs_auto_exposure : bool;
  vs_auto_white_balance : bool
}.

(** The device with the hardware's answers still to come.  A reply list
    that has run out answers [STATUS_OK].  A [setVideoMode] reply is the
    status and, for a rejection, the mode the stream is left in ([None]:
    untouched). *)
Record Device := mkDevice {
  dev_has_sensor : SensorType -> bool;
  dev_registration : ImageRegistrationMode;
  dev_registration_supported : bool;
  dev_depth_color_sync : bool;
  dev_creation_mode : SensorType -> VideoMode;
  dev_create_replies : list Status;
  dev_start_replies : list Status;
  dev_setmode_replies : list (Status * option VideoMode)
}.

Definition set_vs_mode (m : VideoMode) (vs : VideoStream) : VideoStream :=
  mkVideoStream (vs_valid vs) (vs_sensor vs) m (vs_started vs) (vs_listener vs)
    (vs_mirroring vs) (vs_auto_exposure vs) (vs_auto_white_balance vs).
Definition set_vs_started (b : bool) (vs : VideoStream) : VideoStream :=
  mkVideoStream (vs_valid vs) (vs_sensor vs) (vs_mode vs) b (vs_listener vs)
    (vs_mirroring vs) (vs_auto_exposure vs) (vs_auto_white_balance vs).
Definition set_vs_listener (b : bool) (vs : VideoStream) : VideoStream :=
  mkVideoStream (vs_valid vs) (vs_sensor vs) (vs_mode vs) (vs_started vs) b
    (vs_mirroring vs) (vs_auto_exposure vs) (vs_auto_white_balance vs).
Definition set_vs_mirroring (b : bool) (vs : VideoStream) : VideoStream :=
  mkVideoStream (vs_valid vs) (vs_sensor vs) (vs_mode vs) (vs_started vs) (vs_listener vs)
    b (vs_auto_exposure vs) (vs_auto_white_balance vs).
Definition set_vs_auto_exposure (b : bool) (vs : VideoStream) : VideoStream :=
  mkVideoStream (vs_valid vs) (vs_sensor vs) (vs_mode vs) (vs_started vs) (vs_listener vs)
    (vs_mirroring vs) b (vs_auto_white_balance vs).
Definition set_vs_auto_white_balance (b : bool) (vs : VideoStream) : VideoStream :=
  mkVideoStream (vs_valid vs) (vs_sensor vs) (vs_mode vs) (vs_started vs) (vs_listener vs)
    (vs_mirroring vs) (vs_auto_exposure vs) b.

(** A stream object without a handle, as a default-constructed
    [openni::VideoStream] or one after [destroy]. *)
Definition invalidate (vs : VideoStream) : VideoStream :=
  mkVideoStream false (vs_sensor vs) (vs_mode vs) false false
    (vs_mirroring vs) (vs_auto_exposure vs) (vs_auto_white_balance vs).

Definition set_dev_registration (r : ImageRegistrationMode) (d : Device) : Device :=
  mkDevice (dev_has_sensor d) r (dev_registration_supported d) (dev_depth_color_sync d)
    (dev_creation_mode d) (dev_create_replies d) (dev_start_replies d) (dev_setmode_replies d).
Definition set_dev_depth_color_sync (b : bool) (d : Device) : Device :=
  mkDevice (dev_has_sensor d) (dev_registration d) (dev_registration_supported d) b
    (dev_creation_mode d) (dev_create_replies d) (dev_start_replies d) (dev_setmode_replies d).
Definition set_dev_create_replies (l : list Status) (d : Device) : Device :=
  mkDevice (dev_has_sensor d) (dev_registration d) (dev_registration_supported d)
    (dev_depth_color_sync d) (dev_creation_mode d) l (dev_start_replies d) (dev_setmode_replies d).
Definition set_dev_start_replies (l : list Status) (d : Device) : Device :=
  mkDevice (dev_has_sensor d) (dev_registration d) (dev_registration_supported d)
    (dev_depth_color_sync d) (dev_creation_mode d) (dev_create_replies d) l (dev_setmode_replies d).
Definition set_dev_setmode_replies (l : list (Status * option VideoMode)) (d : Device) : Device :=
  mkDevice (dev_has_sensor d) (dev_registration d) (dev_registration_supported d)
    (dev_depth_color_sync d) (dev_creation_mode d) (dev_create_replies d) (dev_start_replies d) l.

Module SDK.

(** The state a stream call works on: the stream object and its device. *)
Definition St : Type := VideoStream * Device.

(** [stream.create(device, type)]: on [STATUS_OK] the object holds a fresh
    handle of that sensor, in the mode the driver gives a new stream,
    stopped and with no listener. *)
Definition create (type : SensorType) : M Event St Status :=
  fun s =>
    let vs := fst s in
    let d := snd s in
    let rc := hd STATUS_OK (dev_create_replies d) in
    let d' := set_dev_create_replies (tl (dev_create_replies d)) d in
    let vs' :=
      if is_OK rc
      then mkVideoStream true type (dev_creation_mode d type) false false
             (vs_mirroring vs) (vs_auto_exposure vs) (vs_auto_white_balance vs)
      else vs in
    (Done rc, (vs', d'), [EvCreate type rc]).

Definition destroy : M Event St unit :=
  fun s => (Done tt, (invalidate (fst s), snd s), [EvDestroy]).

(** [stream.start()]: an object without a handle answers [STATUS_ERROR];
    otherwise the hardware's next reply decides. *)
Definition start : M Event St Status :=
  fun s =>
    let vs := fst s in
    let d := snd s in
    if vs_valid vs then
      let rc := hd STATUS_OK (dev_start_replies d) in
      let d' := set_dev_start_replies (tl (dev_start_replies d)) d in
      (Done rc, ((if is_OK rc then set_vs_started true vs else vs), d'), [EvStart rc])
    else (Done STATUS_ERROR, s, [EvStart STATUS_ERROR]).

Definition stop : M Event St unit :=
  fun s => (Done tt, (set_vs_started false (fst s), snd s), [EvStop]).

Definition addNewFrameListener : M Event St unit :=
  fun s =>
    (Done tt, ((if vs_valid (fst s) then set_vs_listener true (fst s) else fst s), snd s),
     [EvAddNewFrameListener]).

Definition removeNewFrameListener : M Event St unit :=
  fun s => (Done tt, (set_vs_listener false (fst s), snd s), [EvRemoveNewFrameListener]).

Definition getVideoMode : M Event St VideoMode := gets (fun s => vs_mode (fst s)).

(** [stream.setVideoMode(mode)]: accepted, the stream is in [mode];
    rejected, it is in the mode the reply names, or untouched. *)
Definition setVideoMode (mode : VideoMode) : M Event St Status :=
  fun s =>
    let vs := fst s in
    let d := snd s in
    if vs_valid vs then
      let reply := hd (STATUS_OK, None) (dev_setmode_replies d) in
      let rc := fst reply in
      let d' := set_dev_setmode_replies (tl (dev_setmode_replies d)) d in
      let vs' :=
        if is_OK rc then set_vs_mode mode vs
        else match snd reply with
             | Some partial => set_vs_mode partial vs
             | None => vs
             end in
      (Done rc, (vs', d'), [EvSetVideoMode mode rc])
    else (Done STATUS_ERROR, s, [EvSetVideoMode mode STATUS_ERROR]).

Definition setMirroringEnabled (on : bool) : M Event St unit :=
  fun s => (Done tt, (set_vs_mirroring on (fst s), snd s), [EvSetMirroringEnabled on]).

(** [stream.getCameraSettings()->setAutoExposureEnabled(on)] *)
Definition setAutoExposureEnabled (on : bool) : M Event St unit :=
  fun s => (Done tt, (set_vs_auto_exposure on (fst s), snd s), [EvSetAutoExposureEnabled on]).

(** [stream.getCameraSettings()->setAutoWhiteBalanceEnabled(on)] *)
Definition setAutoWhiteBalanceEnabled (on : bool) : M Event St unit :=
  fun s =>
    (Done tt, (set_vs_auto_white_balance on (fst s), snd s), [EvSetAutoWhiteBalanceEnabled on]).

(** Device calls. *)
Definition setImageRegistrationMode (mode : ImageRegistrationMode) : M Event Device unit :=
  fun d => (Done tt, set_dev_registration mode d, [EvSetImageRegistrationMode mode]).

Definition setDepthColorSyncEnabled (on : bool) : M Event Device unit :=
  fun d => (Done tt, set_dev_depth_color_sync on d, [EvSetDepthColorSyncEnabled on]).

End SDK.

(** ** findVideoMode *)

Definition matches (mode : VideoMode) (x y : Z) (format : PixelFormat) (fps : Z) : bool :=
  (getResolutionX mode =? x) && (getResolutionY mode =? y)
  && bool_decide (getPixelFormat mode = format) && (getFps mode =? fps).

(** The loop of [findVideoMode] from index [idx] on, [modes] being the
    elements from there; [0] is the initial [result]. *)
Fixpoint findVideoMode_from (idx : Z) (modes : list VideoMode) (x y : Z)
    (format : PixelFormat) (fps : Z) : Z :=
  match modes with
  | [] => 0
  | mode :: rest =>
      if matches mode x y format fps then idx
      else findVideoMode_from (idx + 1) rest x y format fps
  end.

Definition findVideoMode (modes : list VideoMode) (x y : Z) (format : PixelFormat)
    (fps : Z) : Z :=
  findVideoMode_from 0 modes x y format fps.

(** The call with the default argument [fps = 30]. *)
Definition findVideoMode_default_fps (modes : list VideoMode) (x y : Z)
    (format : PixelFormat) : Z :=
  findVideoMode modes x y format 30.

(** ** toString

    An object of a C++ enumeration type holds any value of the underlying
    integer type, not only the enumerators.  The argument of the two
    functions is therefore either an enumerator, one of those the [switch]
    lists, or another value, which takes the [default] branch. *)

Inductive EnumValue (A : Type) : Type :=
  | enumerator (a : A)
  | other_value (value : Z).

Arguments enumerator {A} a.
Arguments other_value {A} value.

Definition toString_PixelFormat (format : EnumValue PixelFormat) : string :=
  match format with
  | enumerator PIXEL_FORMAT_DEPTH_1_MM => "DEPTH_1_MM"
  | enumerator PIXEL_FORMAT_DEPTH_100_UM => "DEPTH_100_UM"
  | enumerator PIXEL_FORMAT_SHIFT_9_2 => "SHIFT_9_2"
  | enumerator PIXEL_FORMAT_SHIFT_9_3 => "SHIFT_9_3"
  | enumerator PIXEL_FORMAT_RGB888 => "RGB888"
  | enumerator PIXEL_FORMAT_YUV422 => "YUV422"
  | enumerator PIXEL_FORMAT_GRAY8 => "GRAY8"
  | enumerator PIXEL_FORMAT_GRAY16 => "GRAY16"
  | enumerator PIXEL_FORMAT_JPEG => "JPEG"
  | other_value _ => "unknown"
  end.

Definition toString_SensorType (type : EnumValue SensorType) : string :=
  match type with
  | enumerator SENSOR_COLOR => "COLOR"
  | enumerator SENSOR_DEPTH => "DEPTH"
  | enumerator SENSOR_IR => "IR"
  | other_value _ => "unknown"
  end.

(** ** MethodNotSupportedException *)

Definition MethodNotSupportedException (method : string) : string :=
  "Method '" +:+ method +:+ "' is not supported!".

(** ** SensorStreamManagerBase: the manager of a sensor the device lacks *)

Module SensorStreamManagerBase.

Definition stream {S A} : M Event S A :=
  throw (MethodNotSupportedException "SensorStreamManagerBase::stream()").

Definition beginConfigure {S} : M Event S bool := ret false.

Definition tryConfigureVideoMode {S} (mode : VideoMode) : M Event S bool :=
  throw (MethodNotSupportedException "SensorStreamManagerBase::tryConfigureVideoMode()").

Definition endConfigure {S} : M Event S unit :=
  throw (MethodNotSupportedException "SensorStreamManagerBase::endConfigure()").

End SensorStreamManagerBase.

(** ** SensorStreamManager *)

Record SensorStreamManager := mkSensorStreamManager {
  stream_ : VideoStream;
  default_mode_ : VideoMode;
  name_ : string;
  frame_id_ : string;
  running_ : bool;
  was_running_ : bool
}.

Definition set_stream_ (vs : VideoStream) (m : SensorStreamManager) : SensorStreamManager :=
  mkSensorStreamManager vs (default_mode_ m) (name_ m) (frame_id_ m) (running_ m) (was_running_ m).
Definition set_frame_id_ (id : string) (m : SensorStreamManager) : SensorStreamManager :=
  mkSensorStreamManager (stream_ m) (default_mode_ m) (name_ m) id (running_ m) (was_running_ m).
Definition set_running_ (b : bool) (m : SensorStreamManager) : SensorStreamManager :=
  mkSensorStreamManager (stream_ m) (default_mode_ m) (name_ m) (frame_id_ m) b (was_running_ m).
Definition set_was_running_ (b : bool) (m : SensorStreamManager) : SensorStreamManager :=
  mkSensorStreamManager (stream_ m) (default_mode_ m) (name_ m) (frame_id_ m) (running_ m) b.

(** [double(i)] for an [int] *)
Definition double_of_int (i : Z) : float :=
  if i <? 0 then (- of_uint63 (of_Z (- i)))%float else of_uint63 (of_Z i).

(** Conversion of an [int] to the [uint32] fields of the ROS messages. *)
Definition to_uint32 (i : Z) : Z := Z.modulo i (2 ^ 32).

(** The members of [sensor_msgs::image_encodings] the listener uses. *)
Definition MONO8 : string := "mono8".
Definition MONO16 : string := "mono16".
Definition YUV422 : string := "yuv422".
Definition RGB8 : string := "rgb8".
Definition TYPE_16UC1 : string := "16UC1".

(** The body of [onNewFrame] up to the virtual [publish]: the two messages
    built from the frame.  [ts] is [ros::Time::now()] and [frame] what
    [stream.readFrame] delivers. *)
Definition frame_messages {S} (frame_id : string) (ts : Z) (frame : VideoFrameRef)
    : M Event S (Image * CameraInfo) :=
  let scale := (double_of_int (getWidth frame) / double_of_int 1280)%float in
  let K0 := replicate 9 0%float in
  let K1 := <[0%nat := (1050.0 * scale)%float]> K0 in
  let K2 := <[4%nat := (1050.0 * scale)%float]> K1 in
  let K3 := <[2%nat := (double_of_int (getWidth frame) / 2.0 - 0.5)%float]> K2 in
  let K4 := <[5%nat := (double_of_int (getHeight frame) / 2.0 - 0.5)%float]> K3 in
  let P0 := replicate 12 0%float in
  let P1 := <[0%nat := (1050.0 * scale)%float]> P0 in
  let P2 := <[5%nat := (1050.0 * scale)%float]> P1 in
  let P3 := <[2%nat := (double_of_int (getWidth frame) / 2.0 - 0.5)%float]> P2 in
  let P4 := <[6%nat := (double_of_int (getHeight frame) / 2.0 - 0.5)%float]> P3 in
  let info :=
    mkCameraInfo (mkHeader ts frame_id)
      (to_uint32 (getHeight frame)) (to_uint32 (getWidth frame)) K4 P4 in
  encoding <-
    match getPixelFormat (getVideoMode frame) with
    | PIXEL_FORMAT_GRAY8 => ret MONO8
    | PIXEL_FORMAT_GRAY16 => ret MONO16
    | PIXEL_FORMAT_YUV422 => ret YUV422
    | PIXEL_FORMAT_RGB888 => ret RGB8
    | PIXEL_FORMAT_SHIFT_9_2
    | PIXEL_FORMAT_DEPTH_1_MM => ret TYPE_16UC1
    | _ => ROS_LOG LOG_WARN "Unknown OpenNI pixel format!" ;;; ret EmptyString
    end ;;
  let img :=
    mkImage (mkHeader ts frame_id)
      (to_uint32 (getHeight frame)) (to_uint32 (getWidth frame))
      encoding (to_uint32 (getStrideInBytes frame)) (getData frame) in
  ret (img, info).

Module SensorStreamManager.

Definition St : Type := SensorStreamManager * Device.

(** Reading and assigning members of [this]. *)
Definition this {A} (f : SensorStreamManager -> A) : M Event St A :=
  gets (fun s => f (fst s)).
Definition assign (f : SensorStreamManager -> SensorStreamManager) : M Event St unit :=
  modify (fun s => (f (fst s), snd s)).

(** A call on [stream_]. *)
Definition on_stream {A} (call : M Event SDK.St A) : M Event St A :=
  zoom (fun s => (stream_ (fst s), snd s))
       (fun t s => (set_stream_ (fst t) (fst s), snd t))
       (fun e => e) call.

Definition publish (image : Image) (camera_info : CameraInfo) : M Event St unit :=
  emit (EvPublish publisher_ image camera_info).

(** The stream member before the constructor body runs. *)
Definition no_stream (type : SensorType) (default_mode : VideoMode) : VideoStream :=
  mkVideoStream false type default_mode false false false false false.

(** The constructor.  [was_running_] has no initialiser: its first value
    is whatever the caller of this model passes as [indeterminate]. *)
Definition new (type : SensorType) (name frame_id : string) (default_mode : VideoMode)
    (indeterminate : bool) : M Event Device SensorStreamManager :=
  fun device =>
    let this0 :=
      mkSensorStreamManager (no_stream type default_mode) default_mode name frame_id
        false indeterminate in
    let body : M Event St unit :=
      (if dev_has_sensor device type then ret tt
       else assertion_failed "device_.hasSensor(type)") ;;;
      emit (EvAdvertiseCamera publisher_) ;;;
      rc <- on_stream (SDK.create type) ;;
      ROS_LOG_COND LOG_ERROR (negb (is_OK rc))
        ("Failed to create stream '" +:+ toString_SensorType (enumerator type) +:+ "'!") ;;;
      on_stream SDK.addNewFrameListener ;;;
      rc <- on_stream (SDK.setVideoMode default_mode) ;;
      ROS_LOG_COND LOG_ERROR (negb (is_OK rc))
        ("Failed to set default video mode for stream '"
           +:+ toString_SensorType (enumerator type) +:+ "'!") in
    let r := body (this0, device) in
    (match outcome r with
     | Done _ => Done (fst (final r))
     | AssertionFailed expr => AssertionFailed expr
     | Thrown what => Thrown what
     end, snd (final r), events r).

Definition beginConfigure : M Event St bool :=
  running <- this running_ ;;
  assign (set_was_running_ running) ;;;
  was_running <- this was_running_ ;;
  when was_running (on_stream SDK.stop) ;;;
  assign (set_running_ false) ;;;
  ret true.

(** [int max_trials = 1;] *)
Definition max_trials : Z := 1.

(** The body of the [for] loop of [endConfigure]; its value is the new
    [rc]. *)
Definition recovery_trial (trials : Z) (type : SensorType) : M Event St Status :=
  ros_sleep 100 ;;;
  on_stream SDK.removeNewFrameListener ;;;
  on_stream SDK.destroy ;;;
  _ <- on_stream (SDK.create type) ;;
  on_stream SDK.addNewFrameListener ;;;
  (* //stream_.setVideoMode(default_mode_); *)
  rc <- on_stream SDK.start ;;
  ROS_LOG_COND LOG_WARN (negb (is_OK rc))
    ("Recovery trial " +:+ pretty trials +:+ " failed!") ;;;
  ret rc.

(** The loop [for(int trials = 0; trials < max_trials && rc != STATUS_OK;
    ++trials)], by recursion on [remaining = max_trials - trials]: the
    test [trials < max_trials] is [remaining <> 0]. *)
Fixpoint recovery_trials (remaining : nat) (trials : Z) (type : SensorType)
    (rc : Status) : M Event St Status :=
  match remaining with
  | O => ret rc
  | S remaining' =>
      if is_OK rc then ret rc
      else
        rc' <- recovery_trial trials type ;;
        recovery_trials remaining' (trials + 1) type rc'
  end.

Definition endConfigure : M Event St unit :=
  was_running <- this was_running_ ;;
  if was_running then
    rc <- on_stream SDK.start ;;
    rc <-
      (if negb (is_OK rc) then
         type <- this (fun m => vs_sensor (stream_ m)) ;;
         name <- this name_ ;;
         ROS_LOG LOG_WARN
           ("Failed to restart stream '" +:+ name +:+ "' after configuration!") ;;;
         rc <- recovery_trials (Z.to_nat (max_trials - 0)) 0 type rc ;;
         ROS_LOG_COND LOG_ERROR (negb (is_OK rc))
           ("Failed to recover stream '" +:+ name +:+ "'! Restart required!") ;;;
         ROS_LOG_COND LOG_INFO (is_OK rc) ("Recovered stream '" +:+ name +:+ "'.") ;;;
         ret rc
       else ret rc) ;;
    when (is_OK rc) (assign (set_running_ true))
  else ret tt.

Definition tryConfigureVideoMode (mode : VideoMode) : M Event St bool :=
  old <- on_stream SDK.getVideoMode ;;
  rc <- on_stream (SDK.setVideoMode mode) ;;
  if negb (is_OK rc) then
    rc' <- on_stream (SDK.setVideoMode old) ;;
    ROS_LOG_COND LOG_ERROR (negb (is_OK rc')) "Failed to recover old video mode!" ;;;
    ret false
  else ret true.

(** [num_subscribers] is [topic.getNumSubscribers()]. *)
Definition onSubscriptionChanged (num_subscribers : SubscriberCount) : M Event St unit :=
  if (0 <? num_subscribers)%N then
    running <- this running_ ;;
    if negb running then
      rc <- on_stream SDK.start ;;
      when (is_OK rc) (assign (set_running_ true))
    else ret tt
  else
    on_stream SDK.stop ;;;
    assign (set_running_ false).

Definition onNewFrame (ts : Z) (frame : VideoFrameRef) : M Event St unit :=
  frame_id <- this frame_id_ ;;
  msgs <- frame_messages frame_id ts frame ;;
  publish (fst msgs) (snd msgs).

End SensorStreamManager.

(** ** DepthSensorStreamManager *)

Record DepthSensorStreamManager := mkDepthSensorStreamManager {
  base : SensorStreamManager;
  active_publisher_ : option Channel;     (* [None] is the null pointer *)
  rgb_frame_id_ : string;
  depth_frame_id_ : string
}.

Definition set_base (b : SensorStreamManager) (m : DepthSensorStreamManager)
    : DepthSensorStreamManager :=
  mkDepthSensorStreamManager b (active_publisher_ m) (rgb_frame_id_ m) (depth_frame_id_ m).
Definition set_active_publisher_ (p : option Channel) (m : DepthSensorStreamManager)
    : DepthSensorStreamManager :=
  mkDepthSensorStreamManager (base m) p (rgb_frame_id_ m) (depth_frame_id_ m).

Module DepthSensorStreamManager.

Definition St : Type := DepthSensorStreamManager * Device.

Definition this {A} (f : DepthSensorStreamManager -> A) : M Event St A :=
  gets (fun s => f (fst s)).
Definition assign (f : DepthSensorStreamManager -> DepthSensorStreamManager)
    : M Event St unit :=
  modify (fun s => (f (fst s), snd s)).

(** A member function of the base class run on the base part of [this]. *)
Definition super {A} (call : M Event SensorStreamManager.St A) : M Event St A :=
  zoom (fun s => (base (fst s), snd s))
       (fun t s => (set_base (fst t) (fst s), snd t))
       (fun e => e) call.

Definition publish (image : Image) (camera_info : CameraInfo) : M Event St unit :=
  active_publisher <- this active_publisher_ ;;
  match active_publisher with
  | Some p => emit (EvPublish p image camera_info)
  | None => ret tt
  end.

Definition updateActivePublisher : M Event St unit :=
  registration <- gets (fun s => dev_registration (snd s)) ;;
  p <-
    (if bool_decide (registration = IMAGE_REGISTRATION_DEPTH_TO_COLOR) then
       rgb_frame_id <- this rgb_frame_id_ ;;
       super (SensorStreamManager.assign (set_frame_id_ rgb_frame_id)) ;;;
       ret (depth_registered_publisher_, disparity_registered_publisher_)
     else
       depth_frame_id <- this depth_frame_id_ ;;
       super (SensorStreamManager.assign (set_frame_id_ depth_frame_id)) ;;;
       ret (publisher_, disparity_publisher_)) ;;
  let p_depth := fst p in
  let p_disparity := snd p in
  mode <- super (SensorStreamManager.on_stream SDK.getVideoMode) ;;
  if bool_decide (getPixelFormat mode = PIXEL_FORMAT_DEPTH_1_MM) then
    assign (set_active_publisher_ (Some p_depth))
  else
    mode <- super (SensorStreamManager.on_stream SDK.getVideoMode) ;;
    if bool_decide (getPixelFormat mode = PIXEL_FORMAT_SHIFT_9_2) then
      assign (set_active_publisher_ (Some p_disparity))
    else
      assign (set_active_publisher_ None).

(** The constructor: the base constructor for [SENSOR_DEPTH] named
    ["depth"], then the three further publishers. *)
Definition new (rgb_frame_id depth_frame_id : string) (default_mode : VideoMode)
    (indeterminate : bool) : M Event Device DepthSensorStreamManager :=
  b <- SensorStreamManager.new SENSOR_DEPTH "depth" depth_frame_id default_mode
         indeterminate ;;
  emit (EvAdvertiseCamera depth_registered_publisher_) ;;;
  emit (EvAdvertiseCamera disparity_publisher_) ;;;
  emit (EvAdvertiseCamera disparity_registered_publisher_) ;;;
  ret (mkDepthSensorStreamManager b None rgb_frame_id depth_frame_id).

(** The argument of the callback is not used: the counts are read from
    the four publishers, [getNumSubscribers] gives them.  Each of the two
    sums of counts is a sum of [uint32_t] values stored in a [size_t]; the
    total is the sum of the two [size_t] variables. *)
Definition onSubscriptionChanged (getNumSubscribers : Channel -> SubscriberCount)
    : M Event St unit :=
  let disparity_clients :=
    uint32_add (getNumSubscribers disparity_publisher_)
               (getNumSubscribers disparity_registered_publisher_) in
  let depth_clients :=
    uint32_add (getNumSubscribers publisher_)
               (getNumSubscribers depth_registered_publisher_) in
  let all_clients := size_t_add disparity_clients depth_clients in
  running <- this (fun m => running_ (base m)) ;;
  (if negb running && (0 <? all_clients)%N then
     rc <- super (SensorStreamManager.on_stream SDK.start) ;;
     super (SensorStreamManager.assign (set_running_ (is_OK rc)))
   else if running && (all_clients =? 0)%N then
     super (SensorStreamManager.on_stream SDK.stop) ;;;
     super (SensorStreamManager.assign (set_running_ false))
   else ret tt) ;;;
  running <- this (fun m => running_ (base m)) ;;
  when running updateActivePublisher.

Definition endConfigure : M Event St unit :=
  super SensorStreamManager.endConfigure ;;;
  running <- this (fun m => running_ (base m)) ;;
  when running updateActivePublisher.

(** The inherited listener, its [publish] resolved to this class. *)
Definition onNewFrame (ts : Z) (frame : VideoFrameRef) : M Event St unit :=
  frame_id <- this (fun m => frame_id_ (base m)) ;;
  msgs <- frame_messages frame_id ts frame ;;
  publish (fst msgs) (snd msgs).

End DepthSensorStreamManager.

(** ** CameraImpl *)

(** What a [boost::shared_ptr<SensorStreamManagerBase>] points to. *)
Inductive Sensor :=
| Absent
| Plain (m : SensorStreamManager)
| DepthRouter (m : DepthSensorStreamManager).

(** The three sensor members of [CameraImpl]. *)
Inductive Slot := RGB | DEPTH | IR.

#[global] Instance Slot_eq_dec : EqDecision Slot.
Proof. solve_decision. Defined.

Inductive Method :=
| call_stream
| call_beginConfigure
| call_tryConfigureVideoMode (mode : VideoMode)
| call_endConfigure.

(** Events of the camera: the virtual calls [configure] makes on a sensor
    member, what the called manager does, and calls on [device_]. *)
Inductive CamEvent :=
| Call (slot : Slot) (method : Method)
| OnSensor (slot : Slot) (e : Event)
| OnDevice (e : Event).

(** The request of dynamic_reconfigure, [CameraConfig]. *)
Record CameraConfig := mkCameraConfig {
  rgb_resolution : Z;
  depth_resolution : Z;
  ir_resolution : Z;
  auto_exposure : bool;
  auto_white_balance : bool;
  mirror : bool;
  depth_registration : bool
}.

Definition set_depth_registration (b : bool) (cfg : CameraConfig) : CameraConfig :=
  mkCameraConfig (rgb_resolution cfg) (depth_resolution cfg) (ir_resolution cfg)
    (auto_exposure cfg) (auto_white_balance cfg) (mirror cfg) b.

Record CameraImpl := mkCameraImpl {
  rgb_sensor_ : Sensor;
  depth_sensor_ : Sensor;
  ir_sensor_ : Sensor;
  resolutions_ : gmap Z VideoMode;
  device_ : Device
}.

Definition sensor_at (slot : Slot) (cam : CameraImpl) : Sensor :=
  match slot with
  | RGB => rgb_sensor_ cam
  | DEPTH => depth_sensor_ cam
  | IR => ir_sensor_ cam
  end.

Definition set_sensor_at (slot : Slot) (x : Sensor) (cam : CameraImpl) : CameraImpl :=
  match slot with
  | RGB => mkCameraImpl x (depth_sensor_ cam) (ir_sensor_ cam) (resolutions_ cam) (device_ cam)
  | DEPTH => mkCameraImpl (rgb_sensor_ cam) x (ir_sensor_ cam) (resolutions_ cam) (device_ cam)
  | IR => mkCameraImpl (rgb_sensor_ cam) (depth_sensor_ cam) x (resolutions_ cam) (device_ cam)
  end.

Definition set_device_ (d : Device) (cam : CameraImpl) : CameraImpl :=
  mkCameraImpl (rgb_sensor_ cam) (depth_sensor_ cam) (ir_sensor_ cam) (resolutions_ cam) d.

Definition set_resolutions_ (r : gmap Z VideoMode) (cam : CameraImpl) : CameraImpl :=
  mkCameraImpl (rgb_sensor_ cam) (depth_sensor_ cam) (ir_sensor_ cam) r (device_ cam).

(** The names of the resolution constants of the generated
    [CameraConfig.h]. *)
Inductive Resolution :=
| Camera_RGB_320x240_30Hz
| Camera_RGB_320x240_60Hz
| Camera_RGB_640x480_30Hz
| Camera_RGB_1280x720_30Hz
| Camera_RGB_1280x1024_30Hz
| Camera_YUV_320x240_30Hz
| Camera_YUV_320x240_60Hz
| Camera_YUV_640x480_30Hz
| Camera_YUV_1280x1024_30Hz
| Camera_DEPTH_320x240_30Hz
| Camera_DEPTH_320x240_60Hz
| Camera_DEPTH_640x480_30Hz
| Camera_DISPARITY_320x240_30Hz
| Camera_DISPARITY_320x240_60Hz
| Camera_DISPARITY_640x480_30Hz
| Camera_IR_320x240_30Hz
| Camera_IR_320x240_60Hz
| Camera_IR_640x480_30Hz
| Camera_IR_1280x1024_30Hz.

(** The identity of a device, [openni::DeviceInfo]. *)
Record DeviceInfo := mkDeviceInfo {
  getUri : string;
  getVendor : string;
  getName : string
}.

Inductive DeviceProperty :=
| DEVICE_PROPERTY_HARDWARE_VERSION
| DEVICE_PROPERTY_FIRMWARE_VERSION
| DEVICE_PROPERTY_DRIVER_VERSION.

(** What the opened device tells about itself: its [DeviceInfo], the
    answer to [getProperty(id, buffer, &size)] as the status and the
    [size] bytes written to the buffer, and the video modes
    [getSensorInfo(type)->getSupportedVideoModes()] lists. *)
Record DeviceReport := mkDeviceReport {
  getDeviceInfo : DeviceInfo;
  getProperty : DeviceProperty -> Status * string;
  getSupportedVideoModes : SensorType -> list VideoMode
}.

(** Events of the construction of a camera: opening the device, a line
    of [ROS_INFO_STREAM], what the constructor of the manager of a slot
    does, a call on [device_], the registration of the callback of the
    reconfigure server, what the callback does when the server calls it,
    and a warning of the server. *)
Inductive StartupEvent :=
| EvOpen (uri : string)
| EvInfo (msg : string)
| EvConstruct (slot : Slot) (e : Event)
| EvDevice (e : Event)
| EvSetCallback
| EvCallback (e : CamEvent)
| EvWarn (msg : string).

Module CameraImpl.

(** The state [configure] works on: the object and the request it may amend. *)
Definition St : Type := CameraImpl * CameraConfig.

Definition this {A} (f : CameraImpl -> A) : M CamEvent St A :=
  gets (fun s => f (fst s)).

(** A call on [device_]. *)
Definition on_device {A} (call : M Event Device A) : M CamEvent St A :=
  zoom (fun s => device_ (fst s))
       (fun d s => (set_device_ d (fst s), snd s))
       OnDevice call.

(** Running a member function of the manager [m] found in [slot]; [wrap]
    rebuilds the pointee. *)
Definition on_manager {Mgr A} (slot : Slot) (wrap : Mgr -> Sensor) (m : Mgr)
    (call : M Event (Mgr * Device) A) : M CamEvent St A :=
  zoom (fun s => (m, device_ (fst s)))
       (fun t s => (set_sensor_at slot (wrap (fst t)) (set_device_ (snd t) (fst s)), snd s))
       (OnSensor slot) call.

(** Virtual dispatch of the four member functions of
    [SensorStreamManagerBase] on the pointee of [slot]. *)
Definition beginConfigure (slot : Slot) : M CamEvent St bool :=
  emit (Call slot call_beginConfigure) ;;;
  sensor <- this (sensor_at slot) ;;
  match sensor with
  | Absent => zoom (fun s => s) (fun _ s => s) (OnSensor slot)
                SensorStreamManagerBase.beginConfigure
  | Plain m => on_manager slot Plain m SensorStreamManager.beginConfigure
  | DepthRouter m =>
      on_manager slot DepthRouter m
        (DepthSensorStreamManager.super SensorStreamManager.beginConfigure)
  end.

Definition tryConfigureVideoMode (slot : Slot) (mode : VideoMode) : M CamEvent St bool :=
  emit (Call slot (call_tryConfigureVideoMode mode)) ;;;
  sensor <- this (sensor_at slot) ;;
  match sensor with
  | Absent => zoom (fun s => s) (fun _ s => s) (OnSensor slot)
                (SensorStreamManagerBase.tryConfigureVideoMode mode)
  | Plain m => on_manager slot Plain m (SensorStreamManager.tryConfigureVideoMode mode)
  | DepthRouter m =>
      on_manager slot DepthRouter m
        (DepthSensorStreamManager.super (SensorStreamManager.tryConfigureVideoMode mode))
  end.

Definition endConfigure (slot : Slot) : M CamEvent St unit :=
  emit (Call slot call_endConfigure) ;;;
  sensor <- this (sensor_at slot) ;;
  match sensor with
  | Absent => zoom (fun s => s) (fun _ s => s) (OnSensor slot)
                SensorStreamManagerBase.endConfigure
  | Plain m => on_manager slot Plain m SensorStreamManager.endConfigure
  | DepthRouter m => on_manager slot DepthRouter m DepthSensorStreamManager.endConfigure
  end.

(** [sensor->stream().call(...)] *)
Definition stream {A} (slot : Slot) (call : M Event SDK.St A) : M CamEvent St A :=
  emit (Call slot call_stream) ;;;
  sensor <- this (sensor_at slot) ;;
  match sensor with
  | Absent => zoom (fun s => s) (fun _ s => s) (OnSensor slot)
                SensorStreamManagerBase.stream
  | Plain m => on_manager slot Plain m (SensorStreamManager.on_stream call)
  | DepthRouter m =>
      on_manager slot DepthRouter m
        (DepthSensorStreamManager.super (SensorStreamManager.on_stream call))
  end.

(** [(level & bit) != 0] on the [uint32_t] mask. *)
Definition flagged (level bit : Z) : bool := negb (Z.land level bit =? 0).

Definition createVideoMode (x y fps : Z) (format : PixelFormat) : VideoMode :=
  mkVideoMode x y fps format.

Section Catalog.

(** The integer each generated constant stands for. *)
Variable value : Resolution -> Z.

Definition buildResolutionMap (resolutions : gmap Z VideoMode) : gmap Z VideoMode :=
  let r := resolutions in
  let r := <[value Camera_RGB_320x240_30Hz := createVideoMode 320 240 30 PIXEL_FORMAT_RGB888]> r in
  let r := <[value Camera_RGB_320x240_60Hz := createVideoMode 320 240 60 PIXEL_FORMAT_RGB888]> r in
  let r := <[value Camera_RGB_640x480_30Hz := createVideoMode 640 480 30 PIXEL_FORMAT_RGB888]> r in
  let r := <[value Camera_RGB_1280x720_30Hz := createVideoMode 1280 720 30 PIXEL_FORMAT_RGB888]> r in
  let r := <[value Camera_RGB_1280x1024_30Hz := createVideoMode 1280 1024 30 PIXEL_FORMAT_RGB888]> r in
  let r := <[value Camera_YUV_320x240_30Hz := createVideoMode 320 240 30 PIXEL_FORMAT_YUV422]> r in
  let r := <[value Camera_YUV_320x240_60Hz := createVideoMode 320 240 60 PIXEL_FORMAT_YUV422]> r in
  let r := <[value Camera_YUV_640x480_30Hz := createVideoMode 640 480 30 PIXEL_FORMAT_YUV422]> r in
  let r := <[value Camera_YUV_1280x1024_30Hz := createVideoMode 1280 1024 30 PIXEL_FORMAT_YUV422]> r in
  let r := <[value Camera_DEPTH_320x240_30Hz := createVideoMode 320 240 30 PIXEL_FORMAT_DEPTH_1_MM]> r in
  let r := <[value Camera_DEPTH_320x240_60Hz := createVideoMode 320 240 60 PIXEL_FORMAT_DEPTH_1_MM]> r in
  let r := <[value Camera_DEPTH_640x480_30Hz := createVideoMode 640 480 30 PIXEL_FORMAT_DEPTH_1_MM]> r in
  let r := <[value Camera_DISPARITY_320x240_30Hz := createVideoMode 320 240 30 PIXEL_FORMAT_SHIFT_9_2]> r in
  let r := <[value Camera_DISPARITY_320x240_60Hz := createVideoMode 320 240 60 PIXEL_FORMAT_SHIFT_9_2]> r in
  let r := <[value Camera_DISPARITY_640x480_30Hz := createVideoMode 640 480 30 PIXEL_FORMAT_SHIFT_9_2]> r in
  let r := <[value Camera_IR_320x240_30Hz := createVideoMode 320 240 30 PIXEL_FORMAT_RGB888]> r in
  let r := <[value Camera_IR_320x240_60Hz := createVideoMode 320 240 60 PIXEL_FORMAT_RGB888]> r in
  let r := <[value Camera_IR_640x480_30Hz := createVideoMode 640 480 30 PIXEL_FORMAT_RGB888]> r in
  let r := <[value Camera_IR_1280x1024_30Hz := createVideoMode 1280 1024 30 PIXEL_FORMAT_RGB888]> r in
  r.

End Catalog.

(** [resolutions_.find(key)] followed by [assert(e != resolutions_.end())];
    the result is [e->second]. *)
Definition find_resolution (key : Z) : M CamEvent St VideoMode :=
  e <- this (fun cam => resolutions_ cam !! key) ;;
  match e with
  | Some mode => ret mode
  | None => assertion_failed "e != resolutions_.end()"
  end.

(** The three blocks of [configure], in the order of the source, and the
    statement that follows them. *)
Definition configure_rgb (level : Z) : M CamEvent St unit :=
  ok <- beginConfigure RGB ;;
  when ok (
    when (flagged level 8) (
      key <- gets (fun s => rgb_resolution (snd s)) ;;
      mode <- find_resolution key ;;
      tryConfigureVideoMode RGB mode ;;; ret tt) ;;;
    when (flagged level 2) (
      on <- gets (fun s => auto_exposure (snd s)) ;;
      stream RGB (SDK.setAutoExposureEnabled on)) ;;;
    when (flagged level 4) (
      on <- gets (fun s => auto_white_balance (snd s)) ;;
      stream RGB (SDK.setAutoWhiteBalanceEnabled on)) ;;;
    when (flagged level 64) (
      on <- gets (fun s => mirror (snd s)) ;;
      stream RGB (SDK.setMirroringEnabled on)) ;;;
    endConfigure RGB).

(** The registration change inside the depth block,
    [if((level & 1) != 0) { ... }]. *)
Definition configure_registration (level : Z) : M CamEvent St unit :=
  when (flagged level 1) (
    requested <- gets (fun s => depth_registration (snd s)) ;;
    if requested then
      supported <- this (fun cam => dev_registration_supported (device_ cam)) ;;
      if supported then
        on_device (SDK.setImageRegistrationMode IMAGE_REGISTRATION_DEPTH_TO_COLOR)
      else
        modify (fun s => (fst s, set_depth_registration false (snd s)))
    else
      on_device (SDK.setImageRegistrationMode IMAGE_REGISTRATION_OFF)).

Definition configure_depth (level : Z) : M CamEvent St unit :=
  ok <- beginConfigure DEPTH ;;
  when ok (
    when (flagged level 16) (
      key <- gets (fun s => depth_resolution (snd s)) ;;
      mode <- find_resolution key ;;
      tryConfigureVideoMode DEPTH mode ;;; ret tt) ;;;
    configure_registration level ;;;
    when (flagged level 64) (
      on <- gets (fun s => mirror (snd s)) ;;
      stream DEPTH (SDK.setMirroringEnabled on)) ;;;
    endConfigure DEPTH).

Definition configure_ir (level : Z) : M CamEvent St unit :=
  ok <- beginConfigure IR ;;
  when ok (
    when (flagged level 32) (
      key <- gets (fun s => ir_resolution (snd s)) ;;
      mode <- find_resolution key ;;
      tryConfigureVideoMode IR mode ;;; ret tt) ;;;
    when (flagged level 64) (
      on <- gets (fun s => mirror (snd s)) ;;
      stream IR (SDK.setMirroringEnabled on)) ;;;
    endConfigure IR).

(** [void configure(CameraConfig& cfg, uint32_t level)]: [cfg] is the
    second component of the state. *)
Definition configure (level : Z) : M CamEvent St unit :=
  configure_rgb level ;;;
  configure_depth level ;;;
  configure_ir level ;;;
  on_device (SDK.setDepthColorSyncEnabled true).

(** A [for] loop over the elements of an array. *)
Fixpoint for_each {E S A} (l : list A) (body : A -> M E S unit) : M E S unit :=
  match l with
  | [] => ret tt
  | a :: rest => body a ;;; for_each rest body
  end.

Definition printDeviceInfo {S} (report : DeviceReport) : M StartupEvent S unit :=
  let info := getDeviceInfo report in
  let summary := EmptyString in
  let hw := getProperty report DEVICE_PROPERTY_HARDWARE_VERSION in
  let summary := if is_OK (fst hw) then summary +:+ " Hardware: " +:+ snd hw else summary in
  let fw := getProperty report DEVICE_PROPERTY_FIRMWARE_VERSION in
  let summary := if is_OK (fst fw) then summary +:+ " Firmware: " +:+ snd fw else summary in
  let drv := getProperty report DEVICE_PROPERTY_DRIVER_VERSION in
  let summary := if is_OK (fst drv) then summary +:+ " Driver: " +:+ snd drv else summary in
  emit (EvInfo (getVendor info +:+ " " +:+ getName info +:+ summary)).

(** The line [printVideoModes] logs for a mode. *)
Definition video_mode_line (mode : VideoMode) : string :=
  "    " +:+ toString_PixelFormat (enumerator (getPixelFormat mode)) +:+ " "
  +:+ pretty (getResolutionX mode) +:+ "x" +:+ pretty (getResolutionY mode)
  +:+ "@" +:+ pretty (getFps mode).

(** [info->getSensorType()] of [getSensorInfo(type)] is [type]. *)
Definition printVideoModes (report : DeviceReport) : M StartupEvent CameraImpl unit :=
  for_each [SENSOR_COLOR; SENSOR_DEPTH; SENSOR_IR] (fun type =>
    has <- gets (fun cam => dev_has_sensor (device_ cam) type) ;;
    if negb has then ret tt      (* continue *)
    else
      emit (EvInfo ("  " +:+ toString_SensorType (enumerator type))) ;;;
      for_each (getSupportedVideoModes report type) (fun mode =>
        emit (EvInfo (video_mode_line mode)))).

(** [nh_private.param(name, variable, fallback)] *)
Definition param (params : gmap string string) (name fallback : string) : string :=
  default fallback (params !! name).

(** [resolutions_[key]]: [operator[]] of [std::map] adds a
    default-constructed mode, [fresh], for a key that is not there. *)
Definition resolutions_at (fresh : VideoMode) (key : Z) : M StartupEvent CameraImpl VideoMode :=
  r <- gets resolutions_ ;;
  match r !! key with
  | Some mode => ret mode
  | None => modify (set_resolutions_ (<[key := fresh]> r)) ;;; ret fresh
  end.

(** The constructor of a manager run on [device_]. *)
Definition construct {A} (slot : Slot) (ctor : M Event Device A) : M StartupEvent CameraImpl A :=
  zoom device_ set_device_ (EvConstruct slot) ctor.

(** The members before the body of the constructor runs: three managers
    of the base class, an empty catalog, the device. *)
Definition members (device : Device) : CameraImpl :=
  mkCameraImpl Absent Absent Absent ∅ device.

(** The statements of the body of the constructor before the last one.
    [device] is the device found at [device_info.getUri()], [params] the
    parameters of the private node handle, [indeterminate] the first values
    of the [was_running_] of the managers. *)
Definition startup (value : Resolution -> Z) (fresh : VideoMode) (report : DeviceReport)
    (params : gmap string string) (indeterminate : Slot -> bool)
    (device_info : DeviceInfo) : M StartupEvent CameraImpl unit :=
  emit (EvOpen (getUri device_info)) ;;;
  printDeviceInfo report ;;;
  printVideoModes report ;;;
  modify (fun cam => set_resolutions_ (buildResolutionMap value (resolutions_ cam)) cam) ;;;
  zoom device_ set_device_ EvDevice (SDK.setDepthColorSyncEnabled true) ;;;
  let rgb_frame_id := param params "rgb_frame_id" "camera_rgb_optical_frame" in
  let depth_frame_id := param params "depth_frame_id" "camera_depth_optical_frame" in
  (has <- gets (fun cam => dev_has_sensor (device_ cam) SENSOR_COLOR) ;;
   when has (
     mode <- resolutions_at fresh (value Camera_RGB_640x480_30Hz) ;;
     m <- construct RGB
            (SensorStreamManager.new SENSOR_COLOR "rgb" rgb_frame_id mode
               (indeterminate RGB)) ;;
     modify (set_sensor_at RGB (Plain m)))) ;;;
  (has <- gets (fun cam => dev_has_sensor (device_ cam) SENSOR_DEPTH) ;;
   when has (
     mode <- resolutions_at fresh (value Camera_DEPTH_640x480_30Hz) ;;
     m <- construct DEPTH
            (DepthSensorStreamManager.new rgb_frame_id depth_frame_id mode
               (indeterminate DEPTH)) ;;
     modify (set_sensor_at DEPTH (DepthRouter m)))) ;;;
  (has <- gets (fun cam => dev_has_sensor (device_ cam) SENSOR_IR) ;;
   when has (
     mode <- resolutions_at fresh (value Camera_IR_640x480_30Hz) ;;
     m <- construct IR
            (SensorStreamManager.new SENSOR_IR "ir" depth_frame_id mode
               (indeterminate IR)) ;;
     modify (set_sensor_at IR (Plain m)))).

(** [reconfigure_server_.setCallback(callback)].  The server is an object
    of the library dynamic_reconfigure, whose code is not among the
    sources; this is what the library does.  [setCallback] stores the
    callback and calls it at once, with the configuration the server holds,
    the second component of the state, and a mask with every bit set.  The
    server catches an exception of the callback and logs a warning.  The
    request the callback leaves is the configuration the server keeps. *)
Definition setCallback (callback : Z -> M CamEvent St unit) : M StartupEvent St unit :=
  emit EvSetCallback ;;;
  try_catch
    (zoom (fun s => s) (fun t _ => t) EvCallback (callback 4294967295))
    (fun what =>
       emit (EvWarn ("Reconfigure callback failed with exception " +:+ what +:+ ": "))).

(** The constructor: the member initializers, the statements of the body
    run on the object, and the registration of [configure] as the callback.
    [config] is the configuration the reconfigure server holds when it has
    been constructed. *)
Definition new (value : Resolution -> Z) (fresh : VideoMode) (report : DeviceReport)
    (params : gmap string string) (indeterminate : Slot -> bool)
    (device_info : DeviceInfo) (device : Device) (config : CameraConfig)
    : Outcome unit * St * list StartupEvent :=
  (zoom fst (fun cam s => (cam, snd s)) (fun e => e)
     (startup value fresh report params indeterminate device_info) ;;;
   setCallback configure) (members device, config).

End CameraImpl.

(** * Vocabulary of the properties *)

(** ** Expected events *)

(** The expected events of one recovery trial: [attempt] is the pair of
    the statuses of its [create] and of its [start]. *)
Definition trial_events (type : SensorType) (trials : Z) (attempt : Status * Status)
    : list Event :=
  [EvSleep 100; EvRemoveNewFrameListener; EvDestroy; EvCreate type (fst attempt);
   EvAddNewFrameListener; EvStart (snd attempt)]
  ++ (if is_OK (snd attempt) then []
      else [EvLog LOG_WARN ("Recovery trial " +:+ pretty trials +:+ " failed!")]).

Fixpoint trials_events (type : SensorType) (trials : Z) (attempts : list (Status * Status))
    : list Event :=
  match attempts with
  | [] => []
  | a :: rest => trial_events type trials a ++ trials_events type (trials + 1) rest
  end.

(** The log lines of [endConfigure] and [tryConfigureVideoMode]. *)
Definition restart_warning (name : string) : Event :=
  EvLog LOG_WARN ("Failed to restart stream '" +:+ name +:+ "' after configuration!").

Definition recovery_report (name : string) (rc : Status) : Event :=
  if is_OK rc then EvLog LOG_INFO ("Recovered stream '" +:+ name +:+ "'.")
  else EvLog LOG_ERROR ("Failed to recover stream '" +:+ name +:+ "'! Restart required!").

Definition recover_mode_error : Event :=
  EvLog LOG_ERROR "Failed to recover old video mode!".

(** ** What an operation leaves alone *)

(** What a recovery trial leaves of the manager apart from its stream. *)
Definition same_members (m m' : SensorStreamManager) : Prop :=
  default_mode_ m' = default_mode_ m /\ name_ m' = name_ m /\
  frame_id_ m' = frame_id_ m /\ running_ m' = running_ m /\
  was_running_ m' = was_running_ m.

(** The fields of the device that are settings, not replies to come. *)
Definition same_settings (d d' : Device) : Prop :=
  dev_has_sensor d' = dev_has_sensor d /\
  dev_registration d' = dev_registration d /\
  dev_registration_supported d' = dev_registration_supported d /\
  dev_depth_color_sync d' = dev_depth_color_sync d /\
  dev_creation_mode d' = dev_creation_mode d.

(** ** The last start attempt of a trace *)

(** The status of a [start] event. *)
Definition is_start (e : Event) : option Status :=
  match e with EvStart rc => Some rc | _ => None end.

(** The status of the most recent [start] among the events, if any. *)
Fixpoint last_start (evs : list Event) : option Status :=
  match evs with
  | [] => None
  | e :: rest =>
      match last_start rest with
      | Some rc => Some rc
      | None => is_start e
      end
  end.

(** No start attempt among the events has failed last. *)
Definition last_start_succeeded (evs : list Event) : Prop :=
  match last_start evs with
  | Some rc => rc = STATUS_OK
  | None => True
  end.

(** ** Sequences of operations *)

(** [beginConfigure] followed immediately by [endConfigure]. *)
Definition begin_then_end : M Event SensorStreamManager.St unit :=
  SensorStreamManager.beginConfigure ;;; SensorStreamManager.endConfigure.

(** A sequence of notifications delivered to a plain manager, each with
    the subscriber count it observes. *)
Fixpoint notify (counts : list SubscriberCount) : M Event SensorStreamManager.St unit :=
  match counts with
  | [] => ret tt
  | n :: rest => SensorStreamManager.onSubscriptionChanged n ;;; notify rest
  end.

(** The same for the depth router, each notification with the counts of
    the four channels. *)
Fixpoint notify_depth (counts : list (Channel -> SubscriberCount))
    : M Event DepthSensorStreamManager.St unit :=
  match counts with
  | [] => ret tt
  | f :: rest => DepthSensorStreamManager.onSubscriptionChanged f ;;; notify_depth rest
  end.

(** The subscribers of the four channels of the depth router together. *)
Definition all_clients (f : Channel -> SubscriberCount) : SubscriberCount :=
  (f publisher_ + f depth_registered_publisher_
   + f disparity_publisher_ + f disparity_registered_publisher_)%N.

(** The count the depth router compares with zero: the two sums of
    [uint32_t] counts, added as [size_t] values. *)
Definition observed_clients (f : Channel -> SubscriberCount) : N :=
  size_t_add (uint32_add (f disparity_publisher_) (f disparity_registered_publisher_))
             (uint32_add (f publisher_) (f depth_registered_publisher_)).

(** The flag [running_] of a manager says what its stream does. *)
Definition coherent (m : SensorStreamManager) : Prop :=
  vs_started (stream_ m) = running_ m.

(** [device_.getImageRegistrationMode() == IMAGE_REGISTRATION_DEPTH_TO_COLOR] *)
Definition registered (d : Device) : bool :=
  bool_decide (dev_registration d = IMAGE_REGISTRATION_DEPTH_TO_COLOR).

(** ** Specifications of runs *)

(** [spec P ev m Q]: from a state satisfying [P], [m] ends normally, emits
    only events satisfying [ev] and leaves a value and a state related by
    [Q]. *)
Definition spec {E S A} (P : S -> Prop) (ev : E -> Prop) (m : M E S A)
    (Q : A -> S -> Prop) : Prop :=
  forall s, P s ->
    exists a s' evs, m s = (Done a, s', evs) /\ Forall ev evs /\ Q a s'.

(** A member function that always returns and leaves the settings of the
    device alone; [post] holds of the value it returns. *)
Definition returns {Mgr A} (call : M Event (Mgr * Device) A) (post : A -> Prop) : Prop :=
  forall st, exists a st' evs,
    call st = (Done a, st', evs) /\ same_settings (snd st) (snd st') /\ post a.

(** ** The request and the events of the coordinator *)

(** The pointee is the base class object: the device has no such sensor. *)
Definition absent (x : Sensor) : bool :=
  match x with Absent => true | _ => false end.

(** The event belongs to the processing of the sensor in [slot]. *)
Definition on_slot (slot : Slot) (e : CamEvent) : Prop :=
  match e with
  | Call sl _ | OnSensor sl _ => sl = slot
  | OnDevice _ => False
  end.

(** Events of the depth block: those of the depth sensor and the change of
    the registration mode. *)
Definition on_depth_block (e : CamEvent) : Prop :=
  on_slot DEPTH e \/ exists mode, e = OnDevice (EvSetImageRegistrationMode mode).

(** The request is valid for [slot]: if that sensor exists and [bit] flags
    its resolution as changed, [key] is in the catalog. *)
Definition valid_key (level : Z) (s : CameraImpl.St) (slot : Slot) (bit key : Z) : bool :=
  absent (sensor_at slot (fst s))
  || negb (CameraImpl.flagged level bit)
  || bool_decide (is_Some (resolutions_ (fst s) !! key)).

(** The request of [s] is valid for all three sensors. *)
Definition valid_request (level : Z) (s : CameraImpl.St) : bool :=
  valid_key level s RGB 8 (rgb_resolution (snd s))
  && valid_key level s DEPTH 16 (depth_resolution (snd s))
  && valid_key level s IR 32 (ir_resolution (snd s)).

(** What stays fixed while [configure] runs: the catalog [R], which
    sensors exist ([ab]), whether the device supports registration ([sup]);
    and the two things only the depth block changes, the registration mode
    [reg] and the request [cfg]. *)
Definition Inv (R : gmap Z VideoMode) (ab : Slot -> bool) (sup : bool)
    (reg : ImageRegistrationMode) (cfg : CameraConfig) (s : CameraImpl.St) : Prop :=
  resolutions_ (fst s) = R /\
  (forall slot, absent (sensor_at slot (fst s)) = ab slot) /\
  dev_registration_supported (device_ (fst s)) = sup /\
  dev_registration (device_ (fst s)) = reg /\
  snd s = cfg.

(** The registration mode after the registration step. *)
Definition registration_after (sup : bool) (level : Z) (reg : ImageRegistrationMode)
    (cfg : CameraConfig) : ImageRegistrationMode :=
  if CameraImpl.flagged level 1 then
    if depth_registration cfg then
      if sup then IMAGE_REGISTRATION_DEPTH_TO_COLOR else reg
    else IMAGE_REGISTRATION_OFF
  else reg.

(** The request after the registration step. *)
Definition request_after (sup : bool) (level : Z) (cfg : CameraConfig) : CameraConfig :=
  if CameraImpl.flagged level 1 && depth_registration cfg && negb sup
  then set_depth_registration false cfg else cfg.

(** ** Concrete inputs *)

Definition VGA_depth : VideoMode := mkVideoMode 640 480 30 PIXEL_FORMAT_DEPTH_1_MM.

Definition QVGA_depth : VideoMode := mkVideoMode 320 240 30 PIXEL_FORMAT_DEPTH_1_MM.

Definition QVGA_depth_60 : VideoMode := mkVideoMode 320 240 60 PIXEL_FORMAT_DEPTH_1_MM.

(** A device with all three sensors, registration unsupported and off,
    whose new streams come up in QVGA, with the given replies to come. *)
Definition example_device (creates starts : list Status)
    (setmodes : list (Status * option VideoMode)) : Device :=
  mkDevice (fun _ => true) IMAGE_REGISTRATION_OFF false true (fun _ => QVGA_depth)
    creates starts setmodes.

(** A depth stream configured to VGA and its manager. *)
Definition example_stream (started : bool) : VideoStream :=
  mkVideoStream true SENSOR_DEPTH VGA_depth started true false false false.

Definition example_manager (running was_running : bool) : SensorStreamManager :=
  mkSensorStreamManager (example_stream running) VGA_depth "depth"
    "camera_depth_optical_frame" running was_running.

(** The hardware rejects QVGA at 60 Hz after taking over its resolution,
    and rejects the request for the prior mode too. *)
Definition half_applied : SensorStreamManager.St :=
  (example_manager false false,
   example_device [] [] [(STATUS_NOT_SUPPORTED, Some QVGA_depth); (STATUS_ERROR, None)]).

(** A running stream on hardware that refuses both the restart and the
    start of the recovery trial. *)
Definition refusing_restart : SensorStreamManager.St :=
  (example_manager true false, example_device [] [STATUS_ERROR; STATUS_TIME_OUT] []).

(** The restart is refused once; the recovery trial then succeeds. *)
Definition refused_once : SensorStreamManager.St :=
  (example_manager false true, example_device [] [STATUS_ERROR; STATUS_OK] []).

(** A stopped depth stream and the device it belongs to; the first start
    to come fails, the second succeeds. *)
Definition idle_plain : SensorStreamManager.St :=
  (example_manager false false, example_device [] [STATUS_ERROR; STATUS_OK] []).

Definition idle_router : DepthSensorStreamManager.St :=
  (mkDepthSensorStreamManager (example_manager false false) None
     "camera_rgb_optical_frame" "camera_depth_optical_frame",
   example_device [] [STATUS_ERROR; STATUS_OK] []).

(** Subscriber counts of the four channels. *)
Definition clients (primary registered_depth disparity registered_disparity : N)
    (ch : Channel) : N :=
  match ch with
  | publisher_ => primary
  | depth_registered_publisher_ => registered_depth
  | disparity_publisher_ => disparity
  | disparity_registered_publisher_ => registered_disparity
  end.

(** A stopped depth router on hardware that accepts every start. *)
Definition ready_router : DepthSensorStreamManager.St :=
  (mkDepthSensorStreamManager (example_manager false false) None
     "camera_rgb_optical_frame" "camera_depth_optical_frame",
   example_device [] [] []).

(** 2^31 subscribers on each of the two disparity channels. *)
Definition wrapping_clients : Channel -> SubscriberCount :=
  clients 0 0 2147483648 2147483648.

(** An assignment of integers to the resolution constants. *)
Definition example_value (r : Resolution) : Z :=
  match r with
  | Camera_RGB_320x240_30Hz => 0
  | Camera_RGB_320x240_60Hz => 1
  | Camera_RGB_640x480_30Hz => 2
  | Camera_RGB_1280x720_30Hz => 3
  | Camera_RGB_1280x1024_30Hz => 4
  | Camera_YUV_320x240_30Hz => 5
  | Camera_YUV_320x240_60Hz => 6
  | Camera_YUV_640x480_30Hz => 7
  | Camera_YUV_1280x1024_30Hz => 8
  | Camera_DEPTH_320x240_30Hz => 9
  | Camera_DEPTH_320x240_60Hz => 10
  | Camera_DEPTH_640x480_30Hz => 11
  | Camera_DISPARITY_320x240_30Hz => 12
  | Camera_DISPARITY_320x240_60Hz => 13
  | Camera_DISPARITY_640x480_30Hz => 14
  | Camera_IR_320x240_30Hz => 15
  | Camera_IR_320x240_60Hz => 16
  | Camera_IR_640x480_30Hz => 17
  | Camera_IR_1280x1024_30Hz => 18
  end.

Definition VGA_color : VideoMode := mkVideoMode 640 480 30 PIXEL_FORMAT_RGB888.

(** A camera with managers for the color and the depth sensor and none
    for the infrared sensor, registration unsupported: the color stream is
    stopped, the depth stream is running. *)
Definition example_camera : CameraImpl :=
  mkCameraImpl
    (Plain (mkSensorStreamManager
              (mkVideoStream true SENSOR_COLOR VGA_color false true false false false)
              VGA_color "rgb" "camera_rgb_optical_frame" false false))
    (DepthRouter (mkDepthSensorStreamManager (example_manager true false)
                    (Some publisher_)
                    "camera_rgb_optical_frame" "camera_depth_optical_frame"))
    Absent
    (CameraImpl.buildResolutionMap example_value ∅)
    (example_device [] [] []).

(** The same camera without a depth sensor. *)
Definition color_only_camera : CameraImpl :=
  mkCameraImpl (rgb_sensor_ example_camera) Absent Absent
    (resolutions_ example_camera) (device_ example_camera).

(** A request for QVGA color, QVGA depth at 60 Hz and registration. *)
Definition example_request : CameraConfig :=
  mkCameraConfig
    (example_value Camera_RGB_320x240_30Hz)
    (example_value Camera_DEPTH_320x240_60Hz)
    (example_value Camera_IR_640x480_30Hz)
    true true false true.

(** The mask of the first callback: every field counts as changed. *)
Definition all_changed : Z := 4294967295.

(** The mask of a request in which only the mirror setting changed. *)
Definition mirror_changed : Z := 64.

(** ** The catalog and the encodings as tables *)

(** The mode the source gives each resolution constant. *)
Definition catalog_mode (r : Resolution) : VideoMode :=
  match r with
  | Camera_RGB_320x240_30Hz => mkVideoMode 320 240 30 PIXEL_FORMAT_RGB888
  | Camera_RGB_320x240_60Hz => mkVideoMode 320 240 60 PIXEL_FORMAT_RGB888
  | Camera_RGB_640x480_30Hz => mkVideoMode 640 480 30 PIXEL_FORMAT_RGB888
  | Camera_RGB_1280x720_30Hz => mkVideoMode 1280 720 30 PIXEL_FORMAT_RGB888
  | Camera_RGB_1280x1024_30Hz => mkVideoMode 1280 1024 30 PIXEL_FORMAT_RGB888
  | Camera_YUV_320x240_30Hz => mkVideoMode 320 240 30 PIXEL_FORMAT_YUV422
  | Camera_YUV_320x240_60Hz => mkVideoMode 320 240 60 PIXEL_FORMAT_YUV422
  | Camera_YUV_640x480_30Hz => mkVideoMode 640 480 30 PIXEL_FORMAT_YUV422
  | Camera_YUV_1280x1024_30Hz => mkVideoMode 1280 1024 30 PIXEL_FORMAT_YUV422
  | Camera_DEPTH_320x240_30Hz => mkVideoMode 320 240 30 PIXEL_FORMAT_DEPTH_1_MM
  | Camera_DEPTH_320x240_60Hz => mkVideoMode 320 240 60 PIXEL_FORMAT_DEPTH_1_MM
  | Camera_DEPTH_640x480_30Hz => mkVideoMode 640 480 30 PIXEL_FORMAT_DEPTH_1_MM
  | Camera_DISPARITY_320x240_30Hz => mkVideoMode 320 240 30 PIXEL_FORMAT_SHIFT_9_2
  | Camera_DISPARITY_320x240_60Hz => mkVideoMode 320 240 60 PIXEL_FORMAT_SHIFT_9_2
  | Camera_DISPARITY_640x480_30Hz => mkVideoMode 640 480 30 PIXEL_FORMAT_SHIFT_9_2
  | Camera_IR_320x240_30Hz => mkVideoMode 320 240 30 PIXEL_FORMAT_RGB888
  | Camera_IR_320x240_60Hz => mkVideoMode 320 240 60 PIXEL_FORMAT_RGB888
  | Camera_IR_640x480_30Hz => mkVideoMode 640 480 30 PIXEL_FORMAT_RGB888
  | Camera_IR_1280x1024_30Hz => mkVideoMode 1280 1024 30 PIXEL_FORMAT_RGB888
  end.

(** The encoding the listener gives an image, by pixel format. *)
Definition encoding_of (format : PixelFormat) : option string :=
  match format with
  | PIXEL_FORMAT_GRAY8 => Some "mono8"
  | PIXEL_FORMAT_GRAY16 => Some "mono16"
  | PIXEL_FORMAT_YUV422 => Some "yuv422"
  | PIXEL_FORMAT_RGB888 => Some "rgb8"
  | PIXEL_FORMAT_SHIFT_9_2 | PIXEL_FORMAT_DEPTH_1_MM => Some "16UC1"
  | _ => None
  end.

(** ** Vocabulary of the further properties *)

(** *** Partial specifications of runs *)

(** [ensures P ev m Q]: run from a state satisfying [P], [m] emits only
    events satisfying [ev], also when a failed assertion or an exception
    cuts the run short, and if it ends normally the value and the state
    it leaves satisfy [Q]. *)
Definition ensures {E S A} (P : S -> Prop) (ev : E -> Prop) (m : M E S A)
    (Q : A -> S -> Prop) : Prop :=
  forall s, P s ->
    Forall ev (events (m s)) /\
    forall a, outcome (m s) = Done a -> Q a (final (m s)).

(** [phi] holds of the pointee of [slot] and of the device. *)
Definition at_slot (slot : Slot) (phi : Sensor -> Device -> Prop) (s : CameraImpl.St) : Prop :=
  phi (sensor_at slot (fst s)) (device_ (fst s)).

(** *** Construction *)

(** The log line of a failed call of the constructor. *)
Definition construction_error (what : string) (type : SensorType) (rc : Status) : list Event :=
  if is_OK rc then []
  else [EvLog LOG_ERROR (what +:+ toString_SensorType (enumerator type) +:+ "'!")].

(** The channels advertised among the events, in order. *)
Definition advertised (evs : list Event) : list Channel :=
  omap (fun e => match e with EvAdvertiseCamera c => Some c | _ => None end) evs.

(** The sensor type the manager of a slot is constructed for. *)
Definition sensor_type (slot : Slot) : SensorType :=
  match slot with
  | RGB => SENSOR_COLOR
  | DEPTH => SENSOR_DEPTH
  | IR => SENSOR_IR
  end.

(** The event is a line of the log. *)
Definition is_info (e : StartupEvent) : Prop :=
  match e with EvInfo _ => True | _ => False end.

(** What the constructor leaves in the three slots. *)
Definition constructed (value : Resolution -> Z) (params : gmap string string)
    (device : Device) (cam : CameraImpl) : Prop :=
  let rgb_frame_id := CameraImpl.param params "rgb_frame_id" "camera_rgb_optical_frame" in
  let depth_frame_id := CameraImpl.param params "depth_frame_id" "camera_depth_optical_frame" in
  let catalog := CameraImpl.buildResolutionMap value ∅ in
  match rgb_sensor_ cam with
  | Absent => dev_has_sensor device SENSOR_COLOR = false
  | Plain m =>
      dev_has_sensor device SENSOR_COLOR = true /\
      name_ m = "rgb" /\ frame_id_ m = rgb_frame_id /\ running_ m = false /\
      catalog !! value Camera_RGB_640x480_30Hz = Some (default_mode_ m)
  | DepthRouter _ => False
  end /\
  match depth_sensor_ cam with
  | Absent => dev_has_sensor device SENSOR_DEPTH = false
  | Plain _ => False
  | DepthRouter m =>
      dev_has_sensor device SENSOR_DEPTH = true /\
      name_ (base m) = "depth" /\ frame_id_ (base m) = depth_frame_id /\
      running_ (base m) = false /\
      catalog !! value Camera_DEPTH_640x480_30Hz = Some (default_mode_ (base m)) /\
      active_publisher_ m = None /\
      rgb_frame_id_ m = rgb_frame_id /\ depth_frame_id_ m = depth_frame_id
  end /\
  match ir_sensor_ cam with
  | Absent => dev_has_sensor device SENSOR_IR = false
  | Plain m =>
      dev_has_sensor device SENSOR_IR = true /\
      name_ m = "ir" /\ frame_id_ m = depth_frame_id /\ running_ m = false /\
      catalog !! value Camera_IR_640x480_30Hz = Some (default_mode_ m)
  | DepthRouter _ => False
  end.

(** A device report with two depth modes and one color mode. *)
Definition example_report : DeviceReport :=
  mkDeviceReport (mkDeviceInfo "1d27/0601@1/3" "PrimeSense" "PS1080")
    (fun p => match p with
              | DEVICE_PROPERTY_HARDWARE_VERSION => (STATUS_OK, "6")
              | _ => (STATUS_NOT_SUPPORTED, EmptyString)
              end)
    (fun type => match type with
                 | SENSOR_DEPTH => [VGA_depth; QVGA_depth]
                 | SENSOR_COLOR => [VGA_color]
                 | SENSOR_IR => []
                 end).

(** The lines [printVideoModes] logs for one sensor type. *)
Definition sensor_lines (report : DeviceReport) (device : Device) (type : SensorType)
    : list StartupEvent :=
  if dev_has_sensor device type then
    EvInfo ("  " +:+ toString_SensorType (enumerator type))
    :: map (fun mode => EvInfo (CameraImpl.video_mode_line mode))
         (getSupportedVideoModes report type)
  else [].

(** *** The selection of the depth router *)

(** The channel and the frame id [updateActivePublisher] selects. *)
Definition selected_channel (registration : ImageRegistrationMode) (format : PixelFormat)
    : option Channel :=
  match format, registration with
  | PIXEL_FORMAT_DEPTH_1_MM, IMAGE_REGISTRATION_OFF => Some publisher_
  | PIXEL_FORMAT_DEPTH_1_MM, IMAGE_REGISTRATION_DEPTH_TO_COLOR =>
      Some depth_registered_publisher_
  | PIXEL_FORMAT_SHIFT_9_2, IMAGE_REGISTRATION_OFF => Some disparity_publisher_
  | PIXEL_FORMAT_SHIFT_9_2, IMAGE_REGISTRATION_DEPTH_TO_COLOR =>
      Some disparity_registered_publisher_
  | _, _ => None
  end.

Definition selected_frame_id (registration : ImageRegistrationMode)
    (m : DepthSensorStreamManager) : string :=
  match registration with
  | IMAGE_REGISTRATION_OFF => depth_frame_id_ m
  | IMAGE_REGISTRATION_DEPTH_TO_COLOR => rgb_frame_id_ m
  end.

(** The selection of the router agrees with the registration mode of the
    device and the pixel format of the stream. *)
Definition routed (s : DepthSensorStreamManager.St) : Prop :=
  active_publisher_ (fst s)
    = selected_channel (dev_registration (snd s))
        (getPixelFormat (vs_mode (stream_ (base (fst s))))) /\
  frame_id_ (base (fst s)) = selected_frame_id (dev_registration (snd s)) (fst s).

(** The selection of the router in the depth slot is current whenever its
    stream is running. *)
Definition selection_current (x : Sensor) (d : Device) : Prop :=
  match x with
  | DepthRouter m => running_ (base m) = true -> routed (m, d)
  | _ => True
  end.

(** *** Configuration rounds and streams that are not running *)

(** A configuration round of one stream as [configure] runs it:
    beginConfigure, the change of the video mode, endConfigure.  Its value
    is the result of tryConfigureVideoMode. *)
Definition configuration_round (mode : VideoMode) : M Event SensorStreamManager.St bool :=
  SensorStreamManager.beginConfigure ;;;
  accepted <- SensorStreamManager.tryConfigureVideoMode mode ;;
  SensorStreamManager.endConfigure ;;;
  ret accepted.

(** Calls that create, destroy, start or stop a stream or change its
    listener. *)
Definition lifecycle (e : Event) : bool :=
  match e with
  | EvCreate _ _ | EvDestroy | EvStart _ | EvStop
  | EvAddNewFrameListener | EvRemoveNewFrameListener => true
  | _ => false
  end.

(** The event is no lifecycle call on the stream of [slot]. *)
Definition leaves_alone (slot : Slot) (e : CamEvent) : Prop :=
  match e with
  | OnSensor sl e0 => sl = slot -> lifecycle e0 = false
  | _ => True
  end.

(** The stream controller part of a pointee. *)
Definition manager_of (x : Sensor) : option SensorStreamManager :=
  match x with
  | Absent => None
  | Plain m => Some m
  | DepthRouter m => Some (base m)
  end.

(** The sensor has no stream that counts as running. *)
Definition idle (x : Sensor) : Prop :=
  match manager_of x with
  | Some m => running_ m = false
  | None => True
  end.

(** The same inside a configuration round that found it so. *)
Definition halted (x : Sensor) : Prop :=
  match manager_of x with
  | Some m => running_ m = false /\ was_running_ m = false
  | None => True
  end.

(** What identifies a manager apart from its stream: the name, the frame
    id and the default mode of a stream controller, and for the depth
    router also the selected channel and the two frame ids it chooses
    from. *)
Definition controller_identity (m : SensorStreamManager) : string * string * VideoMode :=
  (name_ m, frame_id_ m, default_mode_ m).

Definition router_identity (m : DepthSensorStreamManager)
    : option Channel * string * string :=
  (active_publisher_ m, rgb_frame_id_ m, depth_frame_id_ m).

Definition identity (x : Sensor)
    : option (string * string * VideoMode * option (option Channel * string * string)) :=
  match x with
  | Absent => None
  | Plain m => Some (controller_identity m, None)
  | DepthRouter m => Some (controller_identity (base m), Some (router_identity m))
  end.

(** The configuration the reconfigure server holds is valid for the
    device: the resolution of every sensor the device has is a key of the
    catalog. *)
Definition known_resolution (value : Resolution -> Z) (key : Z) : bool :=
  bool_decide (is_Some (CameraImpl.buildResolutionMap value ∅ !! key)).

Definition valid_configuration (value : Resolution -> Z) (device : Device)
    (config : CameraConfig) : bool :=
  (negb (dev_has_sensor device SENSOR_COLOR) || known_resolution value (rgb_resolution config))
  && (negb (dev_has_sensor device SENSOR_DEPTH)
      || known_resolution value (depth_resolution config))
  && (negb (dev_has_sensor device SENSOR_IR) || known_resolution value (ir_resolution config)).

(** *** Failed assertions and further inputs *)

(** The message of the assertion on a catalog lookup. *)
Definition unknown_resolution : string := "e != resolutions_.end()".




(** * Properties *)

(** ** Reasoning about runs *)

Lemma is_OK_true rc : is_OK rc = true -> rc = STATUS_OK.
Proof. by destruct rc. Qed.

Lemma bind_Done {E S A B} (m : M E S A) (k : A -> M E S B) s a s1 e1 :
  m s = (Done a, s1, e1) ->
  bind m k s = (outcome (k a s1), final (k a s1), e1 ++ events (k a s1)).
Proof. intros H. unfold bind. by rewrite H. Qed.

Lemma same_members_refl m : same_members m m.
Proof. by repeat split. Qed.

Lemma same_members_trans m1 m2 m3 :
  same_members m1 m2 -> same_members m2 m3 -> same_members m1 m3.
Proof. unfold same_members. intuition congruence. Qed.

Lemma same_settings_refl d : same_settings d d.
Proof. by repeat split. Qed.

Lemma same_settings_trans d1 d2 d3 :
  same_settings d1 d2 -> same_settings d2 d3 -> same_settings d1 d3.
Proof. unfold same_settings. intuition congruence. Qed.

Lemma same_settings_creation_mode d d' :
  same_settings d d' -> dev_creation_mode d' = dev_creation_mode d.
Proof. by intros (_ & _ & _ & _ & H). Qed.

Section RecoveryLoop.

Import SensorStreamManager.

(** One trial: destroy, create, listen, start. *)
Lemma recovery_trial_run trials type (s : St) :
  exists c rc s',
    recovery_trial trials type s = (Done rc, s', trial_events type trials (c, rc)) /\
    same_members (fst s) (fst s') /\
    same_settings (snd s) (snd s') /\
    vs_started (stream_ (fst s')) = is_OK rc /\
    (is_OK rc = true ->
       vs_mode (stream_ (fst s')) = dev_creation_mode (snd s) type /\
       vs_sensor (stream_ (fst s')) = type).
Proof.
  destruct s as [[vs dm nm fid run was] [hs reg sup sync cm cr sr mr]].
  exists (hd STATUS_OK cr).
  destruct (is_OK (hd STATUS_OK cr)) eqn:Ec.
  - exists (hd STATUS_OK sr).
    destruct (is_OK (hd STATUS_OK sr)) eqn:Es; eexists.
    all: split; [unfold recovery_trial, trial_events; cbn; rewrite Ec; cbn;
                 rewrite Es; cbn; rewrite ?Es; reflexivity|].
    all: cbn; by repeat split.
  - exists STATUS_ERROR. eexists.
    split; [unfold recovery_trial, trial_events; cbn; rewrite Ec; reflexivity|].
    cbn. by repeat split.
Qed.

Lemma recovery_trials_OK n trials type rc s :
  is_OK rc = true -> recovery_trials n trials type rc s = (Done rc, s, []).
Proof. intros H. destruct n; simpl; [done|]. by rewrite H. Qed.

(** The loop: at most [n] trials, each after a failure, the last status
    is the result. *)
Lemma recovery_trials_run n : forall trials type rc (s : St),
  is_OK rc = false ->
  exists attempts s',
    recovery_trials n trials type rc s
      = (Done (List.last (map snd attempts) rc), s', trials_events type trials attempts) /\
    (length attempts <= n)%nat /\
    (is_OK (List.last (map snd attempts) rc) = false -> length attempts = n) /\
    Forall (fun a => is_OK (snd a) = false) (List.removelast attempts) /\
    same_members (fst s) (fst s') /\
    same_settings (snd s) (snd s') /\
    (attempts = [] -> s' = s) /\
    (attempts <> [] ->
       vs_started (stream_ (fst s')) = is_OK (List.last (map snd attempts) rc) /\
       (is_OK (List.last (map snd attempts) rc) = true ->
          vs_mode (stream_ (fst s')) = dev_creation_mode (snd s) type /\
          vs_sensor (stream_ (fst s')) = type)).
Proof.
  induction n as [|n IH]; intros trials type rc s Hrc.
  - exists [], s. cbn [recovery_trials trials_events map List.last length List.removelast].
    repeat split; auto using same_members_refl, same_settings_refl; intros; by exfalso.
  - destruct (recovery_trial_run trials type s)
      as (c & rc1 & s1 & Hrun & Hsame & Hcm & Hst & Hok).
    cbn [recovery_trials]. rewrite Hrc, (bind_Done _ _ _ _ _ _ Hrun).
    destruct (is_OK rc1) eqn:E1.
    + exists [(c, rc1)], s1.
      cbn [trials_events map List.last length List.removelast snd].
      rewrite recovery_trials_OK by done.
      unfold outcome, final, events; cbn [fst snd]. rewrite E1.
      split; [by rewrite app_nil_r|].
      split; [lia|]. split; [done|]. split; [constructor|].
      split; [done|]. split; [done|]. split; [done|].
      intros _. split; [done|]. intros _. by apply Hok.
    + destruct (IH (trials + 1) type rc1 s1 E1)
        as (attempts & s2 & Hrun2 & Hlen & Hex & Hall & Hsame2 & Hcm2 & Hnil & Hcons).
      exists ((c, rc1) :: attempts), s2.
      assert (Hlast : List.last (map snd ((c, rc1) :: attempts)) rc
                      = List.last (map snd attempts) rc1).
      { destruct attempts as [|a l]; [done|].
        cbn [map List.last snd]. clear. revert a.
        induction l as [|b l IHl]; intros a; cbn [map List.last snd] in *; auto. }
      rewrite Hlast, Hrun2. unfold outcome, final, events; cbn [fst snd trials_events].
      split; [done|].
      split; [cbn [length]; lia|].
      split; [intros H; cbn [length]; f_equal; auto|].
      split.
      { destruct attempts as [|a l]; [constructor|].
        change (List.removelast ((c, rc1) :: a :: l))
          with ((c, rc1) :: List.removelast (a :: l)).
        constructor; auto. }
      split; [eauto using same_members_trans|].
      split; [eauto using same_settings_trans|].
      split; [done|].
      intros _. destruct attempts as [|a l].
      * rewrite (Hnil eq_refl). cbn [map List.last]. rewrite E1.
        split; [done|]. intros H; discriminate.
      * destruct Hcons as [Hs Hm]; [done|]. split; [done|].
        intros H. rewrite <- (same_settings_creation_mode _ _ Hcm). by apply Hm.
Qed.

End RecoveryLoop.

Lemma bind_run {E S A B} (m : M E S A) (k : A -> M E S B) s a s1 e1 b s2 e2 :
  m s = (Done a, s1, e1) ->
  k a s1 = (Done b, s2, e2) ->
  bind m k s = (Done b, s2, e1 ++ e2).
Proof. intros H1 H2. by rewrite (bind_Done _ _ _ _ _ _ H1), H2. Qed.

Lemma ROS_LOG_COND_run {S} level c msg (s : S) :
  ROS_LOG_COND level c msg s = (Done tt, s, if c then [EvLog level msg] else []).
Proof. by destruct c. Qed.

Lemma when_run {E S} c (m : M E S unit) (s : S) :
  when c m s = if c then m s else (Done tt, s, []).
Proof. by destruct c. Qed.

Section EndConfigure.

Import SensorStreamManager.

(** [stream_.start()] run from the manager. *)
Lemma start_run (s : St) :
  exists rc s',
    on_stream SDK.start s = (Done rc, s', [EvStart rc]) /\
    same_members (fst s) (fst s') /\
    same_settings (snd s) (snd s') /\
    vs_sensor (stream_ (fst s')) = vs_sensor (stream_ (fst s)) /\
    vs_mode (stream_ (fst s')) = vs_mode (stream_ (fst s)) /\
    vs_started (stream_ (fst s')) = is_OK rc || vs_started (stream_ (fst s)).
Proof.
  destruct s as [[[valid sensor vm st li mi ae awb] dm nm fid run was]
                   [hs reg sup sync cm cr sr mr]].
  destruct valid.
  - exists (hd STATUS_OK sr). eexists. split; [reflexivity|].
    cbn. destruct (is_OK (hd STATUS_OK sr)); by repeat split.
  - exists STATUS_ERROR. eexists. split; [reflexivity|]. by repeat split.
Qed.

Lemma endConfigure_recovery_run (s : St) (rc0 : Status) :
  was_running_ (fst s) = true ->
  outcome (on_stream SDK.start s) = Done rc0 ->
  is_OK rc0 = false ->
  exists (attempts : list (Status * Status)) (s' : St),
    let type := vs_sensor (stream_ (fst s)) in
    let rc := List.last (map snd attempts) rc0 in
    endConfigure s =
      (Done tt, s',
       [EvStart rc0; restart_warning (name_ (fst s))]
       ++ trials_events type 0 attempts
       ++ [recovery_report (name_ (fst s)) rc]) /\
    same_settings (snd s) (snd s') /\
    (length attempts <= Z.to_nat max_trials)%nat /\
    attempts <> [] /\
    Forall (fun a => is_OK (snd a) = false) (List.removelast attempts) /\
    running_ (fst s') = is_OK rc || running_ (fst s) /\
    vs_started (stream_ (fst s')) = is_OK rc /\
    (is_OK rc = true ->
       vs_mode (stream_ (fst s')) = dev_creation_mode (snd s) type).
Proof.
  intros Hwas Hstart Hrc0.
  destruct (start_run s) as (rc0' & s1 & Hrun1 & Hsame1 & Hcm1 & Hsen1 & Hmode1 & Hst1).
  rewrite Hrun1 in Hstart. injection Hstart as ->.
  destruct (recovery_trials_run (Z.to_nat (max_trials - 0)) 0
              (vs_sensor (stream_ (fst s1))) rc0 s1 Hrc0)
    as (attempts & s2 & Hrun2 & Hlen & Hex & Hall & Hsame2 & Hcm2 & Hnil & Hcons).
  set (rc := List.last (map snd attempts) rc0) in *.
  assert (Hne : attempts <> []).
  { destruct (is_OK rc) eqn:E.
    - intros ->. cbn in rc. subst rc. congruence.
    - intros ->. specialize (Hex eq_refl). discriminate. }
  destruct (Hcons Hne) as [Hst2 Hmode2].
  destruct Hsame1 as (_ & Hn1 & _ & Hr1 & _).
  destruct Hsame2 as (_ & Hn2 & _ & Hr2 & _).
  rewrite Hsen1, (same_settings_creation_mode _ _ Hcm1) in Hmode2.
  assert (Hset : same_settings (snd s) (snd s2)) by eauto using same_settings_trans.
  exists attempts.
  assert (Hsteps : forall s' tail,
    when (is_OK rc) (assign (set_running_ true)) s2 = (Done tt, s', []) ->
    tail = [recovery_report (name_ (fst s)) rc] ->
    endConfigure s =
      (Done tt, s',
       [EvStart rc0; restart_warning (name_ (fst s))]
       ++ trials_events (vs_sensor (stream_ (fst s))) 0 attempts ++ tail)).
  { intros s' tail Hwhen ->. unfold endConfigure. eapply eq_trans.
    { eapply bind_run; [unfold this, gets; by rewrite Hwas|].
      eapply bind_run; [exact Hrun1|].
      rewrite Hrc0; cbn [negb].
      eapply bind_run; [|exact Hwhen].
      eapply bind_run; [reflexivity|].
      eapply bind_run; [reflexivity|].
      eapply bind_run; [reflexivity|].
      eapply bind_run; [exact Hrun2|].
      fold rc.
      eapply bind_run; [apply ROS_LOG_COND_run|].
      eapply bind_run; [apply ROS_LOG_COND_run|].
      reflexivity. }
    cbn [app fst snd]. rewrite Hsen1, Hn1. unfold recovery_report, restart_warning.
    destruct (is_OK rc); cbn [negb app]; by rewrite ?app_nil_r. }
  destruct (is_OK rc) eqn:E.
  - exists (set_running_ true (fst s2), snd s2).
    split; [by apply Hsteps|]. split; [done|].
    fold rc. rewrite E. split; [done|]. split; [done|]. split; [done|].
    cbn. split; [done|]. split; [done|]. intros _. by apply Hmode2.
  - exists s2.
    split; [by apply Hsteps|]. split; [done|].
    fold rc. rewrite E. split; [done|]. split; [done|]. split; [done|].
    split; [by rewrite Hr2, Hr1|]. split; [done|]. done.
Qed.

End EndConfigure.

(** ** Start attempts in the events of a run *)

Lemma last_start_app evs1 evs2 :
  last_start (evs1 ++ evs2) =
    match last_start evs2 with Some rc => Some rc | None => last_start evs1 end.
Proof.
  induction evs1 as [|e evs1 IH]; cbn [app last_start].
  - by destruct (last_start evs2).
  - rewrite IH. by destruct (last_start evs2).
Qed.

Lemma last_start_trial type trials a :
  last_start (trial_events type trials a) = Some (snd a).
Proof. unfold trial_events. by destruct (is_OK (snd a)). Qed.

Lemma last_start_trials type attempts : forall trials rc0,
  attempts <> [] ->
  last_start (trials_events type trials attempts) = Some (List.last (map snd attempts) rc0).
Proof.
  induction attempts as [|a rest IH]; intros trials rc0 Hne; [done|].
  cbn [trials_events]. rewrite last_start_app.
  destruct rest as [|b rest].
  - cbn [trials_events last_start map List.last]. apply last_start_trial.
  - rewrite (IH _ rc0) by done. reflexivity.
Qed.

Lemma last_start_report name rc : last_start [recovery_report name rc] = None.
Proof. unfold recovery_report. by destruct (is_OK rc). Qed.

Section ConfigureRound.

Import SensorStreamManager.

Lemma beginConfigure_run (s : St) :
  beginConfigure s =
    (Done true,
     (set_running_ false
        (set_was_running_ (running_ (fst s))
           (if running_ (fst s)
            then set_stream_ (set_vs_started false (stream_ (fst s))) (fst s)
            else fst s)),
      snd s),
     if running_ (fst s) then [EvStop] else []).
Proof. destruct s as [[vs dm nm fid run was] d]. by destruct run. Qed.

(** [endConfigure] always returns; when the stream had been running, the
    last start attempt it makes decides [running_]. *)
Lemma endConfigure_run (s : St) :
  exists s' evs,
    endConfigure s = (Done tt, s', evs) /\
    same_settings (snd s) (snd s') /\
    (was_running_ (fst s) = false -> s' = s /\ evs = []) /\
    (was_running_ (fst s) = true ->
       exists rc, last_start evs = Some rc /\
         running_ (fst s') = is_OK rc || running_ (fst s)).
Proof.
  destruct (was_running_ (fst s)) eqn:Hwas.
  - destruct (start_run s) as (rc0 & s1 & Hrun1 & Hsame1 & Hcm1 & Hsen1 & Hmode1 & Hst1).
    destruct (is_OK rc0) eqn:E0.
    + exists (set_running_ true (fst s1), snd s1), [EvStart rc0].
      split.
      { unfold endConfigure.
        eapply eq_trans.
        { eapply bind_run; [unfold this, gets; by rewrite Hwas|].
          eapply bind_run; [exact Hrun1|].
          rewrite E0; cbn [negb].
          eapply bind_run; [reflexivity|]. rewrite E0. reflexivity. }
        reflexivity. }
      split; [done|]. split; [done|].
      intros _. exists rc0. by rewrite E0.
    + assert (Hstart : outcome (on_stream SDK.start s) = Done rc0) by by rewrite Hrun1.
      destruct (endConfigure_recovery_run s rc0 Hwas Hstart E0)
        as (attempts & s' & Hrun & Hset & Hlen & Hne & Hall & Hr & Hst & Hmode).
      cbv zeta in Hrun. eexists s', _. split; [exact Hrun|].
      split; [done|]. split; [done|]. intros _.
      exists (List.last (map snd attempts) rc0). split; [|done].
      rewrite !last_start_app, last_start_report.
      by rewrite (last_start_trials _ _ _ rc0).
  - exists s, []. split.
    + unfold endConfigure. eapply eq_trans.
      { eapply bind_run; [unfold this, gets; by rewrite Hwas|]. reflexivity. }
      reflexivity.
    + split; [apply same_settings_refl|]. split; [done|]. intros H; discriminate.
Qed.

(** When the stream had been running, [endConfigure] attempts a start, and
    the last attempt decides both [running_] and whether the stream is
    started. *)
Lemma endConfigure_restart (s : St) :
  was_running_ (fst s) = true ->
  exists s' evs rc,
    endConfigure s = (Done tt, s', evs) /\
    last_start evs = Some rc /\
    running_ (fst s') = is_OK rc || running_ (fst s) /\
    vs_started (stream_ (fst s')) = is_OK rc.
Proof.
  intros Hwas.
  destruct (start_run s) as (rc0 & s1 & Hrun1 & Hsame1 & Hcm1 & Hsen1 & Hmode1 & Hst1).
  destruct (is_OK rc0) eqn:E0.
  - exists (set_running_ true (fst s1), snd s1), [EvStart rc0], rc0.
    split.
    { unfold endConfigure.
      eapply eq_trans.
      { eapply bind_run; [unfold this, gets; by rewrite Hwas|].
        eapply bind_run; [exact Hrun1|].
        rewrite E0; cbn [negb].
        eapply bind_run; [reflexivity|]. rewrite E0. reflexivity. }
      reflexivity. }
    split; [done|]. rewrite E0. split; [done|]. exact Hst1.
  - assert (Hstart : outcome (on_stream SDK.start s) = Done rc0) by by rewrite Hrun1.
    destruct (endConfigure_recovery_run s rc0 Hwas Hstart E0)
      as (attempts & s' & Hrun & Hset & Hlen & Hne & Hall & Hr & Hst & Hmode).
    cbv zeta in Hrun. eexists s', _, (List.last (map snd attempts) rc0).
    split; [exact Hrun|]. split; [|done].
    rewrite !last_start_app, last_start_report.
    by rewrite (last_start_trials _ _ _ rc0).
Qed.

(** [stream_.setVideoMode(mode)] run from the manager. *)
Lemma setVideoMode_run mode (s : St) :
  exists rc s',
    on_stream (SDK.setVideoMode mode) s = (Done rc, s', [EvSetVideoMode mode rc]) /\
    same_members (fst s) (fst s') /\
    same_settings (snd s) (snd s') /\
    (is_OK rc = true -> vs_mode (stream_ (fst s')) = mode).
Proof.
  destruct s as [[[valid sensor vm st li mi ae awb] dm nm fid run was]
                   [hs reg sup sync cm cr sr mr]].
  destruct valid.
  - exists (fst (hd (STATUS_OK, None) mr)). eexists. split; [reflexivity|].
    cbn. destruct (is_OK (hd (STATUS_OK, None) mr).1); by repeat split.
  - exists STATUS_ERROR. eexists. split; [reflexivity|]. by repeat split.
Qed.

(** The three ways [tryConfigureVideoMode] can go. *)
Lemma tryConfigureVideoMode_cases mode (s : St) :
  let old := vs_mode (stream_ (fst s)) in
  exists s',
    same_members (fst s) (fst s') /\
    same_settings (snd s) (snd s') /\
    ((tryConfigureVideoMode mode s = (Done true, s', [EvSetVideoMode mode STATUS_OK]) /\
      vs_mode (stream_ (fst s')) = mode)
     \/
     (exists rc, is_OK rc = false /\
        tryConfigureVideoMode mode s
          = (Done false, s', [EvSetVideoMode mode rc; EvSetVideoMode old STATUS_OK]) /\
        vs_mode (stream_ (fst s')) = old)
     \/
     (exists rc rc', is_OK rc = false /\ is_OK rc' = false /\
        tryConfigureVideoMode mode s
          = (Done false, s',
             [EvSetVideoMode mode rc; EvSetVideoMode old rc'; recover_mode_error]))).
Proof.
  intros old.
  destruct (setVideoMode_run mode s) as (rc & s1 & Hrun1 & Hm1 & Hd1 & Hok1).
  assert (Hget : on_stream SDK.getVideoMode s = (Done old, s, [])).
  { by destruct s as [[vs ? ? ? ? ?] ?]. }
  destruct (is_OK rc) eqn:E1.
  - exists s1. split; [done|]. split; [done|]. left. split; [|by apply Hok1].
    apply is_OK_true in E1 as ->. unfold tryConfigureVideoMode.
    eapply eq_trans.
    { eapply bind_run; [exact Hget|]. eapply bind_run; [exact Hrun1|]. reflexivity. }
    reflexivity.
  - destruct (setVideoMode_run old s1) as (rc' & s2 & Hrun2 & Hm2 & Hd2 & Hok2).
    exists s2. split; [eauto using same_members_trans|].
    split; [eauto using same_settings_trans|]. right.
    assert (Hrun : tryConfigureVideoMode mode s =
              (Done false, s2,
               [EvSetVideoMode mode rc; EvSetVideoMode old rc']
               ++ (if is_OK rc' then [] else [recover_mode_error]))).
    { unfold tryConfigureVideoMode. eapply eq_trans.
      { eapply bind_run; [exact Hget|]. eapply bind_run; [exact Hrun1|].
        rewrite E1; cbn [negb].
        eapply bind_run; [exact Hrun2|].
        eapply bind_run; [apply ROS_LOG_COND_run|]. reflexivity. }
      cbn [app]. unfold recover_mode_error. by destruct (is_OK rc'). }
    destruct (is_OK rc') eqn:E2.
    + left. exists rc. split; [done|]. split; [|by apply Hok2].
      apply is_OK_true in E2 as ->. exact Hrun.
    + right. by exists rc, rc'.
Qed.

End ConfigureRound.

(** ** Claims on the stream controller *)

(** C6: for every state of a stream controller, beginConfigure records in
    was_running_ whether the stream was running, leaves running_ false
    whatever it was, and returns true.  It calls stop() when the stream was
    running and nothing otherwise, so that the stream is stopped afterwards
    in every state in which running_ told whether it was started. *)
Theorem beginConfigure_records_and_stops (s : SensorStreamManager.St) :
  let r := SensorStreamManager.beginConfigure s in
  outcome r = Done true /\
  was_running_ (fst (final r)) = running_ (fst s) /\
  running_ (fst (final r)) = false /\
  events r = (if running_ (fst s) then [EvStop] else []) /\
  (vs_started (stream_ (fst s)) = running_ (fst s) ->
     vs_started (stream_ (fst (final r))) = false) /\
  snd (final r) = snd s.
Proof.
  cbv zeta. rewrite beginConfigure_run. unfold outcome, final, events. cbn [fst snd].
  destruct s as [[vs dm nm fid run was] d]. by destruct run.
Qed.

(** A running depth stream with its manager. *)
Lemma beginConfigure_records_and_stops_witness :
  let s := (example_manager true false, example_device [] [] []) in
  let r := SensorStreamManager.beginConfigure s in
  outcome r = Done true /\
  was_running_ (fst (final r)) = true /\
  running_ (fst (final r)) = false /\
  events r = [EvStop] /\
  vs_started (stream_ (fst (final r))) = false.
Proof.
  destruct (beginConfigure_records_and_stops
              (example_manager true false, example_device [] [] []))
    as (H1 & H2 & H3 & H4 & H5 & _).
  split; [exact H1|]. split; [exact H2|]. split; [exact H3|]. split; [exact H4|].
  apply H5. reflexivity.
Defined.

(** C3, as the code has it: tryConfigureVideoMode returns true exactly when
    the hardware accepts the requested mode, and the stream is then in that
    mode.  On a rejection it requests the prior mode again and returns
    false: if that request is accepted the stream is exactly in the prior
    mode; if it is rejected as well, an error is logged. *)
Theorem tryConfigureVideoMode_accept_or_revert (mode : VideoMode)
    (s : SensorStreamManager.St) :
  let old := vs_mode (stream_ (fst s)) in
  let r := SensorStreamManager.tryConfigureVideoMode mode s in
  (outcome r = Done true /\
   events r = [EvSetVideoMode mode STATUS_OK] /\
   vs_mode (stream_ (fst (final r))) = mode)
  \/
  (exists rc, is_OK rc = false /\
     outcome r = Done false /\
     events r = [EvSetVideoMode mode rc; EvSetVideoMode old STATUS_OK] /\
     vs_mode (stream_ (fst (final r))) = old)
  \/
  (exists rc rc', is_OK rc = false /\ is_OK rc' = false /\
     outcome r = Done false /\
     events r = [EvSetVideoMode mode rc; EvSetVideoMode old rc';
                 EvLog LOG_ERROR "Failed to recover old video mode!"]).
Proof.
  cbv zeta.
  destruct (tryConfigureVideoMode_cases mode s)
    as (s' & _ & _ & [[H Hm] | [(rc & E & H & Hm) | (rc & rc' & E & E' & H)]]);
    rewrite H; unfold outcome, final, events; cbn [fst snd].
  - by left.
  - right; left. by exists rc.
  - right; right. by exists rc, rc'.
Qed.

(** C3 fails as stated: here the call returns false and the stream is
    neither in the prior mode nor in the requested one. *)
Lemma tryConfigureVideoMode_not_restored :
  let r := SensorStreamManager.tryConfigureVideoMode QVGA_depth_60 half_applied in
  vs_mode (stream_ (fst half_applied)) = VGA_depth /\
  outcome r = Done false /\
  vs_mode (stream_ (fst (final r))) = QVGA_depth /\
  vs_mode (stream_ (fst (final r))) <> vs_mode (stream_ (fst half_applied)) /\
  vs_mode (stream_ (fst (final r))) <> QVGA_depth_60.
Proof. by vm_compute. Qed.

(** C2, as the code has it: after beginConfigure followed immediately by
    endConfigure a stream that was stopped is stopped, nothing was called
    and the stream object is as it was; a stream that was running has been
    stopped, endConfigure has made at least one start attempt, and the
    stream is running again, as the flag running_ and as the stream of the
    SDK, exactly when the last start attempt of endConfigure returned
    STATUS_OK; it is left stopped otherwise. *)
Theorem begin_then_end_restores_when_restart_succeeds (s : SensorStreamManager.St) :
  let r := begin_then_end s in
  outcome r = Done tt /\
  (running_ (fst s) = false ->
     running_ (fst (final r)) = false /\ events r = [] /\
     stream_ (fst (final r)) = stream_ (fst s)) /\
  (running_ (fst s) = true ->
     exists rc evs,
       events r = EvStop :: evs /\
       last_start (events r) = Some rc /\
       running_ (fst (final r)) = is_OK rc /\
       vs_started (stream_ (fst (final r))) = is_OK rc /\
       (running_ (fst (final r)) = true <-> last_start (events r) = Some STATUS_OK)).
Proof.
  cbv zeta. unfold begin_then_end.
  pose proof (beginConfigure_run s) as Hb.
  set (s1 := (set_running_ false _, snd s)) in Hb.
  assert (Hwas : was_running_ (fst s1) = running_ (fst s)) by reflexivity.
  assert (Hrun1 : running_ (fst s1) = false) by reflexivity.
  split; [|split]; [| |].
  - destruct (endConfigure_run s1) as (s2 & evs & He & _).
    by rewrite (bind_run _ _ _ _ _ _ _ _ _ Hb He).
  - intros Hr.
    destruct (endConfigure_run s1) as (s2 & evs & He & _ & Hstopped & _).
    rewrite (bind_run _ _ _ _ _ _ _ _ _ Hb He).
    unfold outcome, final, events; cbn [fst snd].
    rewrite Hwas, Hr in Hstopped. destruct (Hstopped eq_refl) as [-> ->].
    rewrite Hr. split; [done|]. split; [done|].
    subst s1. rewrite Hr. by destruct s as [[vs dm nm fid run was] d].
  - intros Hr.
    assert (Hwas1 : was_running_ (fst s1) = true) by by rewrite Hwas.
    destruct (endConfigure_restart s1 Hwas1) as (s2 & evs & rc & He & Hlast & Hrun & Hst).
    rewrite (bind_run _ _ _ _ _ _ _ _ _ Hb He).
    unfold outcome, final, events; cbn [fst snd].
    rewrite Hrun1, orb_false_r in Hrun.
    exists rc, evs. rewrite Hr. cbn [app].
    split; [done|].
    assert (Hl : last_start (EvStop :: evs) = Some rc).
    { change (EvStop :: evs) with ([EvStop] ++ evs). by rewrite last_start_app, Hlast. }
    split; [exact Hl|]. split; [exact Hrun|]. split; [exact Hst|].
    rewrite Hl, Hrun. split.
    + intros H. by apply is_OK_true in H as ->.
    + by intros [= ->].
Qed.

(** A running stream whose restart is refused once: the recovery trial
    brings it back. *)
Lemma begin_then_end_restores_witness :
  let s := (example_manager true false, example_device [] [STATUS_ERROR; STATUS_OK] []) in
  running_ (fst s) = true /\
  running_ (fst (final (begin_then_end s))) = true /\
  vs_started (stream_ (fst (final (begin_then_end s)))) = true.
Proof.
  split; [reflexivity|].
  destruct (begin_then_end_restores_when_restart_succeeds
              (example_manager true false,
               example_device [] [STATUS_ERROR; STATUS_OK] []))
    as (_ & _ & H).
  destruct (H eq_refl) as (rc & evs & _ & Hlast & Hrun & Hst & _).
  rewrite Hrun, Hst.
  assert (Hrc : Some rc = Some STATUS_OK) by (rewrite <- Hlast; reflexivity).
  injection Hrc as ->. by split.
Defined.

(** C2 fails as stated: the stream was running before beginConfigure and
    is not running after endConfigure. *)
Lemma begin_then_end_not_restored :
  running_ (fst refusing_restart) = true /\
  outcome (begin_then_end refusing_restart) = Done tt /\
  running_ (fst (final (begin_then_end refusing_restart))) = false.
Proof. by vm_compute. Qed.

(** C1: when the stream had been running before the configuration round
    and the first start() of endConfigure fails, endConfigure logs a
    warning and makes at most max_trials recovery trials, each one a delay,
    removal of the listener, destroy, create for the same sensor type,
    registration of the listener and start(), every trial but the last
    having failed.  If the last start() succeeds, running_ is true and the
    recovery is reported; otherwise running_ stays false, an error is
    reported and the stream is not started. *)
Theorem endConfigure_restart_recovery (s : SensorStreamManager.St) (rc0 : Status) :
  was_running_ (fst s) = true ->
  running_ (fst s) = false ->
  outcome (SensorStreamManager.on_stream SDK.start s) = Done rc0 ->
  is_OK rc0 = false ->
  exists attempts : list (Status * Status),
    let type := vs_sensor (stream_ (fst s)) in
    let name := name_ (fst s) in
    let rc := List.last (map snd attempts) rc0 in
    let r := SensorStreamManager.endConfigure s in
    (length attempts <= Z.to_nat SensorStreamManager.max_trials)%nat /\
    Forall (fun a => is_OK (snd a) = false) (List.removelast attempts) /\
    outcome r = Done tt /\
    events r =
      [EvStart rc0;
       EvLog LOG_WARN ("Failed to restart stream '" +:+ name +:+ "' after configuration!")]
      ++ trials_events type 0 attempts ++ [recovery_report name rc] /\
    (is_OK rc = true ->
       running_ (fst (final r)) = true /\
       last (events r) = Some (EvLog LOG_INFO ("Recovered stream '" +:+ name +:+ "'."))) /\
    (is_OK rc = false ->
       running_ (fst (final r)) = false /\
       last (events r)
         = Some (EvLog LOG_ERROR
                   ("Failed to recover stream '" +:+ name +:+ "'! Restart required!")) /\
       vs_started (stream_ (fst (final r))) = false).
Proof.
  intros Hwas Hrun Hstart Hrc0.
  destruct (endConfigure_recovery_run s rc0 Hwas Hstart Hrc0)
    as (attempts & s' & He & _ & Hlen & _ & Hall & Hr & Hst & _).
  exists attempts. cbv zeta in *. rewrite He.
  unfold outcome, final, events; cbn [fst snd].
  split; [done|]. split; [done|]. split; [done|]. split; [done|].
  rewrite !app_assoc, last_snoc, Hr, Hst, Hrun, orb_false_r. unfold recovery_report.
  split; intros E; rewrite E; done.
Qed.

Lemma endConfigure_restart_recovery_witness :
  exists attempts : list (Status * Status),
    let type := vs_sensor (stream_ (fst refused_once)) in
    let name := name_ (fst refused_once) in
    let rc := List.last (map snd attempts) STATUS_ERROR in
    let r := SensorStreamManager.endConfigure refused_once in
    (length attempts <= Z.to_nat SensorStreamManager.max_trials)%nat /\
    Forall (fun a => is_OK (snd a) = false) (List.removelast attempts) /\
    outcome r = Done tt /\
    events r =
      [EvStart STATUS_ERROR;
       EvLog LOG_WARN ("Failed to restart stream '" +:+ name +:+ "' after configuration!")]
      ++ trials_events type 0 attempts ++ [recovery_report name rc] /\
    (is_OK rc = true ->
       running_ (fst (final r)) = true /\
       last (events r) = Some (EvLog LOG_INFO ("Recovered stream '" +:+ name +:+ "'."))) /\
    (is_OK rc = false ->
       running_ (fst (final r)) = false /\
       last (events r)
         = Some (EvLog LOG_ERROR
                   ("Failed to recover stream '" +:+ name +:+ "'! Restart required!")) /\
       vs_started (stream_ (fst (final r))) = false).
Proof.
  apply (endConfigure_restart_recovery refused_once STATUS_ERROR); reflexivity.
Defined.

Lemma trials_events_no_setVideoMode type attempts mode rc : forall trials,
  EvSetVideoMode mode rc ∉ trials_events type trials attempts.
Proof.
  induction attempts as [|a rest IH]; intros trials; cbn [trials_events].
  - apply not_elem_of_nil.
  - rewrite elem_of_app. intros [H|H]; [|exact (IH _ H)].
    unfold trial_events in H.
    rewrite elem_of_app, !elem_of_cons, elem_of_nil in H.
    destruct (is_OK (snd a)).
    + rewrite elem_of_nil in H. intuition discriminate.
    + rewrite elem_of_cons, elem_of_nil in H. intuition discriminate.
Qed.

(** C10: on the recovery path of endConfigure no setVideoMode is called,
    so a stream recovered by a trial is in the mode the driver gives a
    newly created stream of that sensor; that mode need not be the one the
    stream was configured to before. *)
Theorem recovery_does_not_reapply_video_mode :
  (forall (s : SensorStreamManager.St) (rc0 : Status),
     was_running_ (fst s) = true ->
     running_ (fst s) = false ->
     outcome (SensorStreamManager.on_stream SDK.start s) = Done rc0 ->
     is_OK rc0 = false ->
     let r := SensorStreamManager.endConfigure s in
     (forall mode rc, EvSetVideoMode mode rc ∉ events r) /\
     (running_ (fst (final r)) = true ->
        vs_mode (stream_ (fst (final r)))
          = dev_creation_mode (snd s) (vs_sensor (stream_ (fst s)))))
  /\
  (let r := SensorStreamManager.endConfigure refused_once in
   running_ (fst (final r)) = true /\
   vs_mode (stream_ (fst refused_once)) = VGA_depth /\
   vs_mode (stream_ (fst (final r))) = QVGA_depth).
Proof.
  split; [|by vm_compute].
  intros s rc0 Hwas Hstopped Hstart Hrc0.
  destruct (endConfigure_recovery_run s rc0 Hwas Hstart Hrc0)
    as (attempts & s' & He & _ & _ & _ & _ & Hr & Hst & Hmode).
  cbv zeta in *. rewrite He. unfold final, events; cbn [fst snd]. split.
  - intros mode rc. rewrite !elem_of_app, !elem_of_cons, elem_of_nil.
    unfold restart_warning, recovery_report.
    intros [[H|[H|[]]] | [H | [H|[]]]]; try discriminate.
    + by eapply trials_events_no_setVideoMode.
    + destruct (is_OK (List.last (map snd attempts) rc0)); discriminate.
  - intros Hrun. apply Hmode. by rewrite Hr, Hstopped, orb_false_r in Hrun.
Qed.

Lemma recovery_does_not_reapply_video_mode_witness :
  let r := SensorStreamManager.endConfigure refused_once in
  (forall mode rc, EvSetVideoMode mode rc ∉ events r) /\
  vs_mode (stream_ (fst (final r))) = QVGA_depth.
Proof.
  destruct (proj1 recovery_does_not_reapply_video_mode refused_once STATUS_ERROR)
    as [H1 H2]; try reflexivity.
  split; [exact H1|]. apply H2. reflexivity.
Defined.

(** ** Claims on the depth router *)

Section DepthRouter.

Import DepthSensorStreamManager.

Lemma updateActivePublisher_run (s : St) :
  let m := fst s in
  let format := getPixelFormat (vs_mode (stream_ (base m))) in
  updateActivePublisher s =
    (Done tt,
     (mkDepthSensorStreamManager
        (set_frame_id_ (if registered (snd s) then rgb_frame_id_ m else depth_frame_id_ m)
           (base m))
        (if bool_decide (format = PIXEL_FORMAT_DEPTH_1_MM) then
           Some (if registered (snd s) then depth_registered_publisher_ else publisher_)
         else if bool_decide (format = PIXEL_FORMAT_SHIFT_9_2) then
           Some (if registered (snd s) then disparity_registered_publisher_
                 else disparity_publisher_)
         else None)
        (rgb_frame_id_ m) (depth_frame_id_ m),
      snd s),
     []).
Proof.
  destruct s as [[[[valid sensor [x y fps format] st li mi ae awb] dm nm fid run was] act rgb dep]
                   [hs reg sup sync cm cr sr mr]].
  destruct reg, format; reflexivity.
Qed.

End DepthRouter.

(** C4: the channel selection of the depth router.  With pixel format
    DEPTH_1_MM the active channel is the primary depth channel and the
    frame id the depth sensor's when registration is off, the registered
    depth channel and the color sensor's frame id when registration is
    DEPTH_TO_COLOR; with SHIFT_9_2 the disparity channel and the registered
    disparity channel likewise; with any other pixel format no channel is
    selected, and publish then forwards nothing and logs nothing. *)
Theorem updateActivePublisher_selects_channel (s : DepthSensorStreamManager.St) :
  let registration := dev_registration (snd s) in
  let format := getPixelFormat (vs_mode (stream_ (base (fst s)))) in
  let r := DepthSensorStreamManager.updateActivePublisher s in
  let m' := fst (final r) in
  outcome r = Done tt /\
  (format = PIXEL_FORMAT_DEPTH_1_MM -> registration = IMAGE_REGISTRATION_OFF ->
     active_publisher_ m' = Some publisher_ /\
     frame_id_ (base m') = depth_frame_id_ (fst s)) /\
  (format = PIXEL_FORMAT_DEPTH_1_MM -> registration = IMAGE_REGISTRATION_DEPTH_TO_COLOR ->
     active_publisher_ m' = Some depth_registered_publisher_ /\
     frame_id_ (base m') = rgb_frame_id_ (fst s)) /\
  (format = PIXEL_FORMAT_SHIFT_9_2 -> registration = IMAGE_REGISTRATION_OFF ->
     active_publisher_ m' = Some disparity_publisher_ /\
     frame_id_ (base m') = depth_frame_id_ (fst s)) /\
  (format = PIXEL_FORMAT_SHIFT_9_2 -> registration = IMAGE_REGISTRATION_DEPTH_TO_COLOR ->
     active_publisher_ m' = Some disparity_registered_publisher_ /\
     frame_id_ (base m') = rgb_frame_id_ (fst s)) /\
  (format <> PIXEL_FORMAT_DEPTH_1_MM -> format <> PIXEL_FORMAT_SHIFT_9_2 ->
     active_publisher_ m' = None /\
     forall image camera_info,
       DepthSensorStreamManager.publish image camera_info (final r)
         = (Done tt, final r, [])).
Proof.
  cbv zeta. rewrite updateActivePublisher_run.
  unfold outcome, final, registered; cbn [fst snd active_publisher_ base frame_id_ set_frame_id_].
  split; [done|].
  split; [by intros -> ->|]. split; [by intros -> ->|].
  split; [by intros -> ->|]. split; [by intros -> ->|].
  intros H1 H2. rewrite !bool_decide_eq_false_2 by done. done.
Qed.

(** The idle router: pixel format DEPTH_1_MM, registration off. *)
Lemma updateActivePublisher_selects_channel_witness :
  let r := DepthSensorStreamManager.updateActivePublisher idle_router in
  active_publisher_ (fst (final r)) = Some publisher_ /\
  frame_id_ (base (fst (final r))) = depth_frame_id_ (fst idle_router).
Proof.
  destruct (updateActivePublisher_selects_channel idle_router) as (_ & H & _).
  apply H; reflexivity.
Defined.

(** ** Interest changes *)

Lemma last_start_succeeded_app_r evs1 evs2 :
  last_start_succeeded (evs1 ++ evs2) -> last_start_succeeded evs2.
Proof.
  unfold last_start_succeeded. rewrite last_start_app.
  by destruct (last_start evs2).
Qed.

Lemma onSubscriptionChanged_run n (s : SensorStreamManager.St) :
  exists s' evs,
    SensorStreamManager.onSubscriptionChanged n s = (Done tt, s', evs) /\
    (last_start_succeeded evs -> (running_ (fst s') = true <-> (0 < n)%N)) /\
    (coherent (fst s) -> coherent (fst s')).
Proof.
  unfold SensorStreamManager.onSubscriptionChanged, coherent.
  destruct (N.ltb_spec 0 n) as [Hn|Hn].
  - destruct (running_ (fst s)) eqn:Hr.
    + exists s, []. split.
      * eapply eq_trans.
        { eapply bind_run; [unfold SensorStreamManager.this, gets; by rewrite Hr|].
          reflexivity. }
        reflexivity.
      * by rewrite Hr.
    + destruct (start_run s) as (rc & s1 & Hrun1 & Hsame1 & _ & _ & _ & Hst1).
      destruct Hsame1 as (_ & _ & _ & Hr1 & _).
      exists (if is_OK rc then (set_running_ true (fst s1), snd s1) else s1), [EvStart rc].
      split.
      * eapply eq_trans.
        { eapply bind_run; [unfold SensorStreamManager.this, gets; by rewrite Hr|].
          cbn [negb]. eapply bind_run; [exact Hrun1|]. rewrite when_run.
          instantiate (1 := []). instantiate (1 := if is_OK rc then _ else _).
          destruct (is_OK rc); reflexivity. }
        reflexivity.
      * split.
        { unfold last_start_succeeded. cbn. intros ->. cbn. done. }
        intros Hco. rewrite Hco, orb_false_r in Hst1.
        destruct (is_OK rc); cbn [fst]; [exact Hst1|]. rewrite Hst1. congruence.
  - exists (set_running_ false (set_stream_ (set_vs_started false (stream_ (fst s))) (fst s)),
            snd s), [EvStop].
    split; [by destruct s as [[? ? ? ? ? ?] ?]|].
    split; [|done].
    intros _. cbn. split; [done|lia].
Qed.

Lemma onSubscriptionChanged_depth_run f (s : DepthSensorStreamManager.St) :
  exists s' evs,
    DepthSensorStreamManager.onSubscriptionChanged f s = (Done tt, s', evs) /\
    (last_start_succeeded evs ->
       (running_ (base (fst s')) = true <-> (0 < observed_clients f)%N)) /\
    (coherent (base (fst s)) -> coherent (base (fst s'))).
Proof.
  unfold DepthSensorStreamManager.onSubscriptionChanged, coherent. cbv zeta.
  fold (observed_clients f).
  assert (Hupdate : forall (s0 : DepthSensorStreamManager.St),
    exists s1,
      (running <- DepthSensorStreamManager.this (fun m => running_ (base m)) ;;
       when running DepthSensorStreamManager.updateActivePublisher) s0 = (Done tt, s1, []) /\
      running_ (base (fst s1)) = running_ (base (fst s0)) /\
      stream_ (base (fst s1)) = stream_ (base (fst s0))).
  { intros s0. destruct (running_ (base (fst s0))) eqn:Hr0.
    - eexists. split.
      + eapply eq_trans.
        { eapply bind_run;
            [unfold DepthSensorStreamManager.this, gets; by rewrite Hr0|].
          cbn [when]. apply updateActivePublisher_run. }
        reflexivity.
      + done.
    - exists s0. split; [|done]. eapply eq_trans.
      { eapply bind_run;
          [unfold DepthSensorStreamManager.this, gets; by rewrite Hr0|].
        reflexivity. }
      reflexivity. }
  destruct (running_ (base (fst s))) eqn:Hr.
  - destruct (N.eqb_spec (observed_clients f) 0) as [Hz|Hz].
    + (* running, no client left: stop *)
      set (s1 := (set_base (set_running_ false
                    (set_stream_ (set_vs_started false (stream_ (base (fst s))))
                       (base (fst s)))) (fst s), snd s)).
      destruct (Hupdate s1) as (s2 & Hrun2 & Hr2 & Hs2).
      exists s2, [EvStop]. split.
      * eapply eq_trans.
        { eapply bind_run; [unfold DepthSensorStreamManager.this, gets; by rewrite Hr|].
          eapply bind_run; [|exact Hrun2].
          rewrite Hz. cbn [negb andb N.ltb N.compare N.eqb].
          instantiate (1 := [EvStop]).
          destruct s as [[[? ? ? ? ? ?] ? ? ?] ?]. reflexivity. }
        reflexivity.
      * split.
        { intros _. rewrite Hr2, Hz. cbn. split; [done|lia]. }
        intros _. by rewrite Hs2, Hr2.
    + destruct (Hupdate s) as (s2 & Hrun2 & Hr2 & Hs2).
      exists s2, []. split.
      * eapply eq_trans.
        { eapply bind_run; [unfold DepthSensorStreamManager.this, gets; by rewrite Hr|].
          eapply bind_run; [|exact Hrun2].
          cbn [negb andb]. instantiate (1 := []). reflexivity. }
        reflexivity.
      * split.
        { intros _. rewrite Hr2, Hr. split; [lia|done]. }
        intros Hco. by rewrite Hs2, Hr2, Hr.
  - destruct (N.ltb_spec 0 (observed_clients f)) as [Hn|Hn].
    + destruct (start_run (base (fst s), snd s))
        as (rc & s1 & Hrun1 & _ & _ & _ & _ & Hst1).
      set (s1' := (set_base (set_running_ (is_OK rc) (fst s1)) (fst s), snd s1)).
      destruct (Hupdate s1') as (s2 & Hrun2 & Hr2 & Hs2).
      exists s2, [EvStart rc]. split.
      * eapply eq_trans.
        { eapply bind_run; [unfold DepthSensorStreamManager.this, gets; by rewrite Hr|].
          eapply bind_run; [|exact Hrun2].
          cbn [negb andb]. eapply bind_run.
          - unfold DepthSensorStreamManager.super, zoom. rewrite Hrun1. reflexivity.
          - reflexivity. }
        reflexivity.
      * split.
        { unfold last_start_succeeded. cbn. intros ->. by rewrite Hr2. }
        intros Hco. rewrite Hs2, Hr2. cbn in Hst1 |- *.
        rewrite Hst1, Hco. by rewrite orb_false_r.
    + destruct (Hupdate s) as (s2 & Hrun2 & Hr2 & Hs2).
      exists s2, []. split.
      * eapply eq_trans.
        { eapply bind_run; [unfold DepthSensorStreamManager.this, gets; by rewrite Hr|].
          eapply bind_run; [|exact Hrun2].
          cbn [negb andb]. instantiate (1 := []).
          reflexivity. }
        reflexivity.
      * split.
        { intros _. rewrite Hr2, Hr. split; [done|lia]. }
        intros Hco. by rewrite Hs2, Hr2, Hr.
Qed.

(** Without a wrap-around the router sees the sum of the four counts. *)
Lemma observed_clients_exact (f : Channel -> SubscriberCount) :
  (f disparity_publisher_ + f disparity_registered_publisher_ < 2 ^ 32)%N ->
  (f publisher_ + f depth_registered_publisher_ < 2 ^ 32)%N ->
  observed_clients f = all_clients f.
Proof.
  intros H1 H2. unfold observed_clients, all_clients, size_t_add, uint32_add.
  rewrite (N.mod_small _ _ H1), (N.mod_small _ _ H2).
  rewrite N.mod_small; [lia|].
  change (2 ^ 64)%N with (2 ^ 32 * 2 ^ 32)%N.
  assert (2 <= 2 ^ 32)%N by (by vm_compute). nia.
Qed.

(** C5, as the code has it: after every notification of a sequence
    delivered to a stream controller, if the last start attempt succeeded,
    the stream is running exactly when the subscriber count that
    notification observes is greater than zero: so says the flag running_,
    and so does the stream of the SDK when flag and stream agreed before
    the sequence.  For the depth router the count observed is the sum the
    program computes, each pair of channel counts added in 32 bits and the
    two results added as size_t values; it is the sum over the four channels
    when neither pair reaches 2^32. *)
Theorem running_iff_subscribed :
  (forall (s : SensorStreamManager.St) (earlier : list SubscriberCount) (n : SubscriberCount),
     let r := notify (earlier ++ [n]) s in
     last_start_succeeded (events r) ->
     outcome r = Done tt /\
     (running_ (fst (final r)) = true <-> (0 < n)%N) /\
     (coherent (fst s) ->
        (vs_started (stream_ (fst (final r))) = true <-> (0 < n)%N)))
  /\
  (forall (s : DepthSensorStreamManager.St) (earlier : list (Channel -> SubscriberCount))
          (f : Channel -> SubscriberCount),
     let r := notify_depth (earlier ++ [f]) s in
     last_start_succeeded (events r) ->
     outcome r = Done tt /\
     (running_ (base (fst (final r))) = true <-> (0 < observed_clients f)%N) /\
     (coherent (base (fst s)) ->
        (vs_started (stream_ (base (fst (final r)))) = true
         <-> (0 < observed_clients f)%N)) /\
     ((f disparity_publisher_ + f disparity_registered_publisher_ < 2 ^ 32)%N ->
      (f publisher_ + f depth_registered_publisher_ < 2 ^ 32)%N ->
      observed_clients f
      = (f publisher_ + f depth_registered_publisher_
         + f disparity_publisher_ + f disparity_registered_publisher_)%N)).
Proof.
  split.
  - intros s earlier n. cbv zeta. revert s.
    induction earlier as [|n0 rest IH]; intros s; cbn [app notify].
    + destruct (onSubscriptionChanged_run n s) as (s' & evs & Hrun & H & Hco).
      rewrite (bind_run _ _ _ _ _ _ _ _ _ Hrun eq_refl), app_nil_r.
      unfold outcome, final, events; cbn [fst snd]. intros Hlast.
      split; [done|]. split; [auto|].
      intros Hs. rewrite (Hco Hs). auto.
    + destruct (onSubscriptionChanged_run n0 s) as (s' & evs & Hrun & _ & Hco).
      rewrite (bind_Done _ _ _ _ _ _ Hrun).
      unfold outcome, final, events; cbn [fst snd].
      intros Hlast. apply last_start_succeeded_app_r in Hlast.
      destruct (IH s' Hlast) as (Ho & Hr & Hv).
      split; [done|]. split; [done|]. intros Hs. apply Hv, Hco, Hs.
  - intros s earlier f. cbv zeta. revert s.
    induction earlier as [|f0 rest IH]; intros s; cbn [app notify_depth].
    + destruct (onSubscriptionChanged_depth_run f s) as (s' & evs & Hrun & H & Hco).
      rewrite (bind_run _ _ _ _ _ _ _ _ _ Hrun eq_refl), app_nil_r.
      unfold outcome, final, events; cbn [fst snd]. intros Hlast.
      split; [done|]. split; [auto|]. split.
      * intros Hs. rewrite (Hco Hs). auto.
      * apply observed_clients_exact.
    + destruct (onSubscriptionChanged_depth_run f0 s) as (s' & evs & Hrun & _ & Hco).
      rewrite (bind_Done _ _ _ _ _ _ Hrun).
      unfold outcome, final, events; cbn [fst snd].
      intros Hlast. apply last_start_succeeded_app_r in Hlast.
      destruct (IH s' Hlast) as (Ho & Hr & Hv & Hx).
      split; [done|]. split; [done|]. split; [|done].
      intros Hs. apply Hv, Hco, Hs.
Qed.

Lemma running_iff_subscribed_witness :
  (let r := notify ([1; 0] ++ [2])%N idle_plain in
   outcome r = Done tt /\
   (running_ (fst (final r)) = true <-> (0 < 2)%N) /\
   (vs_started (stream_ (fst (final r))) = true <-> (0 < 2)%N))
  /\
  (let r := notify_depth ([clients 0 1 0 0; clients 0 0 0 0] ++ [clients 0 0 2 1])
              idle_router in
   outcome r = Done tt /\
   (running_ (base (fst (final r))) = true <-> (0 < 3)%N) /\
   (vs_started (stream_ (base (fst (final r)))) = true <-> (0 < 3)%N)).
Proof.
  split.
  - destruct (proj1 running_iff_subscribed idle_plain [1; 0]%N 2%N) as (Ho & Hr & Hv).
    { by vm_compute. }
    split; [exact Ho|]. split; [exact Hr|]. apply Hv. reflexivity.
  - destruct (proj2 running_iff_subscribed idle_router
                [clients 0 1 0 0; clients 0 0 0 0] (clients 0 0 2 1))
      as (Ho & Hr & Hv & _).
    { by vm_compute. }
    split; [exact Ho|]. split; [exact Hr|]. apply Hv. reflexivity.
Defined.

(** C5 fails as stated: the two disparity channels have 2^31 subscribers
    each, their 32-bit sum is 0, and the router, stopped on hardware that
    would start, attempts no start and stays stopped although the sum over
    the four channels is positive. *)
Lemma running_iff_subscribed_wraps :
  let r := notify_depth [wrapping_clients] ready_router in
  (0 < wrapping_clients publisher_ + wrapping_clients depth_registered_publisher_
       + wrapping_clients disparity_publisher_
       + wrapping_clients disparity_registered_publisher_)%N /\
  last_start_succeeded (events r) /\
  outcome r = Done tt /\
  events r = [] /\
  running_ (base (fst (final r))) = false /\
  vs_started (stream_ (base (fst (final r)))) = false.
Proof. by vm_compute. Qed.

(** ** The frame listener *)


(** ** Rules for specifications of runs *)

Lemma spec_ret {E S A} (P : S -> Prop) (ev : E -> Prop) (a : A) :
  spec P ev (ret a) (fun a' s' => a' = a /\ P s').
Proof. intros s HP. by exists a, s, []. Qed.

Lemma spec_bind {E S A B} (P : S -> Prop) (ev : E -> Prop) (m : M E S A)
    (k : A -> M E S B) (Q : A -> S -> Prop) (R : B -> S -> Prop) :
  spec P ev m Q ->
  (forall a, spec (Q a) ev (k a) R) ->
  spec P ev (bind m k) R.
Proof.
  intros Hm Hk s HP.
  destruct (Hm s HP) as (a & s1 & e1 & Hrun1 & Hev1 & HQ).
  destruct (Hk a s1 HQ) as (b & s2 & e2 & Hrun2 & Hev2 & HR).
  exists b, s2, (e1 ++ e2). split; [by apply (bind_run _ _ _ _ _ _ _ _ _ Hrun1)|].
  split; [by apply Forall_app|done].
Qed.

Lemma spec_conseq {E S A} (P P' : S -> Prop) (ev ev' : E -> Prop) (m : M E S A)
    (Q Q' : A -> S -> Prop) :
  spec P ev m Q ->
  (forall s, P' s -> P s) ->
  (forall e, ev e -> ev' e) ->
  (forall a s, Q a s -> Q' a s) ->
  spec P' ev' m Q'.
Proof.
  intros Hm HP Hev HQ s HP'.
  destruct (Hm s (HP s HP')) as (a & s' & evs & Hrun & Hevs & HQa).
  exists a, s', evs. split; [done|]. split; [|auto].
  eapply Forall_impl; eauto.
Qed.

Lemma spec_gets {E S A} (P : S -> Prop) (ev : E -> Prop) (f : S -> A) :
  spec P ev (gets f) (fun a s' => a = f s' /\ P s').
Proof. intros s HP. by exists (f s), s, []. Qed.

Lemma spec_modify {E S} (P Q : S -> Prop) (ev : E -> Prop) (f : S -> S) :
  (forall s, P s -> Q (f s)) ->
  spec P ev (modify f) (fun _ s' => Q s').
Proof. intros H s HP. exists tt, (f s), []. auto. Qed.

Lemma spec_emit {E S} (P : S -> Prop) (ev : E -> Prop) (e : E) :
  ev e -> spec P ev (emit e) (fun _ s' => P s').
Proof. intros He s HP. exists tt, s, [e]. auto. Qed.

Lemma spec_when {E S} (P : S -> Prop) (ev : E -> Prop) (c : bool) (m : M E S unit) :
  (c = true -> spec P ev m (fun _ s' => P s')) ->
  spec P ev (when c m) (fun _ s' => P s').
Proof.
  intros Hm. destruct c; cbn [when]; [auto|].
  intros s HP. by exists tt, s, [].
Qed.

Lemma spec_bind_gets {E S A B} (P : S -> Prop) (ev : E -> Prop) (f : S -> A) (v : A)
    (k : A -> M E S B) (R : B -> S -> Prop) :
  (forall s, P s -> f s = v) ->
  spec P ev (k v) R ->
  spec P ev (bind (gets f) k) R.
Proof.
  intros Hf Hk. eapply spec_bind; [apply spec_gets|].
  intros a s [Ha HP]. subst a. rewrite (Hf s HP). by apply Hk.
Qed.

Lemma spec_bind_gets_any {E S A B} (P : S -> Prop) (ev : E -> Prop) (f : S -> A)
    (k : A -> M E S B) (R : B -> S -> Prop) :
  (forall a, spec (fun s => P s /\ f s = a) ev (k a) R) ->
  spec P ev (bind (gets f) k) R.
Proof.
  intros Hk. eapply spec_bind; [apply spec_gets|].
  intros a s [Ha HP]. by apply Hk.
Qed.

Lemma spec_seq {E S A B} (P Q : S -> Prop) (ev : E -> Prop) (m : M E S A)
    (k : M E S B) (R : B -> S -> Prop) :
  spec P ev m (fun _ s' => Q s') ->
  spec Q ev k R ->
  spec P ev (bind m (fun _ => k)) R.
Proof. intros Hm Hk. eapply spec_bind; [exact Hm|]. intros a. exact Hk. Qed.

(** ** Managers seen from the camera *)

Lemma returns_beginConfigure :
  returns SensorStreamManager.beginConfigure (fun ok => ok = true).
Proof.
  intros st. eexists _, _, _. split; [apply beginConfigure_run|].
  split; [apply same_settings_refl|done].
Qed.

Lemma returns_tryConfigureVideoMode mode :
  returns (SensorStreamManager.tryConfigureVideoMode mode) (fun _ => True).
Proof.
  intros st.
  destruct (tryConfigureVideoMode_cases mode st)
    as (s' & _ & Hd & [[H _] | [(rc & _ & H & _) | (rc & rc' & _ & _ & H)]]);
    eexists _, s', _; (split; [exact H|done]).
Qed.

Lemma returns_endConfigure :
  returns SensorStreamManager.endConfigure (fun _ => True).
Proof.
  intros st. destruct (endConfigure_run st) as (s' & evs & H & Hd & _).
  by exists tt, s', evs.
Qed.

Lemma returns_on_stream {A} (call : M Event SDK.St A) (post : A -> Prop) :
  returns call post -> returns (SensorStreamManager.on_stream call) post.
Proof.
  intros Hcall st.
  destruct (Hcall (stream_ (fst st), snd st)) as (a & st' & evs & H & Hd & Hp).
  exists a, (set_stream_ (fst st') (fst st), snd st'), evs.
  unfold SensorStreamManager.on_stream, zoom. rewrite H, map_id. by cbn.
Qed.

Lemma returns_super {A} (call : M Event SensorStreamManager.St A) (post : A -> Prop) :
  returns call post -> returns (DepthSensorStreamManager.super call) post.
Proof.
  intros Hcall st.
  destruct (Hcall (base (fst st), snd st)) as (a & st' & evs & H & Hd & Hp).
  exists a, (set_base (fst st') (fst st), snd st'), evs.
  unfold DepthSensorStreamManager.super, zoom. rewrite H, map_id. by cbn.
Qed.

Lemma returns_depth_endConfigure :
  returns DepthSensorStreamManager.endConfigure (fun _ => True).
Proof.
  intros st.
  destruct (returns_super _ _ returns_endConfigure st) as ([] & s1 & evs & H1 & Hd1 & _).
  unfold DepthSensorStreamManager.endConfigure.
  destruct (running_ (base (fst s1))) eqn:Hr.
  - eexists tt, _, _. split.
    + eapply bind_run; [exact H1|].
      eapply bind_run;
        [unfold DepthSensorStreamManager.this, gets; by rewrite Hr|].
      cbn [when]. apply updateActivePublisher_run.
    + done.
  - exists tt, s1, (evs ++ []). split.
    + eapply bind_run; [exact H1|].
      eapply eq_trans.
      { eapply bind_run;
          [unfold DepthSensorStreamManager.this, gets; by rewrite Hr|].
        reflexivity. }
      reflexivity.
    + done.
Qed.

Lemma returns_setter (call : M Event SDK.St unit) :
  (forall st, exists vs e, call st = (Done tt, (vs, snd st), [e])) ->
  returns call (fun _ => True).
Proof.
  intros H st. destruct (H st) as (vs & e & Hrun).
  exists tt, (vs, snd st), [e]. split; [done|]. split; [apply same_settings_refl|done].
Qed.

Lemma returns_setAutoExposureEnabled on :
  returns (SDK.setAutoExposureEnabled on) (fun _ => True).
Proof. apply returns_setter. intros st. by eexists _, _. Qed.

Lemma returns_setAutoWhiteBalanceEnabled on :
  returns (SDK.setAutoWhiteBalanceEnabled on) (fun _ => True).
Proof. apply returns_setter. intros st. by eexists _, _. Qed.

Lemma returns_setMirroringEnabled on :
  returns (SDK.setMirroringEnabled on) (fun _ => True).
Proof. apply returns_setter. intros st. by eexists _, _. Qed.

(** ** The reconfiguration coordinator *)

Section Coordinator.

Import CameraImpl.

(** What stays fixed while [configure] runs, up to the two things the
    depth block may change: the registration mode [reg] and the request
    [cfg]. *)
Variable R : gmap Z VideoMode.
Variable ab : Slot -> bool.
Variable sup : bool.

Lemma Inv_on_manager reg cfg slot x d (s : St) :
  Inv R ab sup reg cfg s -> ab slot = false -> absent x = false ->
  same_settings (device_ (fst s)) d ->
  Inv R ab sup reg cfg (set_sensor_at slot x (set_device_ d (fst s)), snd s).
Proof.
  intros (HR & Hab & Hsup & Hreg & Hcfg) Hslot Hx (_ & Hr & Hs & _).
  split; [by destruct slot|]. split.
  { intros slot'. specialize (Hab slot').
    destruct slot, slot'; cbn in *; congruence. }
  split; [destruct slot; cbn; congruence|].
  split; [destruct slot; cbn; congruence|]. done.
Qed.

Lemma on_manager_spec {Mgr A} reg cfg slot (wrap : Mgr -> Sensor) (m : Mgr)
    (call : M Event (Mgr * Device) A) (post : A -> Prop) :
  (forall x, absent (wrap x) = false) ->
  ab slot = false ->
  returns call post ->
  spec (Inv R ab sup reg cfg) (on_slot slot) (on_manager slot wrap m call)
    (fun a s' => post a /\ Inv R ab sup reg cfg s').
Proof.
  intros Hwrap Hslot Hcall s HI.
  destruct (Hcall (m, device_ (fst s))) as (a & st' & evs & H & Hd & Hp).
  exists a, (set_sensor_at slot (wrap (fst st')) (set_device_ (snd st') (fst s)), snd s),
    (map (OnSensor slot) evs).
  split; [unfold on_manager, zoom; by rewrite H|].
  split; [apply Forall_map, Forall_forall; by intros|].
  split; [done|]. by apply Inv_on_manager.
Qed.

Lemma emit_then {E S A} (e : E) (k : M E S A) s a s' rest :
  k s = (Done a, s', rest) -> (emit e ;;; k) s = (Done a, s', e :: rest).
Proof. intros H. unfold bind, emit. cbn. by rewrite H. Qed.

Lemma beginConfigure_run_camera reg cfg slot (s : St) :
  Inv R ab sup reg cfg s ->
  exists s' rest,
    beginConfigure slot s
      = (Done (negb (ab slot)), s', Call slot call_beginConfigure :: rest) /\
    Forall (on_slot slot) rest /\
    Inv R ab sup reg cfg s'.
Proof.
  intros HI. unfold beginConfigure.
  assert (Hab : absent (sensor_at slot (fst s)) = ab slot) by apply HI.
  destruct (sensor_at slot (fst s)) as [|m|m] eqn:Hs.
  - exists s, []. rewrite <- Hab. split; [|done].
    apply emit_then.
    eapply eq_trans.
    { eapply bind_run; [unfold this, gets; by rewrite Hs|]. reflexivity. }
    reflexivity.
  - destruct (on_manager_spec reg cfg slot Plain m _ _ (fun _ => eq_refl) (eq_sym Hab)
                returns_beginConfigure s HI) as (a & s' & evs & H & Hev & -> & HI').
    exists s', evs. rewrite <- Hab. split; [|done].
    apply emit_then.
    eapply eq_trans.
    { eapply bind_run; [unfold this, gets; by rewrite Hs|]. exact H. }
    reflexivity.
  - destruct (on_manager_spec reg cfg slot DepthRouter m _ _ (fun _ => eq_refl)
                (eq_sym Hab) (returns_super _ _ returns_beginConfigure) s HI)
      as (a & s' & evs & H & Hev & -> & HI').
    exists s', evs. rewrite <- Hab. split; [|done].
    apply emit_then.
    eapply eq_trans.
    { eapply bind_run; [unfold this, gets; by rewrite Hs|]. exact H. }
    reflexivity.
Qed.

(** The other three virtual calls, made only on a sensor that exists. *)
Lemma dispatch_spec {A} reg cfg slot (method : Method)
    (base_call : M Event St A)
    (plain : M Event SensorStreamManager.St A)
    (depth : M Event DepthSensorStreamManager.St A) :
  ab slot = false ->
  returns plain (fun _ => True) ->
  returns depth (fun _ => True) ->
  spec (Inv R ab sup reg cfg) (on_slot slot)
    (emit (Call slot method) ;;;
     sensor <- this (sensor_at slot) ;;
     match sensor with
     | Absent => zoom (fun s => s) (fun _ s => s) (OnSensor slot) base_call
     | Plain m => on_manager slot Plain m plain
     | DepthRouter m => on_manager slot DepthRouter m depth
     end)
    (fun _ s' => Inv R ab sup reg cfg s').
Proof.
  intros Hslot Hplain Hdepth.
  eapply spec_seq; [by apply spec_emit|].
  apply spec_bind_gets_any. intros [|m|m].
  - intros s [HI Hs]. destruct HI as (_ & Hab & _).
    specialize (Hab slot). rewrite Hs, Hslot in Hab. discriminate.
  - eapply spec_conseq;
      [apply (on_manager_spec reg cfg slot Plain m _ _ (fun _ => eq_refl) Hslot Hplain)
      | by intros s [HI _] | done | by intros a s [_ HI]].
  - eapply spec_conseq;
      [apply (on_manager_spec reg cfg slot DepthRouter m _ _ (fun _ => eq_refl) Hslot
                Hdepth)
      | by intros s [HI _] | done | by intros a s [_ HI]].
Qed.

Lemma tryConfigureVideoMode_spec reg cfg slot mode :
  ab slot = false ->
  spec (Inv R ab sup reg cfg) (on_slot slot) (tryConfigureVideoMode slot mode)
    (fun _ s' => Inv R ab sup reg cfg s').
Proof.
  intros Hslot. apply dispatch_spec; [done| |].
  - apply returns_tryConfigureVideoMode.
  - apply returns_super, returns_tryConfigureVideoMode.
Qed.

Lemma endConfigure_spec reg cfg slot :
  ab slot = false ->
  spec (Inv R ab sup reg cfg) (on_slot slot) (endConfigure slot) (fun _ s' => Inv R ab sup reg cfg s').
Proof.
  intros Hslot. apply dispatch_spec; [done| |].
  - apply returns_endConfigure.
  - apply returns_depth_endConfigure.
Qed.

Lemma stream_spec reg cfg slot (call : M Event SDK.St unit) :
  ab slot = false ->
  returns call (fun _ => True) ->
  spec (Inv R ab sup reg cfg) (on_slot slot) (stream slot call) (fun _ s' => Inv R ab sup reg cfg s').
Proof.
  intros Hslot Hcall. apply dispatch_spec; [done| |].
  - by apply returns_on_stream.
  - by apply returns_super, returns_on_stream.
Qed.

(** A flagged resolution change whose key is in the catalog. *)
Lemma resolution_spec reg cfg slot (bit : Z) (level : Z)
    (key : CameraConfig -> Z) :
  ab slot = false ->
  (flagged level bit = true -> is_Some (R !! key cfg)) ->
  spec (Inv R ab sup reg cfg) (on_slot slot)
    (when (flagged level bit) (
       k <- gets (fun s => key (snd s)) ;;
       mode <- find_resolution k ;;
       tryConfigureVideoMode slot mode ;;; ret tt))
    (fun _ s' => Inv R ab sup reg cfg s').
Proof.
  intros Hslot Hkey. apply spec_when. intros Hflag.
  destruct (Hkey Hflag) as [mode Hmode].
  eapply (spec_bind_gets _ _ _ (key cfg));
    [by intros s (_ & _ & _ & _ & ->)|].
  unfold find_resolution.
  eapply spec_bind.
  { eapply (spec_bind_gets _ _ _ (Some mode)).
    - intros s (HR & _). cbn. by rewrite HR.
    - apply spec_ret. }
  intros a. cbn beta.
  eapply spec_seq.
  - eapply spec_conseq; [by apply (tryConfigureVideoMode_spec reg cfg slot a)
                        | by intros s [_ HI] | done | intros ? s HI; exact HI].
  - eapply spec_conseq; [apply spec_ret | done | done | by intros ? s [_ HI]].
Qed.

Lemma setting_spec reg cfg slot (bit : Z) (level : Z) (field : CameraConfig -> bool)
    (call : bool -> M Event SDK.St unit) :
  ab slot = false ->
  (forall on, returns (call on) (fun _ => True)) ->
  spec (Inv R ab sup reg cfg) (on_slot slot)
    (when (flagged level bit) (
       on <- gets (fun s => field (snd s)) ;;
       stream slot (call on)))
    (fun _ s' => Inv R ab sup reg cfg s').
Proof.
  intros Hslot Hcall. apply spec_when. intros _.
  eapply (spec_bind_gets _ _ _ (field cfg));
    [by intros s (_ & _ & _ & _ & ->)|].
  by apply stream_spec.
Qed.

(** A block of [configure]: [beginConfigure], then, if it allows, the
    rest of the block. *)
Lemma block_run reg cfg reg' cfg' slot (ev : CamEvent -> Prop)
    (body : M CamEvent St unit) (s : St) :
  (forall e, on_slot slot e -> ev e) ->
  (ab slot = false -> spec (Inv R ab sup reg cfg) ev body (fun _ s' => Inv R ab sup reg' cfg' s')) ->
  (ab slot = true -> reg' = reg /\ cfg' = cfg) ->
  Inv R ab sup reg cfg s ->
  exists s' rest,
    (ok <- beginConfigure slot ;; when ok body) s
      = (Done tt, s', Call slot call_beginConfigure :: rest) /\
    Forall ev rest /\
    Inv R ab sup reg' cfg' s'.
Proof.
  intros Hev Hbody Habsent HI.
  destruct (beginConfigure_run_camera reg cfg slot s HI) as (s1 & rest1 & H1 & Hev1 & HI1).
  destruct (ab slot) eqn:Hslot; cbn [negb] in H1.
  - exists s1, rest1. destruct (Habsent eq_refl) as [-> ->].
    split; [|split; [by eapply Forall_impl|done]].
    rewrite (bind_run _ _ _ _ _ _ _ _ _ H1 eq_refl). by rewrite app_nil_r.
  - destruct (Hbody eq_refl s1 HI1) as ([] & s2 & rest2 & H2 & Hev2 & HI2).
    exists s2, (rest1 ++ rest2).
    split; [exact (bind_run _ _ _ _ _ _ _ _ _ H1 H2)|].
    split; [|done]. apply Forall_app. split; [by eapply Forall_impl|done].
Qed.

Lemma configure_rgb_run reg cfg level (s : St) :
  (ab RGB = false -> flagged level 8 = true -> is_Some (R !! rgb_resolution cfg)) ->
  Inv R ab sup reg cfg s ->
  exists s' rest,
    configure_rgb level s = (Done tt, s', Call RGB call_beginConfigure :: rest) /\
    Forall (on_slot RGB) rest /\
    Inv R ab sup reg cfg s'.
Proof.
  intros Hkey HI. apply (block_run reg cfg reg cfg RGB); auto.
  intros Hslot.
  eapply spec_seq; [apply (resolution_spec reg cfg RGB 8 level rgb_resolution); auto|].
  eapply spec_seq;
    [apply (setting_spec reg cfg RGB 2 level auto_exposure SDK.setAutoExposureEnabled);
     auto using returns_setAutoExposureEnabled|].
  eapply spec_seq;
    [apply (setting_spec reg cfg RGB 4 level auto_white_balance
              SDK.setAutoWhiteBalanceEnabled);
     auto using returns_setAutoWhiteBalanceEnabled|].
  eapply spec_seq;
    [apply (setting_spec reg cfg RGB 64 level mirror SDK.setMirroringEnabled);
     auto using returns_setMirroringEnabled|].
  by apply endConfigure_spec.
Qed.

Lemma configure_ir_run reg cfg level (s : St) :
  (ab IR = false -> flagged level 32 = true -> is_Some (R !! ir_resolution cfg)) ->
  Inv R ab sup reg cfg s ->
  exists s' rest,
    configure_ir level s = (Done tt, s', Call IR call_beginConfigure :: rest) /\
    Forall (on_slot IR) rest /\
    Inv R ab sup reg cfg s'.
Proof.
  intros Hkey HI. apply (block_run reg cfg reg cfg IR); auto.
  intros Hslot.
  eapply spec_seq; [apply (resolution_spec reg cfg IR 32 level ir_resolution); auto|].
  eapply spec_seq;
    [apply (setting_spec reg cfg IR 64 level mirror SDK.setMirroringEnabled);
     auto using returns_setMirroringEnabled|].
  by apply endConfigure_spec.
Qed.

Lemma setImageRegistrationMode_spec reg cfg mode :
  spec (Inv R ab sup reg cfg) on_depth_block (on_device (SDK.setImageRegistrationMode mode))
    (fun _ s' => Inv R ab sup mode cfg s').
Proof.
  intros s (HR & Hab & Hsup & Hreg & Hcfg).
  eexists tt, _, _. split; [reflexivity|]. split.
  - constructor; [|constructor]. right. by exists mode.
  - by repeat split.
Qed.

Lemma configure_registration_spec reg cfg level :
  spec (Inv R ab sup reg cfg) on_depth_block (configure_registration level)
    (fun _ s' => Inv R ab sup (registration_after sup level reg cfg) (request_after sup level cfg) s').
Proof.
  assert (Hsup : sup = true \/ sup = false) by (destruct sup; auto).
  unfold configure_registration.
  destruct (flagged level 1) eqn:Hflag; cbn [when].
  - eapply (spec_bind_gets _ _ _ (depth_registration cfg));
      [by intros s (_ & _ & _ & _ & ->)|].
    destruct (depth_registration cfg) eqn:Hreq.
    + destruct Hsup as [H|H].
      * replace (registration_after sup level reg cfg)
          with IMAGE_REGISTRATION_DEPTH_TO_COLOR
          by (unfold registration_after; by rewrite Hflag, Hreq, H).
        replace (request_after sup level cfg) with cfg
          by (unfold request_after; by rewrite Hflag, Hreq, H).
        eapply (spec_bind_gets _ _ _ true).
        { intros s (_ & _ & Hs & _). cbn. by rewrite Hs. }
        apply setImageRegistrationMode_spec.
      * replace (registration_after sup level reg cfg) with reg
          by (unfold registration_after; by rewrite Hflag, Hreq, H).
        replace (request_after sup level cfg) with (set_depth_registration false cfg)
          by (unfold request_after; by rewrite Hflag, Hreq, H).
        eapply (spec_bind_gets _ _ _ false).
        { intros s (_ & _ & Hs & _). cbn. by rewrite Hs. }
        apply spec_modify. intros s (HR & Hab & Hsup' & Hreg & Hcfg).
        repeat split; try done. cbn. by rewrite Hcfg.
    + replace (registration_after sup level reg cfg) with IMAGE_REGISTRATION_OFF
        by (unfold registration_after; by rewrite Hflag, Hreq).
      replace (request_after sup level cfg) with cfg
        by (unfold request_after; by rewrite Hflag, Hreq).
      apply setImageRegistrationMode_spec.
  - replace (registration_after sup level reg cfg) with reg
      by (unfold registration_after; by rewrite Hflag).
    replace (request_after sup level cfg) with cfg
      by (unfold request_after; by rewrite Hflag).
    eapply spec_conseq; [apply spec_ret|done|done|by intros ? s [_ HI]].
Qed.

(** The step when enabling is requested and the device does not support
    it: no call on the device, the request is amended. *)
Lemma configure_registration_unsupported reg cfg level :
  flagged level 1 = true -> depth_registration cfg = true -> sup = false ->
  spec (Inv R ab sup reg cfg) (on_slot DEPTH) (configure_registration level)
    (fun _ s' => Inv R ab sup reg (set_depth_registration false cfg) s').
Proof.
  intros Hflag Hreq Hsup. unfold configure_registration. rewrite Hflag. cbn [when].
  eapply (spec_bind_gets _ _ _ true); [by intros s (_ & _ & _ & _ & ->)|].
  eapply (spec_bind_gets _ _ _ false).
  { intros s (_ & _ & H & _). cbn. by rewrite H. }
  apply spec_modify. intros s (HR & Hab & Hsup' & Hreg & Hcfg).
  repeat split; try done. cbn. by rewrite Hcfg.
Qed.

(** The step when the mask does not flag depth_registration: nothing is
    done. *)
Lemma configure_registration_unflagged reg cfg level :
  flagged level 1 = false ->
  spec (Inv R ab sup reg cfg) (on_slot DEPTH) (configure_registration level)
    (fun _ s' => Inv R ab sup reg cfg s').
Proof.
  intros Hflag. unfold configure_registration. rewrite Hflag. cbn [when].
  eapply spec_conseq; [apply spec_ret|done|done|by intros ? s [_ HI]].
Qed.

Lemma configure_depth_run reg cfg reg' cfg' level (ev : CamEvent -> Prop) (s : St) :
  (ab DEPTH = false -> flagged level 16 = true -> is_Some (R !! depth_resolution cfg)) ->
  (forall e, on_slot DEPTH e -> ev e) ->
  (ab DEPTH = false ->
     spec (Inv R ab sup reg cfg) ev (configure_registration level)
       (fun _ s' => Inv R ab sup reg' cfg' s')) ->
  (ab DEPTH = true -> reg' = reg /\ cfg' = cfg) ->
  Inv R ab sup reg cfg s ->
  exists s' rest,
    configure_depth level s = (Done tt, s', Call DEPTH call_beginConfigure :: rest) /\
    Forall ev rest /\
    Inv R ab sup reg' cfg' s'.
Proof.
  intros Hkey Hev Hstep Habsent HI.
  apply (block_run reg cfg reg' cfg' DEPTH); auto.
  intros Hslot.
  eapply spec_seq.
  { eapply spec_conseq;
      [apply (resolution_spec reg cfg DEPTH 16 level depth_resolution); auto
      |done|apply Hev|done]. }
  eapply spec_seq; [by apply Hstep|].
  eapply spec_seq.
  { eapply spec_conseq;
      [apply (setting_spec reg' cfg' DEPTH 64 level mirror SDK.setMirroringEnabled);
       auto using returns_setMirroringEnabled
      |done|apply Hev|done]. }
  eapply spec_conseq; [by apply (endConfigure_spec reg' cfg' DEPTH)|done|apply Hev|done].
Qed.

Lemma setDepthColorSyncEnabled_run reg cfg (s : St) :
  Inv R ab sup reg cfg s ->
  exists s',
    on_device (SDK.setDepthColorSyncEnabled true) s
      = (Done tt, s', [OnDevice (EvSetDepthColorSyncEnabled true)]) /\
    dev_depth_color_sync (device_ (fst s')) = true /\
    Inv R ab sup reg cfg s'.
Proof.
  intros (HR & Hab & Hsup & Hreg & Hcfg).
  eexists. split; [reflexivity|]. by repeat split.
Qed.

End Coordinator.

Section Configure.

Import CameraImpl.

Lemma valid_key_elim level (s : St) slot bit key :
  valid_key level s slot bit key = true ->
  absent (sensor_at slot (fst s)) = false ->
  flagged level bit = true ->
  is_Some (resolutions_ (fst s) !! key).
Proof.
  unfold valid_key. intros H Ha Hf. rewrite Ha, Hf in H. cbn in H.
  by apply bool_decide_eq_true in H.
Qed.

Lemma request_after_keys sup level cfg :
  rgb_resolution (request_after sup level cfg) = rgb_resolution cfg /\
  depth_resolution (request_after sup level cfg) = depth_resolution cfg /\
  ir_resolution (request_after sup level cfg) = ir_resolution cfg.
Proof. unfold request_after. by destruct (_ && _ && _). Qed.

(** The whole of [configure], given what its depth block does to the
    registration mode and to the request. *)
Lemma configure_run level (ev : CamEvent -> Prop) reg' cfg' (s : St) :
  let R := resolutions_ (fst s) in
  let ab := fun slot => absent (sensor_at slot (fst s)) in
  let sup := dev_registration_supported (device_ (fst s)) in
  let reg := dev_registration (device_ (fst s)) in
  valid_request level s = true ->
  (forall e, on_slot DEPTH e -> ev e) ->
  (ab DEPTH = false ->
     spec (Inv R ab sup reg (snd s)) ev (configure_registration level)
       (fun _ s' => Inv R ab sup reg' cfg' s')) ->
  (ab DEPTH = true -> reg' = reg /\ cfg' = snd s) ->
  ir_resolution cfg' = ir_resolution (snd s) ->
  exists s' rgb depth ir,
    configure level s =
      (Done tt, s',
       (Call RGB call_beginConfigure :: rgb)
       ++ (Call DEPTH call_beginConfigure :: depth)
       ++ (Call IR call_beginConfigure :: ir)
       ++ [OnDevice (EvSetDepthColorSyncEnabled true)]) /\
    Forall (on_slot RGB) rgb /\
    Forall ev depth /\
    Forall (on_slot IR) ir /\
    dev_depth_color_sync (device_ (fst s')) = true /\
    dev_registration (device_ (fst s')) = reg' /\
    snd s' = cfg'.
Proof.
  intros R ab sup reg Hvalid Hev Hstep Habsent Hir.
  unfold valid_request in Hvalid.
  apply andb_prop in Hvalid as [Hvalid Hk3]. apply andb_prop in Hvalid as [Hk1 Hk2].
  assert (HI : Inv R ab sup reg (snd s) s) by by repeat split.
  destruct (configure_rgb_run R ab sup reg (snd s) level s) as (s1 & rgb & H1 & E1 & HI1);
    [by apply valid_key_elim|done|].
  destruct (configure_depth_run R ab sup reg (snd s) reg' cfg' level ev s1)
    as (s2 & depth & H2 & E2 & HI2); [by apply valid_key_elim|done|done|done|done|].
  destruct (configure_ir_run R ab sup reg' cfg' level s2) as (s3 & ir & H3 & E3 & HI3);
    [rewrite Hir; by apply valid_key_elim|done|].
  destruct (setDepthColorSyncEnabled_run R ab sup reg' cfg' s3 HI3) as (s4 & H4 & Hsync & HI4).
  exists s4, rgb, depth, ir. split.
  - unfold configure.
    exact (bind_run _ _ _ _ _ _ _ _ _ H1
             (bind_run _ _ _ _ _ _ _ _ _ H2 (bind_run _ _ _ _ _ _ _ _ _ H3 H4))).
  - destruct HI4 as (_ & _ & _ & Hreg & Hcfg). by repeat split.
Qed.

End Configure.

(** C7: for every change mask, configure run on a valid request processes
    the color sensor, then the depth sensor, then the infrared sensor, each
    block starting with that sensor's beginConfigure and calling nothing of
    the other sensors, and ends by setting the depth-color synchronization
    of the device to true. *)
Theorem configure_order_and_sync (level : Z) (s : CameraImpl.St) :
  valid_request level s = true ->
  exists s' rgb depth ir,
    CameraImpl.configure level s =
      (Done tt, s',
       (Call RGB call_beginConfigure :: rgb)
       ++ (Call DEPTH call_beginConfigure :: depth)
       ++ (Call IR call_beginConfigure :: ir)
       ++ [OnDevice (EvSetDepthColorSyncEnabled true)]) /\
    Forall (on_slot RGB) rgb /\
    Forall on_depth_block depth /\
    Forall (on_slot IR) ir /\
    dev_depth_color_sync (device_ (fst s')) = true.
Proof.
  intros Hvalid.
  set (sup := dev_registration_supported (device_ (fst s))).
  set (reg := dev_registration (device_ (fst s))).
  destruct (configure_run level on_depth_block
              (if absent (depth_sensor_ (fst s)) then reg
               else registration_after sup level reg (snd s))
              (if absent (depth_sensor_ (fst s)) then snd s
               else request_after sup level (snd s)) s Hvalid)
    as (s' & rgb & depth & ir & H & E1 & E2 & E3 & Hsync & _).
  - by left.
  - cbn. intros ->. apply configure_registration_spec.
  - cbn. by intros ->.
  - destruct (absent _); [done|]. apply request_after_keys.
  - by exists s', rgb, depth, ir.
Qed.

(** C8, as the code has it: when the request asks for depth_registration,
    the device does not support DEPTH_TO_COLOR and its registration mode is
    OFF, configure run on a valid request ends normally, never sets the
    registration mode of the device, and the mode stays OFF.  The request
    it leaves has depth_registration false, and is otherwise unchanged,
    exactly when the device has a depth sensor and the mask flags
    depth_registration as changed; in every other case the request is left
    as it came, with depth_registration true. *)
Theorem configure_registration_fallback (level : Z) (s : CameraImpl.St) :
  valid_request level s = true ->
  depth_registration (snd s) = true ->
  dev_registration_supported (device_ (fst s)) = false ->
  dev_registration (device_ (fst s)) = IMAGE_REGISTRATION_OFF ->
  exists s' evs,
    CameraImpl.configure level s = (Done tt, s', evs) /\
    dev_registration (device_ (fst s')) = IMAGE_REGISTRATION_OFF /\
    (forall mode, OnDevice (EvSetImageRegistrationMode mode) ∉ evs) /\
    snd s' = (if negb (absent (depth_sensor_ (fst s))) && CameraImpl.flagged level 1
              then set_depth_registration false (snd s) else snd s) /\
    (depth_registration (snd s') = false <->
       absent (depth_sensor_ (fst s)) = false /\ CameraImpl.flagged level 1 = true).
Proof.
  intros Hvalid Hreq Hsup Hreg.
  set (fallback := negb (absent (depth_sensor_ (fst s))) && CameraImpl.flagged level 1).
  destruct (configure_run level (on_slot DEPTH)
              (dev_registration (device_ (fst s)))
              (if fallback then set_depth_registration false (snd s) else snd s)
              s Hvalid)
    as (s' & rgb & depth & ir & H & E1 & E2 & E3 & _ & Hreg' & Hcfg).
  - done.
  - cbn. intros Habs. subst fallback. rewrite Habs. cbn [negb andb].
    destruct (CameraImpl.flagged level 1) eqn:Hflag.
    + by apply configure_registration_unsupported.
    + by apply configure_registration_unflagged.
  - cbn. intros Habs. subst fallback. by rewrite Habs.
  - by destruct fallback.
  - eexists s', _. split; [exact H|]. split; [by rewrite Hreg'|].
    split; [|split; [exact Hcfg|]].
    + intros mode. rewrite !elem_of_app, !elem_of_cons, elem_of_nil.
      rewrite Forall_forall in E1, E2, E3.
      intros [[Hin|Hin] | [[Hin|Hin] | [[Hin|Hin] | [Hin|[]]]]]; try discriminate.
      * by apply E1 in Hin.
      * by apply E2 in Hin.
      * by apply E3 in Hin.
    + rewrite Hcfg. subst fallback.
      destruct (absent (depth_sensor_ (fst s))), (CameraImpl.flagged level 1);
        cbn [negb andb]; rewrite ?Hreq; cbn; split; try done; by intros [? ?].
Qed.

Lemma configure_order_and_sync_witness :
  exists s' rgb depth ir,
    CameraImpl.configure all_changed (example_camera, example_request) =
      (Done tt, s',
       (Call RGB call_beginConfigure :: rgb)
       ++ (Call DEPTH call_beginConfigure :: depth)
       ++ (Call IR call_beginConfigure :: ir)
       ++ [OnDevice (EvSetDepthColorSyncEnabled true)]) /\
    Forall (on_slot RGB) rgb /\
    Forall on_depth_block depth /\
    Forall (on_slot IR) ir /\
    dev_depth_color_sync (device_ (fst s')) = true.
Proof.
  apply (configure_order_and_sync all_changed (example_camera, example_request)).
  by vm_compute.
Defined.

Lemma configure_registration_fallback_witness :
  exists s' evs,
    CameraImpl.configure all_changed (example_camera, example_request)
      = (Done tt, s', evs) /\
    dev_registration (device_ (fst s')) = IMAGE_REGISTRATION_OFF /\
    (forall mode, OnDevice (EvSetImageRegistrationMode mode) ∉ evs) /\
    snd s' = set_depth_registration false example_request /\
    depth_registration (snd s') = false.
Proof.
  destruct (configure_registration_fallback all_changed (example_camera, example_request))
    as (s' & evs & Hrun & Hoff & Hnever & Hcfg & Hiff); [by vm_compute..|].
  exists s', evs. split; [exact Hrun|]. split; [exact Hoff|]. split; [exact Hnever|].
  split; [exact Hcfg|]. apply Hiff. split; reflexivity.
Defined.

(** C8 fails as stated: the request asks for depth_registration and the
    device does not support it, and configure returns with
    depth_registration still true in the request, once because the mask
    does not flag depth_registration as changed, once because the device
    has no depth sensor. *)
Lemma configure_registration_not_reset :
  depth_registration example_request = true /\
  dev_registration_supported (device_ example_camera) = false /\
  dev_registration_supported (device_ color_only_camera) = false /\
  (let r := CameraImpl.configure mirror_changed (example_camera, example_request) in
   outcome r = Done tt /\ depth_registration (snd (final r)) = true) /\
  (let r := CameraImpl.configure all_changed (color_only_camera, example_request) in
   outcome r = Done tt /\ depth_registration (snd (final r)) = true).
Proof. by vm_compute. Qed.

(** ** Further properties *)

Lemma findVideoMode_from_cases modes x y format fps : forall idx,
  (Forall (fun m => matches m x y format fps = false) modes /\
   findVideoMode_from idx modes x y format fps = 0)
  \/
  (exists (k : nat) mode,
     modes !! k = Some mode /\
     matches mode x y format fps = true /\
     (forall (i : nat) m, (i < k)%nat -> modes !! i = Some m ->
        matches m x y format fps = false) /\
     findVideoMode_from idx modes x y format fps = idx + Z.of_nat k).
Proof.
  induction modes as [|m rest IH]; intros idx; cbn [findVideoMode_from].
  - left. by split.
  - destruct (matches m x y format fps) eqn:Hm.
    + right. exists 0%nat, m. split; [done|]. split; [done|]. split; [lia|lia].
    + destruct (IH (idx + 1)) as [[Hall Hr] | (k & mode & Hk & Hmode & Hfirst & Hr)].
      * left. split; [by constructor|done].
      * right. exists (S k), mode. split; [done|]. split; [done|]. split; [|lia].
        intros [|i] m' Hi Hm'; cbn in Hm'; [congruence|].
        apply (Hfirst i); [lia|done].
Qed.

(** X1: findVideoMode returns the index of the first mode with the given
    resolution, pixel format and frame rate, and 0 when there is none. *)
Theorem findVideoMode_first_match (modes : list VideoMode) (x y : Z)
    (format : PixelFormat) (fps : Z) :
  let r := findVideoMode modes x y format fps in
  (Forall (fun m => matches m x y format fps = false) modes /\ r = 0)
  \/
  (exists mode,
     0 <= r < Z.of_nat (length modes) /\
     modes !! Z.to_nat r = Some mode /\
     matches mode x y format fps = true /\
     forall (i : nat) m, (i < Z.to_nat r)%nat -> modes !! i = Some m ->
       matches m x y format fps = false).
Proof.
  cbv zeta. unfold findVideoMode.
  destruct (findVideoMode_from_cases modes x y format fps 0)
    as [[Hall Hr] | (k & mode & Hk & Hmode & Hfirst & Hr)].
  - by left.
  - right. exists mode. rewrite Hr, Z.add_0_l, Nat2Z.id.
    split; [|done]. apply lookup_lt_Some in Hk. lia.
Qed.

(** X2: a sensor the device lacks is skipped: its block of configure consists
    of the refused beginConfigure alone and changes nothing. *)
Theorem configure_skips_absent_sensor (level : Z) (x y : Sensor)
    (resolutions : gmap Z VideoMode) (device : Device) (cfg : CameraConfig) :
  CameraImpl.configure_rgb level (mkCameraImpl Absent x y resolutions device, cfg)
    = (Done tt, (mkCameraImpl Absent x y resolutions device, cfg),
       [Call RGB call_beginConfigure]) /\
  CameraImpl.configure_depth level (mkCameraImpl x Absent y resolutions device, cfg)
    = (Done tt, (mkCameraImpl x Absent y resolutions device, cfg),
       [Call DEPTH call_beginConfigure]) /\
  CameraImpl.configure_ir level (mkCameraImpl x y Absent resolutions device, cfg)
    = (Done tt, (mkCameraImpl x y Absent resolutions device, cfg),
       [Call IR call_beginConfigure]).
Proof. by repeat split. Qed.

Lemma example_value_inj : Inj (=) (=) example_value.
Proof. intros a b H. destruct a, b; (reflexivity || discriminate). Qed.

(** X3: when the resolution constants are pairwise different, the catalog
    built by buildResolutionMap resolves each of them to its own mode and
    holds nothing else. *)
Theorem buildResolutionMap_resolves (value : Resolution -> Z) :
  Inj (=) (=) value ->
  (forall r, CameraImpl.buildResolutionMap value ∅ !! value r = Some (catalog_mode r)) /\
  (forall key, is_Some (CameraImpl.buildResolutionMap value ∅ !! key) ->
     exists r, key = value r).
Proof.
  intros Hinj. split.
  - intros r. unfold CameraImpl.buildResolutionMap, CameraImpl.createVideoMode. cbv zeta.
    destruct r;
      repeat (rewrite lookup_insert_ne by (intros H; apply Hinj in H; discriminate));
      by rewrite lookup_insert_eq.
  - intros key. unfold CameraImpl.buildResolutionMap. cbv zeta.
    repeat (rewrite lookup_insert; case_decide;
            [intros _; eexists; symmetry; eassumption|]).
    rewrite lookup_empty. by intros [? ?].
Qed.

Lemma buildResolutionMap_resolves_witness :
  (forall r, CameraImpl.buildResolutionMap example_value ∅ !! example_value r
             = Some (catalog_mode r)) /\
  (forall key, is_Some (CameraImpl.buildResolutionMap example_value ∅ !! key) ->
     exists r, key = example_value r).
Proof. apply (buildResolutionMap_resolves example_value). apply example_value_inj. Defined.

(** X4: every frame arriving at a plain stream controller is forwarded
    exactly once on its publisher, with the manager's
    frame id, the frame's size, stride and data, and the encoding of its
    pixel format; for a pixel format without an encoding a warning is
    logged first and the encoding is left empty. *)
Theorem onNewFrame_forwards (ts : Z) (frame : VideoFrameRef)
    (s : SensorStreamManager.St) :
  let r := SensorStreamManager.onNewFrame ts frame s in
  let format := getPixelFormat (getVideoMode frame) in
  exists image camera_info,
    outcome r = Done tt /\ final r = s /\
    events r =
      match encoding_of format with
      | Some _ => []
      | None => [EvLog LOG_WARN "Unknown OpenNI pixel format!"]
      end
      ++ [EvPublish publisher_ image camera_info] /\
    img_encoding image = default EmptyString (encoding_of format) /\
    img_header image = mkHeader ts (frame_id_ (fst s)) /\
    info_header camera_info = mkHeader ts (frame_id_ (fst s)) /\
    img_width image = to_uint32 (getWidth frame) /\
    img_height image = to_uint32 (getHeight frame) /\
    img_step image = to_uint32 (getStrideInBytes frame) /\
    img_data image = getData frame.
Proof.
  destruct s as [[vs dm nm fid run was] d].
  destruct frame as [w h stride [x y fps format] data].
  cbv zeta. destruct format; eexists _, _; by repeat split.
Qed.

(** ** Partial specifications of runs *)

Lemma ensures_bind {E S A B} (P : S -> Prop) (ev : E -> Prop) (m : M E S A)
    (k : A -> M E S B) (Q : A -> S -> Prop) (R : B -> S -> Prop) :
  ensures P ev m Q ->
  (forall a, ensures (Q a) ev (k a) R) ->
  ensures P ev (bind m k) R.
Proof.
  intros Hm Hk s HP. destruct (Hm s HP) as [Hev HQ].
  unfold bind. destruct (m s) as [[o s1] e1] eqn:Hrun.
  unfold outcome, final, events in *; cbn [fst snd] in *.
  destruct o as [a| |]; cbn [fst snd]; [|by split..].
  destruct (Hk a s1 (HQ a eq_refl)) as [Hev2 HR].
  split; [by apply Forall_app|]. exact HR.
Qed.

Lemma ensures_seq {E S A B} (P Q : S -> Prop) (ev : E -> Prop) (m : M E S A)
    (k : M E S B) (R : B -> S -> Prop) :
  ensures P ev m (fun _ s' => Q s') ->
  ensures Q ev k R ->
  ensures P ev (bind m (fun _ => k)) R.
Proof. intros Hm Hk. eapply ensures_bind; [exact Hm|]. intros a. exact Hk. Qed.

Lemma ensures_conseq {E S A} (P P' : S -> Prop) (ev ev' : E -> Prop) (m : M E S A)
    (Q Q' : A -> S -> Prop) :
  ensures P ev m Q ->
  (forall s, P' s -> P s) ->
  (forall e, ev e -> ev' e) ->
  (forall a s, Q a s -> Q' a s) ->
  ensures P' ev' m Q'.
Proof.
  intros Hm HP Hev HQ s HP'. destruct (Hm s (HP s HP')) as [H1 H2].
  split; [by eapply Forall_impl|]. intros a Ha. by apply HQ, H2.
Qed.

(** A step that emits nothing and leaves the state as it is. *)
Lemma ensures_silent {E S A} (P : S -> Prop) (ev : E -> Prop) (m : M E S A) :
  (forall s, final (m s) = s /\ events (m s) = []) ->
  ensures P ev m (fun _ s' => P s').
Proof.
  intros Hm s HP. destruct (Hm s) as [Hf He]. rewrite Hf, He. by split.
Qed.

Lemma ensures_ret {E S A} (P : S -> Prop) (ev : E -> Prop) (a : A) :
  ensures P ev (ret a) (fun a' s' => a' = a /\ P s').
Proof. intros s HP. split; [constructor|]. intros a' [= <-]. by split. Qed.

Lemma ensures_gets {E S A} (P : S -> Prop) (ev : E -> Prop) (f : S -> A) :
  ensures P ev (gets f) (fun a s' => a = f s' /\ P s').
Proof. intros s HP. split; [constructor|]. intros a [= <-]. by split. Qed.

Lemma ensures_modify {E S} (P Q : S -> Prop) (ev : E -> Prop) (f : S -> S) :
  (forall s, P s -> Q (f s)) ->
  ensures P ev (modify f) (fun _ s' => Q s').
Proof. intros H s HP. split; [constructor|]. intros a _. by apply H. Qed.

Lemma ensures_emit {E S} (P : S -> Prop) (ev : E -> Prop) (e : E) :
  ev e -> ensures P ev (emit e) (fun _ s' => P s').
Proof. intros He s HP. split; [by repeat constructor|]. by intros a _. Qed.

Lemma ensures_when {E S} (P Q : S -> Prop) (ev : E -> Prop) (c : bool) (m : M E S unit) :
  (c = true -> ensures P ev m (fun _ s' => Q s')) ->
  (c = false -> forall s, P s -> Q s) ->
  ensures P ev (when c m) (fun _ s' => Q s').
Proof.
  intros Hm Hskip. destruct c; cbn [when]; [auto|].
  intros s HP. split; [constructor|]. intros a _. by apply Hskip.
Qed.

(** Any step, when nothing is asked of it. *)
Lemma ensures_any {E S A} (P : S -> Prop) (m : M E S A) :
  ensures P (fun _ => True) m (fun _ _ => True).
Proof. intros s _. split; [by apply Forall_forall|done]. Qed.

Lemma ensures_and {E S A} (P1 P2 : S -> Prop) (ev : E -> Prop) (m : M E S A)
    (Q1 Q2 : A -> S -> Prop) :
  ensures P1 ev m Q1 -> ensures P2 ev m Q2 ->
  ensures (fun s => P1 s /\ P2 s) ev m (fun a s' => Q1 a s' /\ Q2 a s').
Proof.
  intros H1 H2 s [HP1 HP2]. destruct (H1 s HP1) as [Hev HQ1].
  destruct (H2 s HP2) as [_ HQ2]. split; [done|]. intros a Ha. split; auto.
Qed.

(** What a member function that always returns ensures. *)
Lemma returns_ensures {Mgr A} (call : M Event (Mgr * Device) A) (post : A -> Prop)
    (d0 : Device) :
  returns call post ->
  ensures (fun t => same_settings d0 (snd t)) (fun _ => True) call
    (fun a t' => post a /\ same_settings d0 (snd t')).
Proof.
  intros Hcall t Hd. destruct (Hcall t) as (a & t' & evs & H & Hd' & Hp).
  rewrite H. split; [by apply Forall_forall|].
  intros a' [= <-]. split; [done|]. eauto using same_settings_trans.
Qed.

Section Dispatch.

Import CameraImpl.

Lemma sensor_at_set_sensor_at slot x cam : sensor_at slot (set_sensor_at slot x cam) = x.
Proof. by destruct slot. Qed.

Lemma sensor_at_set_sensor_at_ne slot slot' x cam :
  slot <> slot' -> sensor_at slot' (set_sensor_at slot x cam) = sensor_at slot' cam.
Proof. by destruct slot, slot'. Qed.

Lemma sensor_at_set_device_ slot d cam : sensor_at slot (set_device_ d cam) = sensor_at slot cam.
Proof. by destruct slot. Qed.

Lemma device_set_sensor_at slot x cam : device_ (set_sensor_at slot x cam) = device_ cam.
Proof. by destruct slot. Qed.

Lemma resolutions_set_sensor_at slot x cam :
  resolutions_ (set_sensor_at slot x cam) = resolutions_ cam.
Proof. by destruct slot. Qed.

Lemma ensures_on_manager {Mgr A} slot (wrap : Mgr -> Sensor) (m : Mgr)
    (call : M Event (Mgr * Device) A)
    (P : St -> Prop) (ev : CamEvent -> Prop) (Q : A -> St -> Prop)
    (Pm : Mgr * Device -> Prop) (evm : Event -> Prop) (Qm : A -> Mgr * Device -> Prop) :
  ensures Pm evm call Qm ->
  (forall s, P s -> Pm (m, device_ (fst s))) ->
  (forall e, evm e -> ev (OnSensor slot e)) ->
  (forall s a t, P s -> Qm a t ->
     Q a (set_sensor_at slot (wrap (fst t)) (set_device_ (snd t) (fst s)), snd s)) ->
  ensures P ev (on_manager slot wrap m call) Q.
Proof.
  intros Hcall HP Hev HQ s HPs.
  destruct (Hcall _ (HP s HPs)) as [Hevs HQm].
  unfold on_manager, zoom. unfold outcome, final, events in *; cbn [fst snd] in *.
  split.
  - apply Forall_map. eapply Forall_impl; [exact Hevs|]. exact Hev.
  - intros a Ha. apply HQ; auto.
Qed.

(** The shape of the four virtual calls. *)
Lemma ensures_dispatch {A} slot (method : Method)
    (base_call : M Event St A)
    (plain : M Event SensorStreamManager.St A)
    (depth : M Event DepthSensorStreamManager.St A)
    (P : St -> Prop) (ev : CamEvent -> Prop) (Q : A -> St -> Prop) :
  ev (Call slot method) ->
  (forall s, P s -> sensor_at slot (fst s) = Absent ->
     events (base_call s) = [] /\ forall a, outcome (base_call s) = Done a -> Q a s) ->
  (forall m, ensures (fun s => P s /\ sensor_at slot (fst s) = Plain m) ev
               (on_manager slot Plain m plain) Q) ->
  (forall m, ensures (fun s => P s /\ sensor_at slot (fst s) = DepthRouter m) ev
               (on_manager slot DepthRouter m depth) Q) ->
  ensures P ev
    (emit (Call slot method) ;;;
     sensor <- this (sensor_at slot) ;;
     match sensor with
     | Absent => zoom (fun s => s) (fun _ s => s) (OnSensor slot) base_call
     | Plain m => on_manager slot Plain m plain
     | DepthRouter m => on_manager slot DepthRouter m depth
     end) Q.
Proof.
  intros Hcall Hbase Hplain Hdepth.
  eapply ensures_seq; [by apply ensures_emit|].
  eapply ensures_bind; [apply ensures_gets|].
  intros [|m|m]; cbn beta iota.
  - intros s [Hs HP]. destruct (Hbase s HP (eq_sym Hs)) as [He HQ].
    unfold zoom. unfold outcome, final, events in *; cbn [fst snd] in *.
    rewrite He. split; [constructor|]. exact HQ.
  - eapply ensures_conseq; [apply Hplain|..]; [|done|done].
    intros s [Hs HP]. by split.
  - eapply ensures_conseq; [apply Hdepth|..]; [|done|done].
    intros s [Hs HP]. by split.
Qed.

Lemma ensures_fix {E S A X} (f : S -> X) (P : S -> Prop) (ev : E -> Prop) (m : M E S A)
    (Q : A -> S -> Prop) :
  (forall x, ensures (fun s => P s /\ f s = x) ev m Q) -> ensures P ev m Q.
Proof. intros H s HP. by apply (H (f s)). Qed.

(** A member function that always returns, called on the manager in
    [slot], keeps a property of another sensor that does not depend on the
    replies to come. *)
Lemma ensures_on_manager_frame {Mgr A} slot slot0 (wrap : Mgr -> Sensor) (m : Mgr)
    (call : M Event (Mgr * Device) A)
    (phi : Sensor -> Device -> Prop) (ev : CamEvent -> Prop) :
  slot <> slot0 ->
  (forall x d d', same_settings d d' -> phi x d -> phi x d') ->
  (forall e, ev (OnSensor slot e)) ->
  returns call (fun _ => True) ->
  ensures (at_slot slot0 phi) ev (on_manager slot wrap m call) (fun _ => at_slot slot0 phi).
Proof.
  intros Hne Hstable Hev Hcall.
  apply (ensures_fix (fun s => device_ (fst s))). intros d0.
  eapply (ensures_on_manager slot wrap m call _ ev _
            (fun t => same_settings d0 (snd t)) (fun _ => True)
            (fun _ t' => True /\ same_settings d0 (snd t'))).
  - by apply returns_ensures.
  - intros s [_ <-]. apply same_settings_refl.
  - intros e _. apply Hev.
  - intros s a t [HP <-] [_ Hd]. unfold at_slot in *. cbn [fst snd].
    rewrite sensor_at_set_sensor_at_ne, sensor_at_set_device_, device_set_sensor_at by done.
    cbn. by eapply Hstable.
Qed.

Lemma ensures_dispatch_frame {A} slot slot0 (method : Method)
    (base_call : M Event St A)
    (plain : M Event SensorStreamManager.St A)
    (depth : M Event DepthSensorStreamManager.St A)
    (phi : Sensor -> Device -> Prop) (ev : CamEvent -> Prop) :
  slot <> slot0 ->
  (forall x d d', same_settings d d' -> phi x d -> phi x d') ->
  ev (Call slot method) ->
  (forall e, ev (OnSensor slot e)) ->
  (forall s, events (base_call s) = []) ->
  returns plain (fun _ => True) ->
  returns depth (fun _ => True) ->
  ensures (at_slot slot0 phi) ev
    (emit (Call slot method) ;;;
     sensor <- this (sensor_at slot) ;;
     match sensor with
     | Absent => zoom (fun s => s) (fun _ s => s) (OnSensor slot) base_call
     | Plain m => on_manager slot Plain m plain
     | DepthRouter m => on_manager slot DepthRouter m depth
     end) (fun _ => at_slot slot0 phi).
Proof.
  intros Hne Hstable Hcall Hev Hbase Hplain Hdepth.
  apply ensures_dispatch; [done|..].
  - intros s HP _. split; [apply Hbase|]. by intros.
  - intros m. eapply ensures_conseq;
      [by apply (ensures_on_manager_frame slot slot0 Plain m plain phi ev)
      |by intros s [HP _]|done|done].
  - intros m. eapply ensures_conseq;
      [by apply (ensures_on_manager_frame slot slot0 DepthRouter m depth phi ev)
      |by intros s [HP _]|done|done].
Qed.

(** The same call seen from the sensor it is made on: what the member
    function ensures of the manager carries over to the pointee. *)
Lemma ensures_dispatch_own {A} slot (method : Method)
    (base_call : M Event St A)
    (plain : M Event SensorStreamManager.St A)
    (depth : M Event DepthSensorStreamManager.St A)
    (phi : Sensor -> Device -> Prop) (ev : CamEvent -> Prop)
    (psi : A -> Sensor -> Device -> Prop) :
  ev (Call slot method) ->
  (forall s d, phi Absent d ->
     events (base_call s) = [] /\ forall a, outcome (base_call s) = Done a -> psi a Absent d) ->
  ensures (fun t => phi (Plain (fst t)) (snd t)) (fun e => ev (OnSensor slot e)) plain
    (fun a t' => psi a (Plain (fst t')) (snd t')) ->
  ensures (fun t => phi (DepthRouter (fst t)) (snd t)) (fun e => ev (OnSensor slot e)) depth
    (fun a t' => psi a (DepthRouter (fst t')) (snd t')) ->
  ensures (at_slot slot phi) ev
    (emit (Call slot method) ;;;
     sensor <- this (sensor_at slot) ;;
     match sensor with
     | Absent => zoom (fun s => s) (fun _ s => s) (OnSensor slot) base_call
     | Plain m => on_manager slot Plain m plain
     | DepthRouter m => on_manager slot DepthRouter m depth
     end) (fun a => at_slot slot (psi a)).
Proof.
  intros Hcall Hbase Hplain Hdepth.
  apply ensures_dispatch; [done|..].
  - intros s HP Hs. unfold at_slot in *. rewrite Hs in HP |- *. by apply Hbase.
  - intros m. eapply ensures_on_manager; [exact Hplain|..].
    + intros s [HP Hs]. unfold at_slot in HP. by rewrite Hs in HP.
    + done.
    + intros s a t _ HQ. unfold at_slot. cbn [fst snd].
      by rewrite sensor_at_set_sensor_at, device_set_sensor_at.
  - intros m. eapply ensures_on_manager; [exact Hdepth|..].
    + intros s [HP Hs]. unfold at_slot in HP. by rewrite Hs in HP.
    + done.
    + intros s a t _ HQ. unfold at_slot. cbn [fst snd].
      by rewrite sensor_at_set_sensor_at, device_set_sensor_at.
Qed.

End Dispatch.

Section ConfigureRule.

Import CameraImpl.

(** The protocol of [configure] as a proof rule: [before slot] holds when
    the block of [slot] begins, [inside slot] between its beginConfigure
    and its endConfigure, [after slot] when the block is left. *)
Variable level : Z.
Variable ev : CamEvent -> Prop.
Variables before inside after : Slot -> St -> Prop.
Variable finally : St -> Prop.

Hypothesis Hbegin : forall slot,
  ensures (before slot) ev (beginConfigure slot)
    (fun ok s' => if ok then inside slot s' else after slot s').
Hypothesis Htry : forall slot mode,
  ensures (inside slot) ev (tryConfigureVideoMode slot mode) (fun _ => inside slot).
Hypothesis Hexposure : forall on,
  ensures (inside RGB) ev (stream RGB (SDK.setAutoExposureEnabled on)) (fun _ => inside RGB).
Hypothesis Hbalance : forall on,
  ensures (inside RGB) ev (stream RGB (SDK.setAutoWhiteBalanceEnabled on))
    (fun _ => inside RGB).
Hypothesis Hmirror : forall slot on,
  ensures (inside slot) ev (stream slot (SDK.setMirroringEnabled on)) (fun _ => inside slot).
Hypothesis Hregistration : forall mode,
  ensures (inside DEPTH) ev (on_device (SDK.setImageRegistrationMode mode))
    (fun _ => inside DEPTH).
Hypothesis Hfallback : forall s,
  inside DEPTH s -> inside DEPTH (fst s, set_depth_registration false (snd s)).
Hypothesis Hend : forall slot,
  ensures (inside slot) ev (endConfigure slot) (fun _ => after slot).
Hypothesis Hrgb_depth : forall s, after RGB s -> before DEPTH s.
Hypothesis Hdepth_ir : forall s, after DEPTH s -> before IR s.
Hypothesis Hsync :
  ensures (after IR) ev (on_device (SDK.setDepthColorSyncEnabled true)) (fun _ => finally).

Lemma ensures_resolution slot (bit : Z) (key : CameraConfig -> Z) :
  ensures (inside slot) ev
    (when (flagged level bit) (
       k <- gets (fun s => key (snd s)) ;;
       mode <- find_resolution k ;;
       tryConfigureVideoMode slot mode ;;; ret tt))
    (fun _ => inside slot).
Proof.
  apply ensures_when; [|done]. intros _.
  eapply ensures_bind; [apply (ensures_silent (inside slot)); by intros s|].
  intros k. cbn beta.
  eapply ensures_bind.
  { apply (ensures_silent (inside slot)). intros s. unfold find_resolution, bind, this, gets.
    cbn. by destruct (resolutions_ (fst s) !! k). }
  intros mode. cbn beta.
  eapply ensures_seq; [apply Htry|].
  apply ensures_silent. by intros s.
Qed.

Lemma ensures_setting slot (bit : Z) (field : CameraConfig -> bool)
    (call : bool -> M Event SDK.St unit) :
  (forall on, ensures (inside slot) ev (stream slot (call on)) (fun _ => inside slot)) ->
  ensures (inside slot) ev
    (when (flagged level bit) (
       on <- gets (fun s => field (snd s)) ;;
       stream slot (call on)))
    (fun _ => inside slot).
Proof.
  intros Hcall. apply ensures_when; [|done]. intros _.
  eapply ensures_bind; [apply (ensures_silent (inside slot)); by intros s|].
  intros on. apply Hcall.
Qed.

Lemma ensures_configure_registration :
  ensures (inside DEPTH) ev (configure_registration level) (fun _ => inside DEPTH).
Proof.
  unfold configure_registration. apply ensures_when; [|done]. intros _.
  eapply ensures_bind; [apply (ensures_silent (inside DEPTH)); by intros s|].
  intros [|]; [|apply Hregistration].
  eapply ensures_bind; [apply (ensures_silent (inside DEPTH)); by intros s|].
  intros [|]; [apply Hregistration|].
  apply ensures_modify. exact Hfallback.
Qed.

Lemma ensures_block slot (body : M CamEvent St unit) :
  ensures (inside slot) ev body (fun _ => after slot) ->
  ensures (before slot) ev (ok <- beginConfigure slot ;; when ok body) (fun _ => after slot).
Proof.
  intros Hbody. eapply ensures_bind; [apply Hbegin|].
  intros [|]; cbn [when]; [exact Hbody|].
  apply ensures_silent. by intros s.
Qed.

Lemma ensures_configure_rgb :
  ensures (before RGB) ev (configure_rgb level) (fun _ => after RGB).
Proof.
  apply ensures_block.
  eapply ensures_seq; [apply (ensures_resolution RGB 8 rgb_resolution)|].
  eapply ensures_seq; [apply (ensures_setting RGB 2 auto_exposure), Hexposure|].
  eapply ensures_seq; [apply (ensures_setting RGB 4 auto_white_balance), Hbalance|].
  eapply ensures_seq; [apply (ensures_setting RGB 64 mirror), Hmirror|].
  apply Hend.
Qed.

Lemma ensures_configure_depth :
  ensures (before DEPTH) ev (configure_depth level) (fun _ => after DEPTH).
Proof.
  apply ensures_block.
  eapply ensures_seq; [apply (ensures_resolution DEPTH 16 depth_resolution)|].
  eapply ensures_seq; [apply ensures_configure_registration|].
  eapply ensures_seq; [apply (ensures_setting DEPTH 64 mirror), Hmirror|].
  apply Hend.
Qed.

Lemma ensures_configure_ir :
  ensures (before IR) ev (configure_ir level) (fun _ => after IR).
Proof.
  apply ensures_block.
  eapply ensures_seq; [apply (ensures_resolution IR 32 ir_resolution)|].
  eapply ensures_seq; [apply (ensures_setting IR 64 mirror), Hmirror|].
  apply Hend.
Qed.

Lemma ensures_configure :
  ensures (before RGB) ev (configure level) (fun _ => finally).
Proof.
  unfold configure.
  eapply ensures_seq; [apply ensures_configure_rgb|].
  eapply ensures_seq.
  { eapply ensures_conseq; [apply ensures_configure_depth|exact Hrgb_depth|done|done]. }
  eapply ensures_seq.
  { eapply ensures_conseq; [apply ensures_configure_ir|exact Hdepth_ir|done|done]. }
  exact Hsync.
Qed.

End ConfigureRule.

(** ** toString and the constructors of the managers *)

(** X5: toString gives the enumerators it lists names that differ from one
    another and from "unknown", and names every other value "unknown": a
    name other than "unknown" identifies the pixel format or sensor type in
    the log, and "unknown" identifies none. *)
Theorem toString_distinguishes :
  (forall a b : PixelFormat,
     toString_PixelFormat (enumerator a) = toString_PixelFormat (enumerator b) ->
     a = b) /\
  (forall a : PixelFormat, toString_PixelFormat (enumerator a) <> "unknown") /\
  (forall value : Z, toString_PixelFormat (other_value value) = "unknown") /\
  (forall a b : SensorType,
     toString_SensorType (enumerator a) = toString_SensorType (enumerator b) ->
     a = b) /\
  (forall a : SensorType, toString_SensorType (enumerator a) <> "unknown") /\
  (forall value : Z, toString_SensorType (other_value value) = "unknown").
Proof.
  repeat split.
  - intros a b H; destruct a, b; (reflexivity || discriminate).
  - intros a; destruct a; discriminate.
  - intros a b H; destruct a, b; (reflexivity || discriminate).
  - intros a; destruct a; discriminate.
Qed.

Section Construction.

Import SensorStreamManager.

Lemma create_run type (s : St) :
  let rc := hd STATUS_OK (dev_create_replies (snd s)) in
  exists s',
    on_stream (SDK.create type) s = (Done rc, s', [EvCreate type rc]) /\
    same_members (fst s) (fst s') /\
    same_settings (snd s) (snd s') /\
    dev_setmode_replies (snd s') = dev_setmode_replies (snd s) /\
    (is_OK rc = true ->
       vs_valid (stream_ (fst s')) = true /\ vs_started (stream_ (fst s')) = false /\
       vs_listener (stream_ (fst s')) = false) /\
    (is_OK rc = false -> stream_ (fst s') = stream_ (fst s)).
Proof.
  destruct s as [[[valid sensor vm st li mi ae awb] dm nm fid run was]
                   [hs reg sup sync cm cr sr mr]].
  cbv zeta. eexists. split; [reflexivity|]. cbn.
  destruct (is_OK (hd STATUS_OK cr)); by repeat split.
Qed.

Lemma addNewFrameListener_run (s : St) :
  exists s',
    on_stream SDK.addNewFrameListener s = (Done tt, s', [EvAddNewFrameListener]) /\
    same_members (fst s) (fst s') /\
    snd s' = snd s /\
    vs_valid (stream_ (fst s')) = vs_valid (stream_ (fst s)) /\
    vs_started (stream_ (fst s')) = vs_started (stream_ (fst s)) /\
    vs_listener (stream_ (fst s')) = vs_valid (stream_ (fst s)) || vs_listener (stream_ (fst s)).
Proof.
  destruct s as [[[valid sensor vm st li mi ae awb] dm nm fid run was] d].
  eexists. split; [reflexivity|]. cbn. destruct valid; by repeat split.
Qed.

Lemma setVideoMode_stream_run mode (s : St) :
  exists rc s',
    on_stream (SDK.setVideoMode mode) s = (Done rc, s', [EvSetVideoMode mode rc]) /\
    same_members (fst s) (fst s') /\
    same_settings (snd s) (snd s') /\
    vs_valid (stream_ (fst s')) = vs_valid (stream_ (fst s)) /\
    vs_started (stream_ (fst s')) = vs_started (stream_ (fst s)) /\
    vs_listener (stream_ (fst s')) = vs_listener (stream_ (fst s)) /\
    (vs_valid (stream_ (fst s)) = false -> rc = STATUS_ERROR) /\
    (is_OK rc = true -> vs_mode (stream_ (fst s')) = mode).
Proof.
  destruct s as [[[valid sensor vm st li mi ae awb] dm nm fid run was]
                   [hs reg sup sync cm cr sr mr]].
  destruct valid.
  - exists (fst (hd (STATUS_OK, None) mr)). eexists. split; [reflexivity|].
    cbn. destruct (is_OK (hd (STATUS_OK, None) mr).1), (snd (hd (STATUS_OK, None) mr));
      by repeat split.
  - exists STATUS_ERROR. eexists. split; [reflexivity|]. by repeat split.
Qed.

(** The constructor on a device that has the sensor. *)
Lemma new_run type name frame_id default_mode indeterminate device :
  dev_has_sensor device type = true ->
  exists m device' rc1 rc2,
    new type name frame_id default_mode indeterminate device =
      (Done m, device',
       [EvAdvertiseCamera publisher_; EvCreate type rc1]
       ++ construction_error "Failed to create stream '" type rc1
       ++ [EvAddNewFrameListener; EvSetVideoMode default_mode rc2]
       ++ construction_error "Failed to set default video mode for stream '" type rc2) /\
    same_settings device device' /\
    name_ m = name /\ frame_id_ m = frame_id /\ default_mode_ m = default_mode /\
    running_ m = false /\ was_running_ m = indeterminate /\
    vs_started (stream_ m) = false /\
    vs_valid (stream_ m) = is_OK rc1 /\
    vs_listener (stream_ m) = is_OK rc1 /\
    (is_OK rc1 = false -> rc2 = STATUS_ERROR) /\
    (is_OK rc2 = true -> vs_mode (stream_ m) = default_mode).
Proof.
  intros Hhs. unfold new. rewrite Hhs.
  set (this0 := mkSensorStreamManager (no_stream type default_mode) default_mode name
                  frame_id false indeterminate).
  destruct (create_run type (this0, device))
    as (s1 & H1 & Hm1 & Hd1 & _ & Hok1 & Hfail1).
  cbn [snd] in H1, Hok1, Hfail1.
  remember (hd STATUS_OK (dev_create_replies device)) as rc1 eqn:Hrc1. clear Hrc1.
  destruct (addNewFrameListener_run s1) as (s2 & H2 & Hm2 & Hd2 & Hv2 & Hs2 & Hl2).
  destruct (setVideoMode_stream_run default_mode s2)
    as (rc2 & s3 & H3 & Hm3 & Hd3 & Hv3 & Hs3 & Hl3 & Hinv3 & Hok3).
  assert (Hbody :
    (ret tt ;;;
     emit (EvAdvertiseCamera publisher_) ;;;
     rc <- on_stream (SDK.create type) ;;
     ROS_LOG_COND LOG_ERROR (negb (is_OK rc))
       ("Failed to create stream '" +:+ toString_SensorType (enumerator type) +:+ "'!") ;;;
     on_stream SDK.addNewFrameListener ;;;
     rc <- on_stream (SDK.setVideoMode default_mode) ;;
     ROS_LOG_COND LOG_ERROR (negb (is_OK rc))
       ("Failed to set default video mode for stream '"
          +:+ toString_SensorType (enumerator type) +:+ "'!")) (this0, device)
    = (Done tt, s3,
       [] ++ [EvAdvertiseCamera publisher_] ++ [EvCreate type rc1]
       ++ (if negb (is_OK rc1)
           then [EvLog LOG_ERROR
                   ("Failed to create stream '" +:+ toString_SensorType (enumerator type) +:+ "'!")]
           else [])
       ++ [EvAddNewFrameListener] ++ [EvSetVideoMode default_mode rc2]
       ++ (if negb (is_OK rc2)
           then [EvLog LOG_ERROR
                   ("Failed to set default video mode for stream '"
                      +:+ toString_SensorType (enumerator type) +:+ "'!")]
           else []))).
  { eapply bind_run; [reflexivity|].
    eapply bind_run; [reflexivity|].
    eapply bind_run; [exact H1|].
    eapply bind_run; [apply ROS_LOG_COND_run|].
    eapply bind_run; [exact H2|].
    eapply bind_run; [exact H3|].
    apply ROS_LOG_COND_run. }
  rewrite Hbody. unfold outcome, final, events; cbn [fst snd].
  exists (fst s3), (snd s3), rc1, rc2.
  split.
  { unfold construction_error. by destruct (is_OK rc1), (is_OK rc2). }
  destruct Hm1 as (Hdm1 & Hn1 & Hf1 & Hr1 & Hw1).
  destruct Hm2 as (Hdm2 & Hn2 & Hf2 & Hr2 & Hw2).
  destruct Hm3 as (Hdm3 & Hn3 & Hf3 & Hr3 & Hw3).
  cbn [fst snd] in *.
  subst this0. cbn [default_mode_ name_ frame_id_ running_ was_running_] in *.
  split; [rewrite Hd2 in Hd3; eauto using same_settings_trans|].
  split; [congruence|]. split; [congruence|]. split; [congruence|].
  split; [congruence|]. split; [congruence|].
  destruct (is_OK rc1) eqn:E1.
  - destruct (Hok1 eq_refl) as (Hv & Hst & Hli).
    split; [congruence|]. split; [congruence|].
    split; [rewrite Hl3, Hl2, Hv; done|]. split; [done|]. exact Hok3.
  - specialize (Hfail1 eq_refl). cbn in Hfail1.
    assert (Hvs1 : vs_valid (stream_ (fst s1)) = false) by by rewrite Hfail1.
    assert (Hst1 : vs_started (stream_ (fst s1)) = false) by by rewrite Hfail1.
    assert (Hli1 : vs_listener (stream_ (fst s1)) = false) by by rewrite Hfail1.
    split; [congruence|]. split; [congruence|].
    split; [rewrite Hl3, Hl2, Hvs1, Hli1; done|].
    split; [intros _; apply Hinv3; congruence|]. exact Hok3.
Qed.

End Construction.

(** X6: the constructor of a stream controller.  On a device without the
    sensor the assertion fails before anything is advertised or created.
    On a device with it the constructor always returns a controller that is
    not running, with the given name, frame id and default mode: it
    advertises the camera, creates the stream, registers the listener and
    sets the default mode, in this order; a failure of create or of
    setVideoMode is only logged, and after a failed create the stream has no
    handle, no listener, and setVideoMode fails as well. *)
Theorem SensorStreamManager_new_outcome (type : SensorType) (name frame_id : string)
    (default_mode : VideoMode) (indeterminate : bool) (device : Device) :
  let r := SensorStreamManager.new type name frame_id default_mode indeterminate device in
  if dev_has_sensor device type then
    exists m rc1 rc2,
      outcome r = Done m /\
      events r =
        [EvAdvertiseCamera publisher_; EvCreate type rc1]
        ++ construction_error "Failed to create stream '" type rc1
        ++ [EvAddNewFrameListener; EvSetVideoMode default_mode rc2]
        ++ construction_error "Failed to set default video mode for stream '" type rc2 /\
      same_settings device (final r) /\
      name_ m = name /\ frame_id_ m = frame_id /\ default_mode_ m = default_mode /\
      running_ m = false /\
      vs_started (stream_ m) = false /\
      vs_valid (stream_ m) = is_OK rc1 /\
      vs_listener (stream_ m) = is_OK rc1 /\
      (is_OK rc1 = false -> rc2 = STATUS_ERROR) /\
      (is_OK rc2 = true -> vs_mode (stream_ m) = default_mode)
  else r = (AssertionFailed "device_.hasSensor(type)", device, []).
Proof.
  cbv zeta. destruct (dev_has_sensor device type) eqn:Hhs.
  - destruct (new_run type name frame_id default_mode indeterminate device Hhs)
      as (m & d' & rc1 & rc2 & H & Hd & Hn & Hf & Hdm & Hr & Hw & Hst & Hv & Hl & H1 & H2).
    exists m, rc1, rc2. rewrite H. unfold outcome, final, events; cbn [fst snd].
    repeat (split; [assumption || reflexivity|]). assumption.
  - unfold SensorStreamManager.new. by rewrite Hhs.
Qed.

(** ** The selection of the depth router *)

Section Router.

Import DepthSensorStreamManager.

Lemma updateActivePublisher_routed (s : St) :
  exists s',
    updateActivePublisher s = (Done tt, s', []) /\
    routed s' /\
    snd s' = snd s /\
    same_members (set_frame_id_ (frame_id_ (base (fst s'))) (base (fst s))) (base (fst s')) /\
    stream_ (base (fst s')) = stream_ (base (fst s)) /\
    rgb_frame_id_ (fst s') = rgb_frame_id_ (fst s) /\
    depth_frame_id_ (fst s') = depth_frame_id_ (fst s).
Proof.
  eexists. split; [apply updateActivePublisher_run|].
  destruct s as [[[[valid sensor [x y fps format] st li mi ae awb] dm nm fid run was] act rgb dep]
                   [hs reg sup sync cm cr sr mr]].
  unfold routed, registered. cbn.
  split; [|by repeat split].
  destruct reg, format; by split.
Qed.

(** The last statement of [onSubscriptionChanged] and of [endConfigure]. *)
Lemma ensures_updateActivePublisher (P : St -> Prop) :
  ensures P (fun _ => False)
    (running <- this (fun m => running_ (base m)) ;;
     when running updateActivePublisher)
    (fun _ s' => running_ (base (fst s')) = true -> routed s').
Proof.
  eapply ensures_bind; [apply ensures_gets|].
  intros running. apply ensures_when.
  - intros -> s [Hr _].
    destruct (updateActivePublisher_routed s) as (s' & H & Hrouted & _).
    rewrite H. split; [constructor|]. by intros _ _ _.
  - intros -> s [Hr _] Hr'. congruence.
Qed.

Lemma ensures_onSubscriptionChanged_routed f :
  ensures (fun _ => True) (fun _ => True) (onSubscriptionChanged f)
    (fun _ s' => running_ (base (fst s')) = true -> routed s').
Proof.
  unfold onSubscriptionChanged. cbv zeta.
  eapply ensures_bind; [apply ensures_any|]. intros running. cbn beta.
  eapply ensures_seq; [apply (ensures_any (fun _ => True))|].
  eapply ensures_conseq; [apply (ensures_updateActivePublisher (fun _ => True))|done|done|done].
Qed.

Lemma ensures_endConfigure_routed :
  ensures (fun _ => True) (fun _ => True) endConfigure
    (fun _ s' => running_ (base (fst s')) = true -> routed s').
Proof.
  unfold endConfigure.
  eapply ensures_seq; [apply (ensures_any (fun _ => True))|].
  eapply ensures_conseq; [apply (ensures_updateActivePublisher (fun _ => True))|done|done|done].
Qed.

Lemma notify_depth_returns counts (s : St) :
  exists s' evs, notify_depth counts s = (Done tt, s', evs).
Proof.
  revert s. induction counts as [|f rest IH]; intros s; cbn [notify_depth].
  - by eexists _, _.
  - destruct (onSubscriptionChanged_depth_run f s) as (s1 & e1 & H1 & _).
    destruct (IH s1) as (s2 & e2 & H2).
    eexists _, _. exact (bind_run _ _ _ _ _ _ _ _ _ H1 H2).
Qed.

Lemma ensures_notify_depth_routed earlier f :
  ensures (fun _ => True) (fun _ => True) (notify_depth (earlier ++ [f]))
    (fun _ s' => running_ (base (fst s')) = true -> routed s').
Proof.
  induction earlier as [|f0 rest IH]; cbn [app notify_depth].
  - eapply ensures_seq; [apply ensures_onSubscriptionChanged_routed|].
    apply ensures_silent. by intros s.
  - eapply ensures_seq; [apply (ensures_any (fun _ => True))|]. exact IH.
Qed.

(** What the listener of a router with a consistent selection publishes. *)
Lemma onNewFrame_routed ts frame (s : St) c image camera_info :
  routed s ->
  EvPublish c image camera_info ∈ events (onNewFrame ts frame s) ->
  Some c = selected_channel (dev_registration (snd s))
             (getPixelFormat (vs_mode (stream_ (base (fst s))))) /\
  frame_id (img_header image) = selected_frame_id (dev_registration (snd s)) (fst s) /\
  frame_id (info_header camera_info) = selected_frame_id (dev_registration (snd s)) (fst s).
Proof.
  intros [Hsel Hid] Hin.
  destruct s as [[[vs dm nm fid run was] act rgb dep] d].
  cbn [fst snd base active_publisher_ frame_id_ stream_] in Hsel, Hid |- *.
  rewrite <- Hsel, <- Hid. clear Hsel Hid. revert Hin.
  destruct frame as [w h stride [x y fps format] data].
  destruct act as [c'|], format; cbn;
    rewrite ?elem_of_cons, ?elem_of_nil; intros H;
    repeat match goal with H : _ \/ _ |- _ => destruct H as [H|H] end;
    try done; try discriminate; by injection H as -> -> ->.
Qed.

End Router.

(** X9: after every notification of a sequence delivered to the depth
    router, if the router counts as running, its active channel and its frame
    id are the ones selected by the registration mode of the device and the
    pixel format of the stream, and a frame arriving then is published on
    that channel with that frame id, or dropped when the pixel format
    selects no channel. *)
Theorem onSubscriptionChanged_keeps_selection (s : DepthSensorStreamManager.St)
    (earlier : list (Channel -> SubscriberCount)) (f : Channel -> SubscriberCount) :
  let r := notify_depth (earlier ++ [f]) s in
  running_ (base (fst (final r))) = true ->
  routed (final r) /\
  forall ts frame c image camera_info,
    EvPublish c image camera_info
      ∈ events (DepthSensorStreamManager.onNewFrame ts frame (final r)) ->
    Some c = selected_channel (dev_registration (snd (final r)))
               (getPixelFormat (vs_mode (stream_ (base (fst (final r)))))) /\
    frame_id (img_header image)
      = selected_frame_id (dev_registration (snd (final r))) (fst (final r)).
Proof.
  cbv zeta. intros Hr.
  destruct (notify_depth_returns (earlier ++ [f]) s) as (s' & evs & Hrun).
  destruct (ensures_notify_depth_routed earlier f s I) as [_ H].
  specialize (H tt). rewrite Hrun in H, Hr |- *.
  unfold outcome, final in *; cbn [fst snd] in *.
  specialize (H eq_refl Hr). split; [done|].
  intros ts frame c image camera_info Hin.
  destruct (onNewFrame_routed ts frame s' c image camera_info H Hin) as (H1 & H2 & _).
  done.
Qed.

Lemma onSubscriptionChanged_keeps_selection_witness :
  let r := notify_depth ([clients 0 1 0 0; clients 0 0 0 0] ++ [clients 0 0 2 1])
             idle_router in
  routed (final r).
Proof.
  apply (onSubscriptionChanged_keeps_selection idle_router
           [clients 0 1 0 0; clients 0 0 0 0] (clients 0 0 2 1)).
  by vm_compute.
Defined.

(** X7: on a device with a depth sensor the constructor of the depth router
    returns a router named depth that is not running, advertises its four
    channels, each once, and selects none of them: a frame that arrives
    before an interest change or a configuration round has selected a
    channel is dropped, nothing is published and the state is unchanged. *)
Theorem DepthSensorStreamManager_new_selects_no_channel (rgb_frame_id depth_frame_id : string)
    (default_mode : VideoMode) (indeterminate : bool) (device : Device) :
  dev_has_sensor device SENSOR_DEPTH = true ->
  exists m device' evs,
    DepthSensorStreamManager.new rgb_frame_id depth_frame_id default_mode indeterminate
      device = (Done m, device', evs) /\
    advertised evs = [publisher_; depth_registered_publisher_; disparity_publisher_;
                      disparity_registered_publisher_] /\
    active_publisher_ m = None /\
    running_ (base m) = false /\
    name_ (base m) = "depth" /\
    frame_id_ (base m) = depth_frame_id /\
    rgb_frame_id_ m = rgb_frame_id /\
    depth_frame_id_ m = depth_frame_id /\
    forall ts frame,
      let r := DepthSensorStreamManager.onNewFrame ts frame (m, device') in
      outcome r = Done tt /\ final r = (m, device') /\
      forall c image camera_info, EvPublish c image camera_info ∉ events r.
Proof.
  intros Hhs.
  destruct (new_run SENSOR_DEPTH "depth" depth_frame_id default_mode indeterminate device Hhs)
    as (b & d' & rc1 & rc2 & H & Hd & Hn & Hf & Hdm & Hr & Hw & Hst & Hv & Hl & H1 & H2).
  eexists (mkDepthSensorStreamManager b None rgb_frame_id depth_frame_id), d', _.
  split.
  { unfold DepthSensorStreamManager.new.
    eapply bind_run; [exact H|].
    eapply bind_run; [reflexivity|].
    eapply bind_run; [reflexivity|].
    eapply bind_run; [reflexivity|]. reflexivity. }
  split.
  { unfold construction_error. by destruct (is_OK rc1), (is_OK rc2). }
  cbn [active_publisher_ base rgb_frame_id_ depth_frame_id_].
  do 6 (split; [done|]).
  intros ts frame. destruct b as [vs dm nm fid run was].
  destruct frame as [w h stride [x y fps format] data].
  cbv zeta. destruct format; cbn.
  all: split; [reflexivity|]. all: split; [reflexivity|].
  all: intros c image camera_info; rewrite ?elem_of_cons, ?elem_of_nil;
    intros Hin; repeat match goal with H : _ \/ _ |- _ => destruct H as [H|H] end;
    done.
Qed.

Lemma DepthSensorStreamManager_new_selects_no_channel_witness :
  exists m device' evs,
    DepthSensorStreamManager.new "camera_rgb_optical_frame" "camera_depth_optical_frame"
      VGA_depth false (example_device [] [] []) = (Done m, device', evs) /\
    active_publisher_ m = None.
Proof.
  destruct (DepthSensorStreamManager_new_selects_no_channel
              "camera_rgb_optical_frame" "camera_depth_optical_frame" VGA_depth false
              (example_device [] [] []) eq_refl)
    as (m & d' & evs & H & _ & Hact & _).
  by exists m, d', evs.
Defined.

(** X10: endConfigure of the depth router always returns; if the stream is
    running afterwards (restarted, or recovered in whatever mode the new
    stream has) the selection is made again from the registration mode and
    the pixel format; if it is not, the selection is left as it was. *)
Theorem depth_endConfigure_reselects (s : DepthSensorStreamManager.St) :
  let r := DepthSensorStreamManager.endConfigure s in
  outcome r = Done tt /\
  (running_ (base (fst (final r))) = true -> routed (final r)) /\
  (running_ (base (fst (final r))) = false ->
     active_publisher_ (fst (final r)) = active_publisher_ (fst s)).
Proof.
  cbv zeta.
  destruct (ensures_endConfigure_routed s I) as [_ Hrouted].
  destruct (returns_super _ _ returns_endConfigure s) as ([] & s1 & evs & H1 & _).
  assert (Hact : active_publisher_ (fst s1) = active_publisher_ (fst s)).
  { unfold DepthSensorStreamManager.super, zoom in H1.
    injection H1 as _ <- _. by destruct s as [[? ? ? ?] ?]. }
  revert Hrouted. unfold DepthSensorStreamManager.endConfigure.
  rewrite (bind_Done _ _ _ _ _ _ H1).
  assert (Hthis : DepthSensorStreamManager.this (fun m => running_ (base m)) s1
                  = (Done (running_ (base (fst s1))), s1, [])) by reflexivity.
  destruct (running_ (base (fst s1))) eqn:Hr.
  - rewrite (bind_run _ _ _ _ _ _ _ _ _ Hthis (updateActivePublisher_run s1)).
    unfold outcome, final, events; cbn [fst snd]. intros Hrouted.
    split; [done|]. split; [exact (Hrouted tt eq_refl)|].
    cbn. rewrite Hr. discriminate.
  - rewrite (bind_run _ _ _ _ _ _ tt s1 [] Hthis eq_refl).
    unfold outcome, final, events; cbn [fst snd]. intros Hrouted.
    split; [done|]. split; [exact (Hrouted tt eq_refl)|]. done.
Qed.

(** ** The uninitialised member and the projection matrix *)

Section Uninitialised.

Import SensorStreamManager.

Lemma onSubscriptionChanged_was_running n b (m : SensorStreamManager) (d : Device) :
  exists m' d' evs,
    onSubscriptionChanged n (m, d) = (Done tt, (m', d'), evs) /\
    onSubscriptionChanged n (set_was_running_ b m, d)
      = (Done tt, (set_was_running_ b m', d'), evs).
Proof.
  destruct m as [[valid sensor vm st li mi ae awb] dm nm fid run was].
  destruct d as [hs reg sup sync cm cr sr mr].
  unfold onSubscriptionChanged.
  destruct (0 <? n)%N; [|by eexists _, _, _].
  destruct run; [by eexists _, _, _|].
  destruct valid; [|by eexists _, _, _].
  destruct (is_OK (hd STATUS_OK sr)) eqn:E; eexists _, _, _.
  all: split; cbn; rewrite ?E; cbn; rewrite ?E; reflexivity.
Qed.

Lemma notify_was_running counts b : forall (m : SensorStreamManager) (d : Device),
  exists m' d' evs,
    notify counts (m, d) = (Done tt, (m', d'), evs) /\
    notify counts (set_was_running_ b m, d) = (Done tt, (set_was_running_ b m', d'), evs).
Proof.
  induction counts as [|n rest IH]; intros m d; cbn [notify].
  - by eexists _, _, _.
  - destruct (onSubscriptionChanged_was_running n b m d) as (m1 & d1 & e1 & H1 & H1').
    destruct (IH m1 d1) as (m2 & d2 & e2 & H2 & H2').
    eexists _, _, _. split.
    + exact (bind_run _ _ _ _ _ _ _ _ _ H1 H2).
    + exact (bind_run _ _ _ _ _ _ _ _ _ H1' H2').
Qed.

Lemma beginConfigure_was_running b (m : SensorStreamManager) (d : Device) :
  beginConfigure (set_was_running_ b m, d) = beginConfigure (m, d).
Proof. destruct m as [vs dm nm fid run was]. by destruct run. Qed.

End Uninitialised.

(** X8: the constructor gives was_running_ no value.  Whatever it holds, a
    sequence of interest changes followed by beginConfigure emits the same
    events and leaves the same state: no notification reads the member and
    beginConfigure overwrites it before endConfigure reads it. *)
Theorem was_running_not_read_before_beginConfigure (m : SensorStreamManager) (d : Device)
    (counts : list SubscriberCount) (b : bool) :
  (notify counts ;;; SensorStreamManager.beginConfigure) (set_was_running_ b m, d)
  = (notify counts ;;; SensorStreamManager.beginConfigure) (m, d).
Proof.
  destruct (notify_was_running counts b m d) as (m' & d' & evs & H & H').
  rewrite (bind_Done _ _ _ _ _ _ H), (bind_Done _ _ _ _ _ _ H').
  by rewrite beginConfigure_was_running.
Qed.



(** ** A configuration round of one stream *)

Section Round.

Import SensorStreamManager.

Lemma trials_events_destroy type trials attempts :
  attempts <> [] -> EvDestroy ∈ trials_events type trials attempts.
Proof.
  destruct attempts as [|a rest]; [done|]. intros _. cbn [trials_events].
  apply elem_of_app. left. unfold trial_events. apply elem_of_app. left.
  rewrite !elem_of_cons. auto.
Qed.

(** [endConfigure] and the mode of the stream: unless a recovery trial
    destroys the stream, the mode is kept. *)
Lemma endConfigure_mode (s : St) :
  exists s' evs,
    endConfigure s = (Done tt, s', evs) /\
    (EvDestroy ∉ evs -> vs_mode (stream_ (fst s')) = vs_mode (stream_ (fst s))) /\
    (was_running_ (fst s) = false -> s' = s /\ evs = []) /\
    (was_running_ (fst s) = true ->
       exists rc, last_start evs = Some rc /\
         running_ (fst s') = is_OK rc || running_ (fst s)).
Proof.
  destruct (endConfigure_run s) as (s' & evs & H & _ & Hidle & Hran).
  exists s', evs. split; [done|]. split; [|done].
  destruct (was_running_ (fst s)) eqn:Hwas.
  - destruct (start_run s) as (rc0 & s1 & Hrun1 & Hsame1 & _ & _ & Hmode1 & _).
    destruct (is_OK rc0) eqn:E0.
    + assert (H' : endConfigure s
                   = (Done tt, (set_running_ true (fst s1), snd s1), [EvStart rc0])).
      { unfold endConfigure. eapply eq_trans.
        { eapply bind_run; [unfold this, gets; by rewrite Hwas|].
          eapply bind_run; [exact Hrun1|].
          rewrite E0; cbn [negb].
          eapply bind_run; [reflexivity|]. rewrite E0. reflexivity. }
        reflexivity. }
      rewrite H' in H. injection H as <- <-.
      intros _. by destruct s1 as [[? ? ? ? ? ?] ?].
    + assert (Hstart : outcome (on_stream SDK.start s) = Done rc0) by by rewrite Hrun1.
      destruct (endConfigure_recovery_run s rc0 Hwas Hstart E0)
        as (attempts & s2 & Hrun & _ & _ & Hne & _).
      cbv zeta in Hrun. rewrite Hrun in H. injection H as <- <-.
      intros Hno. exfalso. apply Hno.
      rewrite !elem_of_cons, elem_of_app. right. right. left.
      by apply trials_events_destroy.
  - destruct (Hidle eq_refl) as [-> ->]. done.
Qed.

End Round.

(** X20: a configuration round of one stream.  It always returns.  If the
    hardware accepted the mode and no recovery trial destroyed the stream,
    the stream is in the requested mode afterwards.  A stream that was not
    running is not running afterwards and no start is attempted; a stream
    that was running is running afterwards exactly when the last start
    attempt of the round succeeded. *)
Theorem configuration_round_applies_mode (mode : VideoMode) (s : SensorStreamManager.St) :
  let r := configuration_round mode s in
  exists accepted,
    outcome r = Done accepted /\
    (accepted = true -> EvDestroy ∉ events r ->
       vs_mode (stream_ (fst (final r))) = mode) /\
    (running_ (fst s) = false ->
       running_ (fst (final r)) = false /\ last_start (events r) = None) /\
    (running_ (fst s) = true ->
       exists rc, last_start (events r) = Some rc /\
         running_ (fst (final r)) = is_OK rc).
Proof.
  cbv zeta. unfold configuration_round.
  pose proof (beginConfigure_run s) as H1.
  set (s1 := (set_running_ false
                (set_was_running_ (running_ (fst s))
                   (if running_ (fst s)
                    then set_stream_ (set_vs_started false (stream_ (fst s))) (fst s)
                    else fst s)), snd s)) in H1.
  assert (Hr1 : running_ (fst s1) = false) by by destruct s as [[? ? ? ? ? ?] ?].
  assert (Hw1 : was_running_ (fst s1) = running_ (fst s)) by by destruct s as [[? ? ? ? ? ?] ?].
  destruct (tryConfigureVideoMode_cases mode s1)
    as (s2 & (_ & _ & _ & Hr2 & Hw2) & _ & Htry).
  destruct (endConfigure_mode s2) as (s3 & e3 & H3 & Hmode3 & Hidle3 & Hran3).
  rewrite Hw2, Hw1 in Hidle3, Hran3. rewrite Hr2, Hr1 in Hran3.
  assert (Hlast1 : last_start (if running_ (fst s) then [EvStop] else []) = None)
    by by destruct (running_ (fst s)).
  assert (Htry' : exists accepted e2,
    SensorStreamManager.tryConfigureVideoMode mode s1 = (Done accepted, s2, e2) /\
    last_start e2 = None /\
    (EvDestroy ∉ e2) /\
    (accepted = true -> vs_mode (stream_ (fst s2)) = mode)).
  { destruct Htry as [[H2 Hm] | [(rc & Hrc & H2 & Hm) | (rc & rc' & Hrc & Hrc' & H2)]];
      eexists _, _; (split; [exact H2|]); (split; [reflexivity|]);
      (split; [|done]); rewrite ?elem_of_cons, elem_of_nil; intros Hin;
      repeat match goal with H : _ \/ _ |- _ => destruct H as [H|H] end;
      first [done | discriminate]. }
  destruct Htry' as (accepted & e2 & H2 & Hlast2 & Hno2 & Hacc).
  assert (Hrun : (SensorStreamManager.beginConfigure ;;;
                  accepted <- SensorStreamManager.tryConfigureVideoMode mode ;;
                  SensorStreamManager.endConfigure ;;; ret accepted) s
                 = (Done accepted, s3,
                    (if running_ (fst s) then [EvStop] else []) ++ e2 ++ e3 ++ [])).
  { eapply bind_run; [exact H1|].
    eapply bind_run; [exact H2|].
    eapply bind_run; [exact H3|]. reflexivity. }
  rewrite Hrun. unfold outcome, final, events; cbn [fst snd].
  exists accepted. split; [done|]. rewrite app_nil_r. split; [|split].
  - intros Ha Hno. rewrite Hmode3; [by apply Hacc|].
    intros Hin. apply Hno. rewrite !elem_of_app. auto.
  - intros Hidle. destruct (Hidle3 Hidle) as [-> ->]. split; [done|].
    rewrite app_nil_r, last_start_app, Hlast2. by rewrite Hidle in Hlast1 |- *.
  - intros Hran. destruct (Hran3 Hran) as (rc & Hlast3 & Hr3).
    exists rc. rewrite !last_start_app, Hlast3. split; [done|].
    by rewrite Hr3, orb_false_r.
Qed.

(** ** The coordinator on every request *)

(** [configure] run on a valid request: it returns, and what it leaves of
    the request and of the registration mode. *)
Lemma configure_returns level (s : CameraImpl.St) :
  let sup := dev_registration_supported (device_ (fst s)) in
  let reg := dev_registration (device_ (fst s)) in
  valid_request level s = true ->
  exists s' evs,
    CameraImpl.configure level s = (Done tt, s', evs) /\
    dev_depth_color_sync (device_ (fst s')) = true /\
    dev_registration (device_ (fst s'))
      = (if absent (depth_sensor_ (fst s)) then reg
         else registration_after sup level reg (snd s)) /\
    snd s' = (if absent (depth_sensor_ (fst s)) then snd s
              else request_after sup level (snd s)).
Proof.
  intros sup reg Hvalid.
  destruct (configure_run level on_depth_block
              (if absent (depth_sensor_ (fst s)) then reg
               else registration_after sup level reg (snd s))
              (if absent (depth_sensor_ (fst s)) then snd s
               else request_after sup level (snd s)) s Hvalid)
    as (s' & rgb & depth & ir & H & E1 & E2 & E3 & Hsync & Hreg & Hcfg).
  - by left.
  - cbn. intros ->. apply configure_registration_spec.
  - cbn. by intros ->.
  - destruct (absent _); [done|]. apply request_after_keys.
  - by eexists s', _.
Qed.

Section Selection.

Import CameraImpl.

Let G : St -> Prop := at_slot DEPTH selection_current.

Lemma selection_current_settings x d d' :
  same_settings d d' -> selection_current x d -> selection_current x d'.
Proof.
  intros (_ & Hreg & _). destruct x as [|m|m]; cbn; [done..|].
  unfold routed. cbn [fst snd]. by rewrite Hreg.
Qed.

Lemma ensures_trivial {E S A} (P : S -> Prop) (m : M E S A) (Q : A -> S -> Prop) :
  (forall a s, Q a s) -> ensures P (fun _ => True) m Q.
Proof. intros HQ. eapply ensures_conseq; [apply (ensures_any P)|done|done|]. auto. Qed.

Lemma returns_ensures_post {Mgr A} (call : M Event (Mgr * Device) A) (post : A -> Prop)
    (P : Mgr * Device -> Prop) :
  returns call post -> ensures P (fun _ => True) call (fun a _ => post a).
Proof.
  intros Hcall t _. destruct (Hcall t) as (a & t' & evs & H & _ & Hp).
  rewrite H. split; [by apply Forall_forall|]. by intros a' [= <-].
Qed.

Lemma returns_any {Mgr A} (call : M Event (Mgr * Device) A) (post : A -> Prop) :
  returns call post -> returns call (fun _ => True).
Proof.
  intros H st. destruct (H st) as (a & st' & evs & Hrun & Hd & _). by exists a, st', evs.
Qed.

Lemma ensures_sync_selection :
  ensures G (fun _ => True) (on_device (SDK.setDepthColorSyncEnabled true)) (fun _ => G).
Proof.
  intros s HG. split; [by apply Forall_forall|]. intros _ _.
  unfold G, at_slot in *. destruct s as [[rgb depth ir R d] cfg]. cbn in *.
  destruct depth as [|m|m]; cbn in *; [done..|].
  intros Hr. destruct (HG Hr) as [H1 H2]. by split.
Qed.

Lemma ensures_frame_IR {A} (method : Method) (base_call : M Event St A)
    (plain : M Event SensorStreamManager.St A)
    (depth : M Event DepthSensorStreamManager.St A) :
  (forall s, events (base_call s) = []) ->
  returns plain (fun _ => True) ->
  returns depth (fun _ => True) ->
  ensures G (fun _ => True)
    (emit (Call IR method) ;;;
     sensor <- this (sensor_at IR) ;;
     match sensor with
     | Absent => zoom (fun s => s) (fun _ s => s) (OnSensor IR) base_call
     | Plain m => on_manager IR Plain m plain
     | DepthRouter m => on_manager IR DepthRouter m depth
     end) (fun _ => G).
Proof.
  intros Hbase Hplain Hdepth.
  apply (ensures_dispatch_frame IR DEPTH); try done.
  apply selection_current_settings.
Qed.

Lemma ensures_configure_selection level :
  ensures (fun _ => True) (fun _ => True) (configure level) (fun _ => G).
Proof.
  apply (ensures_configure level (fun _ => True)
           (fun slot => match slot with IR => G | _ => fun _ => True end)
           (fun slot => match slot with IR => G | _ => fun _ => True end)
           (fun slot => match slot with RGB => fun _ => True | _ => G end)
           G).
  - (* beginConfigure *)
    intros slot. destruct slot.
    + apply ensures_trivial. intros ok ?. by destruct ok.
    + eapply ensures_conseq;
        [apply (ensures_dispatch_own DEPTH call_beginConfigure _ _ _
                  (fun _ _ => True) (fun _ => True)
                  (fun (ok : bool) x d => if ok then True else selection_current x d))
        |done|done|intros ok ?; by destruct ok].
      * done.
      * intros s d _. split; [done|]. intros ok _. by destruct ok.
      * apply ensures_trivial. intros ok ?. by destruct ok.
      * eapply ensures_conseq;
          [apply (returns_ensures_post _ _ (fun _ => True)
                    (returns_super _ _ returns_beginConfigure))
          |done|done|by intros ok t ->].
    + eapply ensures_conseq;
        [apply (ensures_frame_IR call_beginConfigure)|done|done|intros ok ?; by destruct ok].
      * done.
      * apply (returns_any _ _ returns_beginConfigure).
      * apply (returns_any _ _ (returns_super _ _ returns_beginConfigure)).
  - (* tryConfigureVideoMode *)
    intros slot mode. destruct slot; [by apply ensures_trivial..|].
    apply (ensures_frame_IR (call_tryConfigureVideoMode mode)); [done|..].
    + apply returns_tryConfigureVideoMode.
    + apply returns_super, returns_tryConfigureVideoMode.
  - intros on. by apply ensures_trivial.
  - intros on. by apply ensures_trivial.
  - (* setMirroringEnabled *)
    intros slot on. destruct slot; [by apply ensures_trivial..|].
    apply (ensures_frame_IR call_stream); [done|..].
    + apply returns_on_stream, returns_setMirroringEnabled.
    + apply returns_super, returns_on_stream, returns_setMirroringEnabled.
  - intros mode. by apply ensures_trivial.
  - done.
  - (* endConfigure *)
    intros slot. destruct slot.
    + by apply ensures_trivial.
    + eapply ensures_conseq;
        [apply (ensures_dispatch_own DEPTH call_endConfigure _ _ _
                  (fun _ _ => True) (fun _ => True)
                  (fun _ x d => selection_current x d))
        |done|done|done].
      * done.
      * intros s d _. split; [done|]. intros a Ha. discriminate.
      * by apply ensures_trivial.
      * eapply ensures_conseq; [apply ensures_endConfigure_routed|done|done|done].
    + apply (ensures_frame_IR call_endConfigure); [done|..].
      * apply returns_endConfigure.
      * apply returns_depth_endConfigure.
  - done.
  - done.
  - apply ensures_sync_selection.
Qed.

End Selection.

(** X15: after configure has run on a valid request, the selection of a
    depth router that counts as running is current: its active channel and
    frame id are the ones the final registration mode of the device and the
    final pixel format of the depth stream select, whatever the mask
    flagged and however the hardware answered. *)
Theorem configure_keeps_selection (level : Z) (s : CameraImpl.St) :
  valid_request level s = true ->
  exists s' evs,
    CameraImpl.configure level s = (Done tt, s', evs) /\
    forall m, depth_sensor_ (fst s') = DepthRouter m ->
      running_ (base m) = true -> routed (m, device_ (fst s')).
Proof.
  intros Hvalid.
  destruct (configure_returns level s Hvalid) as (s' & evs & H & _).
  exists s', evs. split; [done|].
  destruct (ensures_configure_selection level s I) as [_ HG].
  specialize (HG tt). rewrite H in HG. specialize (HG eq_refl).
  unfold final, at_slot in HG; cbn [fst snd sensor_at] in HG.
  intros m Hm. by rewrite Hm in HG.
Qed.

Lemma configure_keeps_selection_witness :
  exists s' evs,
    CameraImpl.configure all_changed (example_camera, example_request) = (Done tt, s', evs) /\
    forall m, depth_sensor_ (fst s') = DepthRouter m ->
      running_ (base m) = true -> routed (m, device_ (fst s')).
Proof.
  apply (configure_keeps_selection all_changed (example_camera, example_request)).
  by vm_compute.
Defined.

Section Idle.

Import CameraImpl.

Lemma ensures_super {A} (call : M Event SensorStreamManager.St A)
    (P : SensorStreamManager.St -> Prop) (ev : Event -> Prop)
    (Q : A -> SensorStreamManager.St -> Prop) :
  ensures P ev call Q ->
  ensures (fun t => P (base (fst t), snd t)) ev (DepthSensorStreamManager.super call)
    (fun a t' => Q a (base (fst t'), snd t')).
Proof.
  intros Hcall t HP. destruct (Hcall _ HP) as [Hev HQ].
  unfold DepthSensorStreamManager.super, zoom.
  destruct (call (base (fst t), snd t)) as [[o [b' d']] e1].
  unfold outcome, final, events in *; cbn [fst snd base set_base] in *.
  rewrite map_id. split; [done|]. exact HQ.
Qed.

Let quiet (e : Event) : Prop := lifecycle e = false.
Let Idle (t : SensorStreamManager.St) : Prop := running_ (fst t) = false.
Let Halted (t : SensorStreamManager.St) : Prop :=
  running_ (fst t) = false /\ was_running_ (fst t) = false.

Lemma ensures_beginConfigure_idle :
  ensures Idle quiet SensorStreamManager.beginConfigure
    (fun ok t' => ok = true /\ Halted t').
Proof.
  intros t Hr. rewrite beginConfigure_run. unfold Idle in Hr. rewrite Hr.
  split; [constructor|]. intros a [= <-]. by destruct t as [[? ? ? ? ? ?] ?].
Qed.

Lemma ensures_tryConfigureVideoMode_halted mode :
  ensures Halted quiet (SensorStreamManager.tryConfigureVideoMode mode)
    (fun _ t' => Halted t').
Proof.
  intros t [Hr Hw].
  destruct (tryConfigureVideoMode_cases mode t)
    as (t' & (_ & _ & _ & Hr' & Hw') & _ & [[H _] | [(rc & _ & H & _) | (rc & rc' & _ & _ & H)]]);
    rewrite H; unfold outcome, final, events; cbn [fst snd].
  all: split; [by repeat constructor|].
  all: intros _ _; split; congruence.
Qed.

Lemma ensures_setter_halted (call : M Event SDK.St unit) :
  (forall st, exists vs e, call st = (Done tt, (vs, snd st), [e]) /\ lifecycle e = false) ->
  ensures Halted quiet (SensorStreamManager.on_stream call) (fun _ t' => Halted t').
Proof.
  intros Hcall t [Hr Hw].
  destruct (Hcall (stream_ (fst t), snd t)) as (vs & e & H & He).
  unfold SensorStreamManager.on_stream, zoom. rewrite H.
  unfold outcome, final, events; cbn [fst snd map].
  split; [by repeat constructor|]. intros _ _.
  by destruct t as [[? ? ? ? ? ?] ?].
Qed.

Lemma ensures_endConfigure_halted :
  ensures Halted quiet SensorStreamManager.endConfigure (fun _ t' => Idle t').
Proof.
  intros t [Hr Hw].
  destruct (endConfigure_run t) as (t' & evs & H & _ & Hsame & _).
  destruct (Hsame Hw) as [-> ->]. rewrite H.
  split; [constructor|]. by intros _ _.
Qed.

Lemma ensures_depth_endConfigure_halted :
  ensures (fun t => Halted (base (fst t), snd t)) quiet DepthSensorStreamManager.endConfigure
    (fun _ t' => Idle (base (fst t'), snd t')).
Proof.
  unfold DepthSensorStreamManager.endConfigure.
  eapply ensures_seq; [apply (ensures_super _ _ _ _ ensures_endConfigure_halted)|].
  eapply ensures_bind; [apply ensures_gets|].
  intros running. apply ensures_when.
  - intros -> t [Hr Hidle]. unfold Idle in Hidle. cbn [fst] in *. congruence.
  - intros _ t [_ Hidle]. exact Hidle.
Qed.

Variable slot0 : Slot.

Let ev : CamEvent -> Prop := leaves_alone slot0.
Let I : St -> Prop := at_slot slot0 (fun x _ => idle x).
Let H0 : St -> Prop := at_slot slot0 (fun x _ => halted x).

Lemma ensures_idle_frame {A} slot (method : Method) (base_call : M Event St A)
    (plain : M Event SensorStreamManager.St A)
    (depth : M Event DepthSensorStreamManager.St A)
    (phi : Sensor -> Prop) :
  slot <> slot0 ->
  (forall s, events (base_call s) = []) ->
  returns plain (fun _ => True) ->
  returns depth (fun _ => True) ->
  ensures (at_slot slot0 (fun x _ => phi x)) ev
    (emit (Call slot method) ;;;
     sensor <- this (sensor_at slot) ;;
     match sensor with
     | Absent => zoom (fun s => s) (fun _ s => s) (OnSensor slot) base_call
     | Plain m => on_manager slot Plain m plain
     | DepthRouter m => on_manager slot DepthRouter m depth
     end) (fun _ => at_slot slot0 (fun x _ => phi x)).
Proof.
  intros Hne Hbase Hplain Hdepth.
  apply (ensures_dispatch_frame slot slot0); try done.
  intros e. cbn. intros Heq. by destruct Hne.
Qed.

Lemma ensures_on_device_idle {A} (call : M Event Device A) (phi : Sensor -> Prop) :
  ensures (at_slot slot0 (fun x _ => phi x)) ev (on_device call)
    (fun _ => at_slot slot0 (fun x _ => phi x)).
Proof.
  intros s HP. unfold on_device, zoom. unfold outcome, final, events; cbn [fst snd].
  split.
  - apply Forall_map, Forall_forall. by intros.
  - intros _ _. unfold at_slot in *. cbn [fst snd]. by rewrite sensor_at_set_device_.
Qed.

Lemma ensures_stream_idle slot (call : M Event SDK.St unit) :
  (forall st, exists vs e, call st = (Done tt, (vs, snd st), [e]) /\ lifecycle e = false) ->
  returns call (fun _ => True) ->
  ensures (if decide (slot = slot0) then H0 else I) ev (stream slot call)
    (fun _ => if decide (slot = slot0) then H0 else I).
Proof.
  intros Hcall Hreturns. destruct (decide (slot = slot0)) as [->|Hne].
  - apply (ensures_dispatch_own slot0 call_stream _ _ _
             (fun x _ => halted x) ev (fun _ x _ => halted x)).
    + done.
    + intros s d _. split; [done|]. intros a Ha. discriminate.
    + eapply ensures_conseq; [by apply ensures_setter_halted|done| |done].
      intros e He. cbn. by intros _.
    + eapply ensures_conseq;
        [apply (ensures_super _ _ _ _ (ensures_setter_halted call Hcall))|done| |done].
      intros e He. cbn. by intros _.
  - apply (ensures_idle_frame slot call_stream _ _ _ idle); [done|done|..].
    + by apply returns_on_stream.
    + by apply returns_super, returns_on_stream.
Qed.

Lemma ensures_configure_idle level :
  ensures I ev (configure level) (fun _ => I).
Proof.
  apply (ensures_configure level ev
           (fun _ => I)
           (fun slot => if decide (slot = slot0) then H0 else I)
           (fun _ => I)
           I).
  - (* beginConfigure *)
    intros slot. destruct (decide (slot = slot0)) as [->|Hne].
    + eapply ensures_conseq;
        [apply (ensures_dispatch_own slot0 call_beginConfigure _ _ _
                  (fun x _ => idle x) ev
                  (fun (ok : bool) x _ => if ok then halted x else idle x))
        |done|done|intros ok ? HQ; destruct ok; exact HQ].
      * done.
      * intros s d _. split; [done|]. intros ok [= <-]. done.
      * eapply ensures_conseq; [apply ensures_beginConfigure_idle|done| |].
        { intros e He. cbn. by intros _. }
        { by intros ok t [-> Ht]. }
      * eapply ensures_conseq;
          [apply (ensures_super _ _ _ _ ensures_beginConfigure_idle)|done| |].
        { intros e He. cbn. by intros _. }
        { by intros ok t [-> Ht]. }
    + eapply ensures_conseq;
        [apply (ensures_idle_frame slot call_beginConfigure _ _ _ idle)
        |done|done|intros ok ? HQ; destruct ok; exact HQ]; [done|done|..].
      * apply (returns_any _ _ returns_beginConfigure).
      * apply (returns_any _ _ (returns_super _ _ returns_beginConfigure)).
  - (* tryConfigureVideoMode *)
    intros slot mode. destruct (decide (slot = slot0)) as [->|Hne].
    + apply (ensures_dispatch_own slot0 (call_tryConfigureVideoMode mode) _ _ _
               (fun x _ => halted x) ev (fun _ x _ => halted x)).
      * done.
      * intros s d _. split; [done|]. intros a Ha. discriminate.
      * eapply ensures_conseq; [apply ensures_tryConfigureVideoMode_halted|done| |done].
        intros e He. cbn. by intros _.
      * eapply ensures_conseq;
          [apply (ensures_super _ _ _ _ (ensures_tryConfigureVideoMode_halted mode))|done| |done].
        intros e He. cbn. by intros _.
    + apply (ensures_idle_frame slot (call_tryConfigureVideoMode mode) _ _ _ idle);
        [done|done|..].
      * apply returns_tryConfigureVideoMode.
      * apply returns_super, returns_tryConfigureVideoMode.
  - intros on. apply (ensures_stream_idle RGB).
    + intros st. by eexists _, _.
    + apply returns_setAutoExposureEnabled.
  - intros on. apply (ensures_stream_idle RGB).
    + intros st. by eexists _, _.
    + apply returns_setAutoWhiteBalanceEnabled.
  - intros slot on. apply (ensures_stream_idle slot).
    + intros st. by eexists _, _.
    + apply returns_setMirroringEnabled.
  - intros mode. destruct (decide (DEPTH = slot0)); apply ensures_on_device_idle.
  - intros s. by destruct (decide (DEPTH = slot0)).
  - (* endConfigure *)
    intros slot. destruct (decide (slot = slot0)) as [->|Hne].
    + apply (ensures_dispatch_own slot0 call_endConfigure _ _ _
               (fun x _ => halted x) ev (fun _ x _ => idle x)).
      * done.
      * intros s d _. split; [done|]. intros a Ha. discriminate.
      * eapply ensures_conseq; [apply ensures_endConfigure_halted|done| |done].
        intros e He. cbn. by intros _.
      * eapply ensures_conseq; [apply ensures_depth_endConfigure_halted|done| |done].
        intros e He. cbn. by intros _.
    + apply (ensures_idle_frame slot call_endConfigure _ _ _ idle); [done|done|..].
      * apply returns_endConfigure.
      * apply returns_depth_endConfigure.
  - done.
  - done.
  - apply ensures_on_device_idle.
Qed.

End Idle.

(** X16: configure never starts a stream that was not running.  If the
    manager of a slot does not count as running, then for every mask and
    every request, also one that fails the assertion, no event of the run
    creates, destroys, starts or stops the stream of that slot or changes
    its listener, and if configure returns the manager still does not count
    as running. *)
Theorem configure_leaves_idle_stream_alone (level : Z) (s : CameraImpl.St) (slot : Slot) :
  idle (sensor_at slot (fst s)) ->
  let r := CameraImpl.configure level s in
  Forall (leaves_alone slot) (events r) /\
  (outcome r = Done tt -> idle (sensor_at slot (fst (final r)))).
Proof.
  intros Hidle. destruct (ensures_configure_idle slot level s Hidle) as [Hev HQ].
  split; [exact Hev|]. exact (HQ tt).
Qed.

Lemma configure_leaves_idle_stream_alone_witness :
  let r := CameraImpl.configure all_changed (example_camera, example_request) in
  Forall (leaves_alone RGB) (events r) /\
  (outcome r = Done tt -> idle (sensor_at RGB (fst (final r)))).
Proof.
  apply (configure_leaves_idle_stream_alone all_changed (example_camera, example_request) RGB).
  reflexivity.
Defined.

Lemma bind_AssertionFailed {E S A B} (m : M E S A) (k : A -> M E S B) s expr s1 e1 :
  m s = (AssertionFailed expr, s1, e1) ->
  bind m k s = (AssertionFailed expr, s1, e1).
Proof. intros H. unfold bind. by rewrite H. Qed.

Lemma valid_key_false level (s : CameraImpl.St) slot bit key :
  valid_key level s slot bit key = false ->
  absent (sensor_at slot (fst s)) = false /\
  CameraImpl.flagged level bit = true /\
  resolutions_ (fst s) !! key = None.
Proof.
  unfold valid_key. intros H.
  apply orb_false_elim in H as [H H3]. apply orb_false_elim in H as [H1 H2].
  split; [done|]. split; [by destruct (CameraImpl.flagged level bit)|].
  apply bool_decide_eq_false in H3. by apply eq_None_not_Some.
Qed.

Section Abort.

Import CameraImpl.

Variable R : gmap Z VideoMode.
Variable ab : Slot -> bool.
Variable sup : bool.

(** A block whose flagged resolution is not in the catalog stops at the
    assertion, in the state its beginConfigure left. *)
Lemma block_abort reg cfg slot (bit level : Z) (key : CameraConfig -> Z)
    (rest : M CamEvent St unit) (s : St) :
  Inv R ab sup reg cfg s ->
  ab slot = false ->
  flagged level bit = true ->
  R !! key cfg = None ->
  exists s1 evs,
    beginConfigure slot s = (Done true, s1, evs) /\
    (ok <- beginConfigure slot ;;
     when ok (
       when (flagged level bit) (
         k <- gets (fun s => key (snd s)) ;;
         mode <- find_resolution k ;;
         tryConfigureVideoMode slot mode ;;; ret tt) ;;;
       rest)) s
    = (AssertionFailed unknown_resolution, s1, evs).
Proof.
  intros HI Hslot Hflag Hkey.
  destruct (beginConfigure_run_camera R ab sup reg cfg slot s HI)
    as (s1 & evs & H1 & _ & (HR & _ & _ & _ & Hcfg)).
  rewrite Hslot in H1. cbn [negb] in H1.
  exists s1, (Call slot call_beginConfigure :: evs). split; [done|].
  rewrite (bind_Done _ _ _ _ _ _ H1). cbn [when].
  rewrite Hflag. cbn [when].
  assert (Hx : (k <- gets (fun s => key (snd s)) ;;
                mode <- find_resolution k ;;
                tryConfigureVideoMode slot mode ;;; ret tt) s1
               = (AssertionFailed unknown_resolution, s1, [])).
  { assert (Hgets : gets (fun s : St => key (snd s)) s1 = (Done (key cfg), s1, @nil CamEvent))
      by (unfold gets; by rewrite Hcfg).
    assert (Hfind : find_resolution (key cfg) s1
                    = (AssertionFailed unknown_resolution, s1, [])).
    { unfold find_resolution.
      assert (Hthis : this (fun cam => resolutions_ cam !! key cfg) s1
                      = (Done None, s1, [])).
      { unfold this, gets. by rewrite HR, Hkey. }
      by rewrite (bind_Done _ _ _ _ _ _ Hthis). }
    rewrite (bind_Done _ _ _ _ _ _ Hgets).
    by rewrite (bind_AssertionFailed _ _ _ _ _ _ Hfind). }
  rewrite (bind_AssertionFailed _ _ _ _ _ _ Hx).
  unfold outcome, final, events; cbn [fst snd]. by rewrite app_nil_r.
Qed.

End Abort.

Section Outcome.

Import CameraImpl.

Lemma configure_rgb_abort level (s : St) :
  valid_key level s RGB 8 (rgb_resolution (snd s)) = false ->
  outcome (configure level s) = AssertionFailed unknown_resolution.
Proof.
  intros Hk. apply valid_key_false in Hk as (Ha & Hf & Hn).
  destruct (block_abort (resolutions_ (fst s)) (fun slot => absent (sensor_at slot (fst s)))
              (dev_registration_supported (device_ (fst s)))
              (dev_registration (device_ (fst s))) (snd s) RGB 8 level rgb_resolution
              (when (flagged level 2) (
                 on <- gets (fun s => auto_exposure (snd s)) ;;
                 stream RGB (SDK.setAutoExposureEnabled on)) ;;;
               when (flagged level 4) (
                 on <- gets (fun s => auto_white_balance (snd s)) ;;
                 stream RGB (SDK.setAutoWhiteBalanceEnabled on)) ;;;
               when (flagged level 64) (
                 on <- gets (fun s => mirror (snd s)) ;;
                 stream RGB (SDK.setMirroringEnabled on)) ;;;
               endConfigure RGB) s)
    as (s1 & evs & _ & H); [by repeat split|done..|].
  unfold configure. fold (configure_rgb level) in H.
  by rewrite (bind_AssertionFailed _ _ _ _ _ _ H).
Qed.

Lemma configure_depth_abort level (s : St) :
  valid_key level s RGB 8 (rgb_resolution (snd s)) = true ->
  valid_key level s DEPTH 16 (depth_resolution (snd s)) = false ->
  outcome (configure level s) = AssertionFailed unknown_resolution.
Proof.
  intros Hk1 Hk2. apply valid_key_false in Hk2 as (Ha & Hf & Hn).
  set (R := resolutions_ (fst s)).
  set (ab := fun slot => absent (sensor_at slot (fst s))).
  set (sup := dev_registration_supported (device_ (fst s))).
  set (reg := dev_registration (device_ (fst s))).
  assert (HI : Inv R ab sup reg (snd s) s) by by repeat split.
  destruct (configure_rgb_run R ab sup reg (snd s) level s) as (s1 & rgb & H1 & _ & HI1);
    [by apply valid_key_elim|done|].
  destruct (block_abort R ab sup reg (snd s) DEPTH 16 level depth_resolution
              (configure_registration level ;;;
               when (flagged level 64) (
                 on <- gets (fun s => mirror (snd s)) ;;
                 stream DEPTH (SDK.setMirroringEnabled on)) ;;;
               endConfigure DEPTH) s1)
    as (s2 & evs & _ & H2); [done..|].
  fold (configure_depth level) in H2.
  unfold configure. rewrite (bind_Done _ _ _ _ _ _ H1).
  by rewrite (bind_AssertionFailed _ _ _ _ _ _ H2).
Qed.

Lemma configure_ir_abort level (s : St) :
  valid_key level s RGB 8 (rgb_resolution (snd s)) = true ->
  valid_key level s DEPTH 16 (depth_resolution (snd s)) = true ->
  valid_key level s IR 32 (ir_resolution (snd s)) = false ->
  outcome (configure level s) = AssertionFailed unknown_resolution.
Proof.
  intros Hk1 Hk2 Hk3. apply valid_key_false in Hk3 as (Ha & Hf & Hn).
  set (R := resolutions_ (fst s)).
  set (ab := fun slot => absent (sensor_at slot (fst s))).
  set (sup := dev_registration_supported (device_ (fst s))).
  set (reg := dev_registration (device_ (fst s))).
  set (reg' := if absent (depth_sensor_ (fst s)) then reg
               else registration_after sup level reg (snd s)).
  set (cfg' := if absent (depth_sensor_ (fst s)) then snd s
               else request_after sup level (snd s)).
  assert (HI : Inv R ab sup reg (snd s) s) by by repeat split.
  destruct (configure_rgb_run R ab sup reg (snd s) level s) as (s1 & rgb & H1 & _ & HI1);
    [by apply valid_key_elim|done|].
  destruct (configure_depth_run R ab sup reg (snd s) reg' cfg' level on_depth_block s1)
    as (s2 & depth & H2 & _ & HI2).
  - by apply valid_key_elim.
  - by left.
  - subst ab reg' cfg'. cbn. intros ->. apply configure_registration_spec.
  - subst ab reg' cfg'. cbn. by intros ->.
  - done.
  - assert (Hkey : R !! ir_resolution cfg' = None).
    { subst cfg'. destruct (absent (depth_sensor_ (fst s))); [done|].
      destruct (request_after_keys sup level (snd s)) as (_ & _ & ->). done. }
    destruct (block_abort R ab sup reg' cfg' IR 32 level ir_resolution
                (when (flagged level 64) (
                   on <- gets (fun s => mirror (snd s)) ;;
                   stream IR (SDK.setMirroringEnabled on)) ;;;
                 endConfigure IR) s2)
      as (s3 & evs & _ & H3); [done..|].
    fold (configure_ir level) in H3.
    unfold configure. rewrite (bind_Done _ _ _ _ _ _ H1).
    unfold outcome at 1. cbn [fst].
    rewrite (bind_Done _ _ _ _ _ _ H2). unfold outcome at 1. cbn [fst].
    by rewrite (bind_AssertionFailed _ _ _ _ _ _ H3).
Qed.

End Outcome.

(** X12: configure ends normally exactly when the request is valid (every
    flagged resolution of a sensor that exists is a key of the catalog);
    otherwise it stops at the assertion on the catalog lookup.  The
    MethodNotSupportedException of the manager of an absent sensor is never
    thrown. *)
Theorem configure_outcome (level : Z) (s : CameraImpl.St) :
  outcome (CameraImpl.configure level s)
  = if valid_request level s then Done tt else AssertionFailed unknown_resolution.
Proof.
  destruct (valid_request level s) eqn:Hvalid.
  - destruct (configure_returns level s Hvalid) as (s' & evs & H & _). by rewrite H.
  - unfold valid_request in Hvalid.
    destruct (valid_key level s RGB 8 _) eqn:Hk1; [|by apply configure_rgb_abort].
    destruct (valid_key level s DEPTH 16 _) eqn:Hk2; [|by apply configure_depth_abort].
    destruct (valid_key level s IR 32 _) eqn:Hk3; [done|by apply configure_ir_abort].
Qed.

(** X13: when the color sensor exists, the mask flags its resolution and
    the requested key is not in the catalog, configure stops at the
    assertion right after the beginConfigure of the color sensor: the color
    stream has been stopped if it was running and counts as not running,
    endConfigure is not called, the other sensors, the device and the
    request are untouched and the depth-color synchronization is not set. *)
Theorem configure_unknown_rgb_resolution (level : Z) (s : CameraImpl.St)
    (m : SensorStreamManager) :
  rgb_sensor_ (fst s) = Plain m ->
  CameraImpl.flagged level 8 = true ->
  resolutions_ (fst s) !! rgb_resolution (snd s) = None ->
  exists m',
    CameraImpl.configure level s
      = (AssertionFailed unknown_resolution,
         (set_sensor_at RGB (Plain m') (fst s), snd s),
         Call RGB call_beginConfigure
           :: (if running_ m then [OnSensor RGB EvStop] else [])) /\
    running_ m' = false /\
    was_running_ m' = running_ m /\
    (running_ m = true -> vs_started (stream_ m') = false).
Proof.
  intros Hm Hflag Hnone.
  destruct (block_abort (resolutions_ (fst s)) (fun slot => absent (sensor_at slot (fst s)))
              (dev_registration_supported (device_ (fst s)))
              (dev_registration (device_ (fst s))) (snd s) RGB 8 level rgb_resolution
              (when (CameraImpl.flagged level 2) (
                 on <- gets (fun s => auto_exposure (snd s)) ;;
                 CameraImpl.stream RGB (SDK.setAutoExposureEnabled on)) ;;;
               when (CameraImpl.flagged level 4) (
                 on <- gets (fun s => auto_white_balance (snd s)) ;;
                 CameraImpl.stream RGB (SDK.setAutoWhiteBalanceEnabled on)) ;;;
               when (CameraImpl.flagged level 64) (
                 on <- gets (fun s => mirror (snd s)) ;;
                 CameraImpl.stream RGB (SDK.setMirroringEnabled on)) ;;;
               CameraImpl.endConfigure RGB) s)
    as (s1 & evs & Hbegin & H); [by repeat split|by cbn; rewrite Hm|done..|].
  fold (CameraImpl.configure_rgb level) in H.
  unfold CameraImpl.configure. rewrite (bind_AssertionFailed _ _ _ _ _ _ H).
  clear H.
  destruct s as [[rgb depth ir R d] cfg]. cbn [fst snd rgb_sensor_] in *. subst rgb.
  unfold CameraImpl.beginConfigure in Hbegin.
  assert (Hrun : (emit (Call RGB call_beginConfigure) ;;;
                  sensor <- CameraImpl.this (sensor_at RGB) ;;
                  match sensor with
                  | Absent => zoom (fun s => s) (fun _ s => s) (OnSensor RGB)
                                SensorStreamManagerBase.beginConfigure
                  | Plain m => CameraImpl.on_manager RGB Plain m SensorStreamManager.beginConfigure
                  | DepthRouter m =>
                      CameraImpl.on_manager RGB DepthRouter m
                        (DepthSensorStreamManager.super SensorStreamManager.beginConfigure)
                  end) (mkCameraImpl (Plain m) depth ir R d, cfg)
                 = (Done true,
                    (mkCameraImpl
                       (Plain (set_running_ false
                                 (set_was_running_ (running_ m)
                                    (if running_ m
                                     then set_stream_ (set_vs_started false (stream_ m)) m
                                     else m))))
                       depth ir R d, cfg),
                    Call RGB call_beginConfigure
                      :: (if running_ m then [OnSensor RGB EvStop] else []))).
  { apply emit_then. eapply eq_trans.
    { eapply bind_run; [reflexivity|]. cbn [sensor_at rgb_sensor_ fst snd].
      unfold CameraImpl.on_manager, zoom. cbn [fst snd device_].
      rewrite beginConfigure_run. reflexivity. }
    cbn. by destruct (running_ m). }
  rewrite Hrun in Hbegin. injection Hbegin as <- <-.
  eexists. split; [reflexivity|].
  destruct m as [vs dm nm fid run was]. cbn. by destruct run.
Qed.

Lemma configure_unknown_rgb_resolution_witness :
  exists s' evs,
    CameraImpl.configure 8
      (set_resolutions_ ∅ example_camera, example_request)
    = (AssertionFailed unknown_resolution, s', evs).
Proof.
  destruct (configure_unknown_rgb_resolution 8
              (set_resolutions_ ∅ example_camera, example_request)
              (mkSensorStreamManager
                 (mkVideoStream true SENSOR_COLOR VGA_color false true false false false)
                 VGA_color "rgb" "camera_rgb_optical_frame" false false))
    as (m' & H & _); [reflexivity..|].
  by eexists _, _.
Defined.

(** ** Construction of the camera *)

Section Startup.

Import CameraImpl.

Lemma for_each_silent {E S A} (l : list A) (body : A -> M E S unit) (ev : E -> Prop) (s : S) :
  (forall a, exists evs, body a s = (Done tt, s, evs) /\ Forall ev evs) ->
  exists evs, for_each l body s = (Done tt, s, evs) /\ Forall ev evs.
Proof.
  intros Hbody. induction l as [|a rest IH]; cbn [for_each].
  - by exists [].
  - destruct (Hbody a) as (e1 & H1 & Hev1). destruct IH as (e2 & H2 & Hev2).
    exists (e1 ++ e2). split; [exact (bind_run _ _ _ _ _ _ _ _ _ H1 H2)|].
    by apply Forall_app.
Qed.

Lemma printVideoModes_run report (cam : CameraImpl) :
  exists evs, printVideoModes report cam = (Done tt, cam, evs) /\ Forall is_info evs.
Proof.
  unfold printVideoModes. apply for_each_silent. intros type.
  destruct (dev_has_sensor (device_ cam) type) eqn:Hhas.
  - destruct (for_each_silent (getSupportedVideoModes report type)
                (fun mode => emit (EvInfo (video_mode_line mode))) is_info cam)
      as (evs & H & Hev).
    { intros mode. eexists. split; [reflexivity|]. by repeat constructor. }
    eexists. split.
    + eapply bind_run; [unfold gets; by rewrite Hhas|]. cbn [negb].
      eapply bind_run; [reflexivity|]. exact H.
    + by repeat constructor.
  - exists []. split; [|constructor].
    eapply eq_trans; [eapply bind_run; [unfold gets; by rewrite Hhas|reflexivity]|].
    reflexivity.
Qed.

Lemma buildResolutionMap_is_Some value (r : gmap Z VideoMode) (c : Resolution) :
  is_Some (buildResolutionMap value r !! value c).
Proof.
  unfold buildResolutionMap. cbv zeta.
  destruct c;
    repeat (rewrite lookup_insert; case_decide; [by eexists|]); congruence.
Qed.

Lemma depth_new_run rgb_frame_id depth_frame_id default_mode indeterminate device :
  dev_has_sensor device SENSOR_DEPTH = true ->
  exists b device' evs,
    DepthSensorStreamManager.new rgb_frame_id depth_frame_id default_mode indeterminate device
      = (Done (mkDepthSensorStreamManager b None rgb_frame_id depth_frame_id), device', evs) /\
    same_settings device device' /\
    advertised evs = [publisher_; depth_registered_publisher_; disparity_publisher_;
                      disparity_registered_publisher_] /\
    name_ b = "depth" /\ frame_id_ b = depth_frame_id /\ default_mode_ b = default_mode /\
    running_ b = false.
Proof.
  intros Hhs.
  destruct (new_run SENSOR_DEPTH "depth" depth_frame_id default_mode indeterminate device Hhs)
    as (b & d' & rc1 & rc2 & H & Hd & Hn & Hf & Hdm & Hr & _).
  eexists b, d', _. split.
  { unfold DepthSensorStreamManager.new.
    eapply bind_run; [exact H|].
    eapply bind_run; [reflexivity|].
    eapply bind_run; [reflexivity|].
    eapply bind_run; [reflexivity|]. reflexivity. }
  split; [done|]. split; [|done].
  unfold construction_error. by destruct (is_OK rc1), (is_OK rc2).
Qed.

(** One of the three conditional constructions. *)
Lemma construction_run {Mgr} slot (wrap : Mgr -> Sensor) (fresh : VideoMode) (key : Z)
    (ctor : VideoMode -> M Event Device Mgr) (post : VideoMode -> Mgr -> Prop)
    (cam : CameraImpl) :
  is_Some (resolutions_ cam !! key) ->
  (forall mode d, dev_has_sensor d (sensor_type slot) = true ->
     exists m d' evs, ctor mode d = (Done m, d', evs) /\ same_settings d d' /\ post mode m) ->
  exists cam' evs,
    (has <- gets (fun cam => dev_has_sensor (device_ cam) (sensor_type slot)) ;;
     when has (
       mode <- resolutions_at fresh key ;;
       m <- construct slot (ctor mode) ;;
       modify (set_sensor_at slot (wrap m)))) cam = (Done tt, cam', evs) /\
    resolutions_ cam' = resolutions_ cam /\
    same_settings (device_ cam) (device_ cam') /\
    (forall slot', slot' <> slot -> sensor_at slot' cam' = sensor_at slot' cam) /\
    (if dev_has_sensor (device_ cam) (sensor_type slot)
     then exists m, sensor_at slot cam' = wrap m /\
                    post (default fresh (resolutions_ cam !! key)) m
     else sensor_at slot cam' = sensor_at slot cam).
Proof.
  intros [mode Hmode] Hctor.
  destruct (dev_has_sensor (device_ cam) (sensor_type slot)) eqn:Hhas.
  - destruct (Hctor mode (device_ cam) Hhas) as (m & d' & evs & H & Hd & Hpost).
    exists (set_sensor_at slot (wrap m) (set_device_ d' cam)), (map (EvConstruct slot) evs).
    split.
    { eapply eq_trans.
      { eapply bind_run; [unfold gets; by rewrite Hhas|]. cbn [when].
        eapply bind_run.
        { unfold resolutions_at. eapply bind_run; [reflexivity|]. rewrite Hmode. reflexivity. }
        eapply bind_run; [unfold construct, zoom; by rewrite H|]. reflexivity. }
      by rewrite !app_nil_l, app_nil_r. }
    split; [by destruct slot|]. split; [by destruct slot|].
    split; [intros slot' Hne; by destruct slot, slot'|].
    exists m. rewrite Hmode. split; [by destruct slot|done].
  - exists cam, []. split.
    { eapply eq_trans; [eapply bind_run; [unfold gets; by rewrite Hhas|reflexivity]|].
      reflexivity. }
    split; [done|]. split; [apply same_settings_refl|]. done.
Qed.

Lemma startup_run value fresh report params indeterminate device_info device :
  exists cam evs,
    startup value fresh report params indeterminate device_info (members device)
      = (Done tt, cam, EvOpen (getUri device_info) :: evs) /\
    resolutions_ cam = buildResolutionMap value ∅ /\
    dev_depth_color_sync (device_ cam) = true /\
    dev_registration (device_ cam) = dev_registration device /\
    dev_registration_supported (device_ cam) = dev_registration_supported device /\
    constructed value params device cam.
Proof.
  set (rgb_frame_id := param params "rgb_frame_id" "camera_rgb_optical_frame").
  set (depth_frame_id := param params "depth_frame_id" "camera_depth_optical_frame").
  set (catalog := buildResolutionMap value ∅).
  set (cam0 := members device).
  destruct (printVideoModes_run report cam0) as (modes & Hmodes & _).
  set (cam1 := set_resolutions_ catalog cam0).
  set (cam2 := set_device_ (set_dev_depth_color_sync true device) cam1).
  destruct (construction_run RGB Plain fresh (value Camera_RGB_640x480_30Hz)
              (fun mode => SensorStreamManager.new SENSOR_COLOR "rgb" rgb_frame_id mode
                             (indeterminate RGB))
              (fun mode m => name_ m = "rgb" /\ frame_id_ m = rgb_frame_id /\
                             running_ m = false /\ default_mode_ m = mode) cam2)
    as (cam3 & e3 & H3 & HR3 & Hd3 & Hother3 & Hown3).
  { apply buildResolutionMap_is_Some. }
  { intros mode d Hhas.
    destruct (new_run SENSOR_COLOR "rgb" rgb_frame_id mode (indeterminate RGB) d Hhas)
      as (m & d' & rc1 & rc2 & H & Hd & Hn & Hf & Hdm & Hr & _).
    by eexists m, d', _. }
  destruct (construction_run DEPTH DepthRouter fresh (value Camera_DEPTH_640x480_30Hz)
              (fun mode => DepthSensorStreamManager.new rgb_frame_id depth_frame_id mode
                             (indeterminate DEPTH))
              (fun mode m => name_ (base m) = "depth" /\ frame_id_ (base m) = depth_frame_id /\
                             running_ (base m) = false /\ default_mode_ (base m) = mode /\
                             active_publisher_ m = None /\
                             rgb_frame_id_ m = rgb_frame_id /\
                             depth_frame_id_ m = depth_frame_id) cam3)
    as (cam4 & e4 & H4 & HR4 & Hd4 & Hother4 & Hown4).
  { rewrite HR3. apply buildResolutionMap_is_Some. }
  { intros mode d Hhas.
    destruct (depth_new_run rgb_frame_id depth_frame_id mode (indeterminate DEPTH) d Hhas)
      as (b & d' & evs & H & Hd & _ & Hn & Hf & Hdm & Hr).
    eexists _, d', _. split; [exact H|]. split; [exact Hd|]. cbn.
    repeat (split; [assumption || reflexivity|]). reflexivity. }
  destruct (construction_run IR Plain fresh (value Camera_IR_640x480_30Hz)
              (fun mode => SensorStreamManager.new SENSOR_IR "ir" depth_frame_id mode
                             (indeterminate IR))
              (fun mode m => name_ m = "ir" /\ frame_id_ m = depth_frame_id /\
                             running_ m = false /\ default_mode_ m = mode) cam4)
    as (cam5 & e5 & H5 & HR5 & Hd5 & Hother5 & Hown5).
  { rewrite HR4, HR3. apply buildResolutionMap_is_Some. }
  { intros mode d Hhas.
    destruct (new_run SENSOR_IR "ir" depth_frame_id mode (indeterminate IR) d Hhas)
      as (m & d' & rc1 & rc2 & H & Hd & Hn & Hf & Hdm & Hr & _).
    by eexists m, d', _. }
  assert (Hinfo : exists msg, printDeviceInfo report cam0 = (Done tt, cam0, [EvInfo msg]))
    by by eexists.
  destruct Hinfo as (msg & Hinfo).
  assert (Hres : modify (fun cam => set_resolutions_ (buildResolutionMap value (resolutions_ cam)) cam)
                   cam0 = (Done tt, cam1, @nil StartupEvent)) by reflexivity.
  assert (Hsync0 : zoom device_ set_device_ EvDevice (SDK.setDepthColorSyncEnabled true) cam1
                   = (Done tt, cam2, [EvDevice (EvSetDepthColorSyncEnabled true)]))
    by reflexivity.
  exists cam5,
    (EvInfo msg :: modes ++ EvDevice (EvSetDepthColorSyncEnabled true) :: e3 ++ e4 ++ e5).
  split.
  { unfold startup. fold cam0. eapply eq_trans.
    { eapply bind_run; [reflexivity|].
      eapply bind_run; [exact Hinfo|].
      eapply bind_run; [exact Hmodes|].
      eapply bind_run; [exact Hres|].
      eapply bind_run; [exact Hsync0|].
      cbv zeta. fold rgb_frame_id depth_frame_id.
      eapply bind_run; [exact H3|].
      eapply bind_run; [exact H4|]. exact H5. }
    cbn [app]. rewrite <- ?app_assoc. cbn [app]. by rewrite <- ?app_assoc, ?app_nil_r. }
  assert (Hs2 : same_settings (set_dev_depth_color_sync true device) (device_ cam5)).
  { eauto using same_settings_trans. }
  destruct Hs2 as (Hhs & Hreg & Hsup & Hsync & _).
  split; [by rewrite HR5, HR4, HR3|].
  split; [by rewrite Hsync|]. split; [by rewrite Hreg|]. split; [by rewrite Hsup|].
  assert (Hhas3 : forall type, dev_has_sensor (device_ cam3) type = dev_has_sensor device type).
  { intros type. destruct Hd3 as (-> & _). done. }
  assert (Hhas4 : forall type, dev_has_sensor (device_ cam4) type = dev_has_sensor device type).
  { intros type. destruct Hd4 as (-> & _). apply Hhas3. }
  unfold constructed. fold rgb_frame_id depth_frame_id catalog. cbv zeta.
  assert (Hrgb : rgb_sensor_ cam5 = sensor_at RGB cam3).
  { rewrite <- (Hother4 RGB), <- (Hother5 RGB); done. }
  assert (Hdepth : depth_sensor_ cam5 = sensor_at DEPTH cam4).
  { rewrite <- (Hother5 DEPTH); done. }
  assert (H03 : sensor_at DEPTH cam3 = Absent)
    by (rewrite (Hother3 DEPTH); done).
  assert (H04 : sensor_at IR cam4 = Absent).
  { rewrite (Hother4 IR), (Hother3 IR); done. }
  split; [|split].
  - rewrite Hrgb. change (dev_has_sensor (device_ cam2) (sensor_type RGB))
      with (dev_has_sensor device SENSOR_COLOR) in Hown3.
    destruct (dev_has_sensor device SENSOR_COLOR).
    + destruct Hown3 as (m & -> & Hn & Hf & Hr & Hdm). cbn.
      split; [done|]. split; [done|]. split; [done|]. split; [done|].
      rewrite Hdm. change (resolutions_ cam2) with catalog.
      destruct (buildResolutionMap_is_Some value ∅ Camera_RGB_640x480_30Hz) as [mode Hmode].
      fold catalog in Hmode. by rewrite Hmode.
    + rewrite Hown3. done.
  - rewrite Hdepth. rewrite (Hhas3 (sensor_type DEPTH)) in Hown4. cbn [sensor_type] in Hown4.
    destruct (dev_has_sensor device SENSOR_DEPTH).
    + destruct Hown4 as (m & -> & Hn & Hf & Hr & Hdm & Hact & Hrf & Hdf). cbn.
      split; [done|]. split; [done|]. split; [done|]. split; [done|].
      split; [|done].
      rewrite Hdm, HR3. change (resolutions_ cam2) with catalog.
      destruct (buildResolutionMap_is_Some value ∅ Camera_DEPTH_640x480_30Hz) as [mode Hmode].
      fold catalog in Hmode. by rewrite Hmode.
    + rewrite Hown4, H03. done.
  - change (ir_sensor_ cam5) with (sensor_at IR cam5).
    rewrite (Hhas4 (sensor_type IR)) in Hown5. cbn [sensor_type] in Hown5.
    destruct (dev_has_sensor device SENSOR_IR).
    + destruct Hown5 as (m & -> & Hn & Hf & Hr & Hdm). cbn.
      split; [done|]. split; [done|]. split; [done|]. split; [done|].
      rewrite Hdm, HR4, HR3. change (resolutions_ cam2) with catalog.
      destruct (buildResolutionMap_is_Some value ∅ Camera_IR_640x480_30Hz) as [mode Hmode].
      fold catalog in Hmode. by rewrite Hmode.
    + rewrite Hown5, H04. done.
Qed.

End Startup.

Section StartupTheorems.

Import CameraImpl.

Lemma for_each_emit {E S A} (l : list A) (f : A -> E) (s : S) :
  for_each l (fun a => emit (f a)) s = (Done tt, s, map f l).
Proof.
  induction l as [|a rest IH]; cbn [for_each map]; [done|].
  by rewrite (bind_run _ _ _ _ _ _ _ _ _ (eq_refl : emit (f a) s = (Done tt, s, [f a])) IH).
Qed.

End StartupTheorems.

(** X17: printVideoModes leaves the camera as it is and logs, for the
    color, the depth and the infrared sensor in this order, nothing when
    the device lacks the sensor and otherwise the name of the sensor
    followed by one line for each supported video mode, in the order of the
    list. *)
Theorem printVideoModes_lines (report : DeviceReport) (cam : CameraImpl) :
  CameraImpl.printVideoModes report cam
  = (Done tt, cam,
     sensor_lines report (device_ cam) SENSOR_COLOR
     ++ sensor_lines report (device_ cam) SENSOR_DEPTH
     ++ sensor_lines report (device_ cam) SENSOR_IR).
Proof.
  assert (Hbody : forall type,
    (has <- gets (fun cam => dev_has_sensor (device_ cam) type) ;;
     if negb has then ret tt
     else
       emit (EvInfo ("  " +:+ toString_SensorType (enumerator type))) ;;;
       CameraImpl.for_each (getSupportedVideoModes report type) (fun mode =>
         emit (EvInfo (CameraImpl.video_mode_line mode)))) cam
    = (Done tt, cam, sensor_lines report (device_ cam) type)).
  { intros type. unfold sensor_lines.
    destruct (dev_has_sensor (device_ cam) type) eqn:Hhas.
    - eapply eq_trans.
      { eapply bind_run; [unfold gets; by rewrite Hhas|]. cbn [negb].
        eapply bind_run; [reflexivity|]. apply for_each_emit. }
      reflexivity.
    - eapply eq_trans; [eapply bind_run; [unfold gets; by rewrite Hhas|reflexivity]|].
      reflexivity. }
  unfold CameraImpl.printVideoModes. cbn [CameraImpl.for_each].
  eapply eq_trans.
  { eapply bind_run; [apply Hbody|].
    eapply bind_run; [apply Hbody|].
    eapply bind_run; [apply Hbody|]. reflexivity. }
  by rewrite app_nil_r.
Qed.

(** ** The first call of the callback *)

Section KeepsCatalog.

Import CameraImpl.

Let keeps {A} (m : M CamEvent St A) : Prop :=
  forall s, resolutions_ (fst (final (m s))) = resolutions_ (fst s).

Lemma keeps_bind {A B} (m : M CamEvent St A) (k : A -> M CamEvent St B) :
  keeps m -> (forall a, keeps (k a)) -> keeps (bind m k).
Proof.
  intros Hm Hk s. unfold bind. specialize (Hm s).
  destruct (m s) as [[o s1] e1]. unfold outcome, final in *; cbn [fst snd] in *.
  destruct o as [a| |]; cbn [fst snd]; [|done..].
  specialize (Hk a s1). unfold final in Hk. by rewrite Hk.
Qed.

Lemma keeps_pure {A} (m : M CamEvent St A) : (forall s, final (m s) = s) -> keeps m.
Proof. intros H s. by rewrite H. Qed.

Lemma keeps_modify (f : St -> St) :
  (forall s, resolutions_ (fst (f s)) = resolutions_ (fst s)) -> keeps (modify f).
Proof. intros H s. apply H. Qed.

Lemma keeps_when c (m : M CamEvent St unit) : keeps m -> keeps (when c m).
Proof. intros H. destruct c; [exact H|]. by intros s. Qed.

Lemma keeps_zoom {T A} (get : St -> T) (put : T -> St -> St) (tag : Event -> CamEvent)
    (m : M Event T A) :
  (forall t s, resolutions_ (fst (put t s)) = resolutions_ (fst s)) ->
  keeps (zoom get put tag m).
Proof. intros H s. apply H. Qed.

Ltac keeps_step :=
  first
    [ apply keeps_bind; [|intros ?]
    | apply keeps_when
    | apply keeps_zoom; intros ? ?; cbn [fst snd];
      rewrite ?resolutions_set_sensor_at; reflexivity
    | apply keeps_modify; intros ?; reflexivity
    | apply keeps_pure; intros ?; reflexivity
    | match goal with |- keeps (match ?x with _ => _ end) => destruct x end ].

(** [configure] never changes the catalog, however it ends. *)
Lemma configure_keeps_catalog level (s : St) :
  resolutions_ (fst (final (configure level s))) = resolutions_ (fst s).
Proof.
  revert s. change (keeps (configure level)).
  unfold configure, configure_rgb, configure_depth, configure_ir, configure_registration,
    beginConfigure, tryConfigureVideoMode, endConfigure, stream, find_resolution,
    on_device, on_manager, this.
  repeat keeps_step.
Qed.

End KeepsCatalog.

Section Kept.

Import CameraImpl.

Lemma ensures_super_router {A} (call : M Event SensorStreamManager.St A)
    (P : SensorStreamManager.St -> Prop) (ev : Event -> Prop)
    (Q : A -> SensorStreamManager.St -> Prop) (j : option Channel * string * string) :
  ensures P ev call Q ->
  ensures (fun t => P (base (fst t), snd t) /\ router_identity (fst t) = j) ev
    (DepthSensorStreamManager.super call)
    (fun a t' => Q a (base (fst t'), snd t') /\ router_identity (fst t') = j).
Proof.
  intros Hcall t [HP Hj]. destruct (Hcall _ HP) as [Hev HQ].
  unfold DepthSensorStreamManager.super, zoom.
  destruct (call (base (fst t), snd t)) as [[o [b' d']] e1].
  unfold outcome, final, events in *; cbn [fst snd base set_base] in *.
  rewrite map_id. split; [done|]. intros a Ha. split; [by apply HQ|exact Hj].
Qed.

Let Idle (m : SensorStreamManager) : Prop := running_ m = false.
Let Halted (m : SensorStreamManager) : Prop :=
  running_ m = false /\ was_running_ m = false.

(** A property of a stream controller and its identity. *)
Let plain (P : SensorStreamManager -> Prop) (i3 : string * string * VideoMode)
    (t : SensorStreamManager.St) : Prop :=
  P (fst t) /\ controller_identity (fst t) = i3.

Let router (P : SensorStreamManager -> Prop) (i3 : string * string * VideoMode)
    (j : option Channel * string * string) (t : DepthSensorStreamManager.St) : Prop :=
  plain P i3 (base (fst t), snd t) /\ router_identity (fst t) = j.

Lemma kept_beginConfigure i3 :
  ensures (plain Idle i3) (fun _ => True) SensorStreamManager.beginConfigure
    (fun ok t' => plain (fun m => if ok then Halted m else Idle m) i3 t').
Proof.
  intros t [Hr Hi]. rewrite beginConfigure_run. unfold Idle in Hr. rewrite Hr.
  split; [constructor|]. intros a [= <-]. unfold final, plain, Halted; cbn [fst snd].
  by destruct t as [[? ? ? ? ? ?] ?].
Qed.

Lemma kept_tryConfigureVideoMode i3 mode :
  ensures (plain Halted i3) (fun _ => True) (SensorStreamManager.tryConfigureVideoMode mode)
    (fun _ t' => plain Halted i3 t').
Proof.
  intros t [[Hr Hw] Hi].
  destruct (tryConfigureVideoMode_cases mode t)
    as (t' & (Hdm & Hn & Hf & Hr' & Hw') & _
        & [[H _] | [(rc & _ & H & _) | (rc & rc' & _ & _ & H)]]);
    rewrite H; unfold outcome, final, events; cbn [fst snd].
  all: split; [by apply Forall_forall|].
  all: intros _ _; unfold plain, Halted, controller_identity in *; cbn [fst].
  all: by rewrite Hdm, Hn, Hf, Hr', Hw'.
Qed.

Lemma kept_on_stream {A} i3 (call : M Event SDK.St A) :
  ensures (plain Halted i3) (fun _ => True) (SensorStreamManager.on_stream call)
    (fun _ t' => plain Halted i3 t').
Proof.
  intros t [[Hr Hw] Hi].
  unfold SensorStreamManager.on_stream, zoom, outcome, final, events. cbn [fst snd].
  split; [by apply Forall_forall|]. intros _ _.
  unfold plain, Halted. cbn [fst]. by destruct t as [[? ? ? ? ? ?] ?].
Qed.

Lemma kept_endConfigure i3 :
  ensures (plain Halted i3) (fun _ => True) SensorStreamManager.endConfigure
    (fun _ t' => plain Idle i3 t').
Proof.
  intros t [[Hr Hw] Hi].
  destruct (endConfigure_run t) as (t' & evs & H & _ & Hsame & _).
  destruct (Hsame Hw) as [-> ->]. rewrite H.
  split; [constructor|]. by intros _ _.
Qed.

Lemma kept_depth_endConfigure i3 j :
  ensures (router Halted i3 j) (fun _ => True) DepthSensorStreamManager.endConfigure
    (fun _ t' => router Idle i3 j t').
Proof.
  unfold DepthSensorStreamManager.endConfigure.
  eapply ensures_seq; [apply (ensures_super_router _ _ _ _ j (kept_endConfigure i3))|].
  eapply ensures_bind; [apply ensures_gets|].
  intros running. apply ensures_when.
  - intros -> t [Hr [[Hidle _] _]]. unfold Idle in Hidle. cbn [fst] in *. congruence.
  - intros _ t [_ H]. exact H.
Qed.

Variable slot0 : Slot.
Variable i : option (string * string * VideoMode * option (option Channel * string * string)).

Let ev : CamEvent -> Prop := fun _ => True.

(** [P] holds of the stream controller of the pointee, if there is one,
    and the pointee has the identity [i]. *)
Let kept (P : SensorStreamManager -> Prop) (x : Sensor) (d : Device) : Prop :=
  match manager_of x with Some m => P m | None => True end /\ identity x = i.

Lemma ensures_kept_own {A} (method : Method) (base_call : M Event St A)
    (call : M Event SensorStreamManager.St A)
    (depth : M Event DepthSensorStreamManager.St A)
    (pre : SensorStreamManager -> Prop) (post : A -> SensorStreamManager -> Prop) :
  (forall s, events (base_call s) = []) ->
  (forall i3, ensures (plain pre i3) (fun _ => True) call (fun a t' => plain (post a) i3 t')) ->
  (forall i3 j, ensures (router pre i3 j) (fun _ => True) depth
                  (fun a t' => router (post a) i3 j t')) ->
  ensures (at_slot slot0 (kept pre)) ev
    (emit (Call slot0 method) ;;;
     sensor <- this (sensor_at slot0) ;;
     match sensor with
     | Absent => zoom (fun s => s) (fun _ s => s) (OnSensor slot0) base_call
     | Plain m => on_manager slot0 Plain m call
     | DepthRouter m => on_manager slot0 DepthRouter m depth
     end) (fun a => at_slot slot0 (kept (post a))).
Proof.
  intros Hbase Hcall Hdepth.
  apply (ensures_dispatch_own slot0 method _ _ _ (kept pre) ev (fun a => kept (post a))).
  - done.
  - intros s d [_ Hi]. split; [apply Hbase|]. intros a _. by split.
  - intros t [Hpre Hi]. cbn [manager_of identity] in Hpre, Hi.
    destruct (Hcall (controller_identity (fst t)) t) as [Hev HQ]; [by split|].
    split; [by apply Forall_forall|]. intros a Ha. destruct (HQ a Ha) as [Hpost Hid].
    split; [exact Hpost|]. cbn [identity]. rewrite <- Hi. do 2 f_equal. exact Hid.
  - intros t [Hpre Hi]. cbn [manager_of identity] in Hpre, Hi.
    destruct (Hdepth (controller_identity (base (fst t))) (router_identity (fst t)) t)
      as [Hev HQ]; [by repeat split|].
    split; [by apply Forall_forall|]. intros a Ha. destruct (HQ a Ha) as [[Hpost Hid] Hj].
    split; [exact Hpost|]. cbn [identity]. rewrite <- Hi.
    f_equal. f_equal; [exact Hid|]. f_equal. exact Hj.
Qed.

Lemma ensures_kept_frame {A} slot (method : Method) (base_call : M Event St A)
    (call : M Event SensorStreamManager.St A)
    (depth : M Event DepthSensorStreamManager.St A)
    (P : SensorStreamManager -> Prop) :
  slot <> slot0 ->
  (forall s, events (base_call s) = []) ->
  returns call (fun _ => True) ->
  returns depth (fun _ => True) ->
  ensures (at_slot slot0 (kept P)) ev
    (emit (Call slot method) ;;;
     sensor <- this (sensor_at slot) ;;
     match sensor with
     | Absent => zoom (fun s => s) (fun _ s => s) (OnSensor slot) base_call
     | Plain m => on_manager slot Plain m call
     | DepthRouter m => on_manager slot DepthRouter m depth
     end) (fun _ => at_slot slot0 (kept P)).
Proof.
  intros Hne Hbase Hcall Hdepth.
  by apply (ensures_dispatch_frame slot slot0).
Qed.

Lemma ensures_kept_on_device {A} (call : M Event Device A)
    (P : SensorStreamManager -> Prop) :
  ensures (at_slot slot0 (kept P)) ev (on_device call) (fun _ => at_slot slot0 (kept P)).
Proof.
  intros s HP. unfold on_device, zoom. unfold outcome, final, events; cbn [fst snd].
  split.
  - by apply Forall_forall.
  - intros _ _. unfold at_slot in *. cbn [fst snd]. by rewrite sensor_at_set_device_.
Qed.

Lemma ensures_kept_stream slot (call : M Event SDK.St unit) :
  returns call (fun _ => True) ->
  ensures (at_slot slot0 (kept (if decide (slot = slot0) then Halted else Idle))) ev
    (stream slot call)
    (fun _ => at_slot slot0 (kept (if decide (slot = slot0) then Halted else Idle))).
Proof.
  intros Hreturns. destruct (decide (slot = slot0)) as [->|Hne].
  - apply (ensures_kept_own call_stream _ _ _ Halted (fun _ => Halted)).
    + done.
    + intros i3. apply kept_on_stream.
    + intros i3 j. exact (ensures_super_router _ _ _ _ j (kept_on_stream i3 call)).
  - apply (ensures_kept_frame slot call_stream); [done|done|..].
    + by apply returns_on_stream.
    + by apply returns_super, returns_on_stream.
Qed.

(** [configure] keeps the identity of a manager whose stream is not
    running, and leaves the stream not running. *)
Lemma ensures_configure_kept level :
  ensures (at_slot slot0 (kept Idle)) ev (configure level)
    (fun _ => at_slot slot0 (kept Idle)).
Proof.
  apply (ensures_configure level ev
           (fun _ => at_slot slot0 (kept Idle))
           (fun slot => at_slot slot0 (kept (if decide (slot = slot0) then Halted else Idle)))
           (fun _ => at_slot slot0 (kept Idle))
           (at_slot slot0 (kept Idle))).
  - (* beginConfigure *)
    intros slot. destruct (decide (slot = slot0)) as [->|Hne].
    + eapply ensures_conseq;
        [apply (ensures_kept_own call_beginConfigure _ _ _ Idle
                  (fun (ok : bool) m => if ok then Halted m else Idle m))
        |done|done|intros ok ? HQ; destruct ok; exact HQ].
      * done.
      * intros i3. apply kept_beginConfigure.
      * intros i3 j. exact (ensures_super_router _ _ _ _ j (kept_beginConfigure i3)).
    + eapply ensures_conseq;
        [apply (ensures_kept_frame slot call_beginConfigure _ _ _ Idle)
        |done|done|intros ok ? HQ; destruct ok; exact HQ]; [done|done|..].
      * apply (returns_any _ _ returns_beginConfigure).
      * apply (returns_any _ _ (returns_super _ _ returns_beginConfigure)).
  - (* tryConfigureVideoMode *)
    intros slot mode. destruct (decide (slot = slot0)) as [->|Hne].
    + apply (ensures_kept_own (call_tryConfigureVideoMode mode) _ _ _ Halted
               (fun _ => Halted)).
      * done.
      * intros i3. apply kept_tryConfigureVideoMode.
      * intros i3 j.
        exact (ensures_super_router _ _ _ _ j (kept_tryConfigureVideoMode i3 mode)).
    + apply (ensures_kept_frame slot (call_tryConfigureVideoMode mode)); [done|done|..].
      * apply returns_tryConfigureVideoMode.
      * apply returns_super, returns_tryConfigureVideoMode.
  - intros on. apply (ensures_kept_stream RGB), returns_setAutoExposureEnabled.
  - intros on. apply (ensures_kept_stream RGB), returns_setAutoWhiteBalanceEnabled.
  - intros slot on. apply (ensures_kept_stream slot), returns_setMirroringEnabled.
  - intros mode. apply ensures_kept_on_device.
  - done.
  - (* endConfigure *)
    intros slot. destruct (decide (slot = slot0)) as [->|Hne].
    + apply (ensures_kept_own call_endConfigure _ _ _ Halted (fun _ => Idle)).
      * done.
      * intros i3. apply kept_endConfigure.
      * intros i3 j. apply kept_depth_endConfigure.
    + apply (ensures_kept_frame slot call_endConfigure); [done|done|..].
      * apply returns_endConfigure.
      * apply returns_depth_endConfigure.
  - done.
  - done.
  - apply ensures_kept_on_device.
Qed.

End Kept.

Section Constructor.

Import CameraImpl.

Lemma configure_aborts level (s : St) :
  valid_request level s = false ->
  outcome (configure level s) = AssertionFailed unknown_resolution.
Proof.
  intros Hvalid. unfold valid_request in Hvalid.
  destruct (valid_key level s RGB 8 _) eqn:Hk1; [|by apply configure_rgb_abort].
  destruct (valid_key level s DEPTH 16 _) eqn:Hk2; [|by apply configure_depth_abort].
  destruct (valid_key level s IR 32 _) eqn:Hk3; [done|by apply configure_ir_abort].
Qed.

(** [setCallback] when the callback throws no exception: the call of the
    callback is the rest of the run. *)
Lemma setCallback_run (s : St) :
  (forall what, outcome (configure all_changed s) <> Thrown what) ->
  setCallback configure s
  = (outcome (configure all_changed s), final (configure all_changed s),
     EvSetCallback :: map EvCallback (events (configure all_changed s))).
Proof.
  unfold setCallback, all_changed.
  rewrite (bind_Done _ _ _ _ _ _ (eq_refl : emit EvSetCallback s = (Done tt, s, [EvSetCallback]))).
  unfold try_catch, zoom.
  destruct (configure 4294967295 s) as [[o s'] evs].
  unfold outcome, final, events; cbn [fst snd]. intros Hno.
  destruct o as [a| |what]; [done|done|]. by destruct (Hno what).
Qed.

Lemma constructed_absent value params device cam :
  constructed value params device cam ->
  absent (rgb_sensor_ cam) = negb (dev_has_sensor device SENSOR_COLOR) /\
  absent (depth_sensor_ cam) = negb (dev_has_sensor device SENSOR_DEPTH) /\
  absent (ir_sensor_ cam) = negb (dev_has_sensor device SENSOR_IR).
Proof.
  unfold constructed. cbv zeta. intros (H1 & H2 & H3).
  split; [|split].
  - destruct (rgb_sensor_ cam); [by rewrite H1|by destruct H1 as [-> _]|done].
  - destruct (depth_sensor_ cam); [by rewrite H2|done|by destruct H2 as [-> _]].
  - destruct (ir_sensor_ cam); [by rewrite H3|by destruct H3 as [-> _]|done].
Qed.

Lemma constructed_idle value params device cam slot :
  constructed value params device cam ->
  match manager_of (sensor_at slot cam) with
  | Some m => running_ m = false
  | None => True
  end.
Proof.
  unfold constructed. cbv zeta. intros (H1 & H2 & H3).
  destruct slot; cbn [sensor_at].
  - destruct (rgb_sensor_ cam); cbn; [done|by destruct H1 as (_ & _ & _ & ? & _)|done].
  - destruct (depth_sensor_ cam); cbn; [done|done|by destruct H2 as (_ & _ & _ & ? & _)].
  - destruct (ir_sensor_ cam); cbn; [done|by destruct H3 as (_ & _ & _ & ? & _)|done].
Qed.

(** A camera whose managers are those the constructor made, up to their
    streams, and are not running, is as the constructor leaves it. *)
Lemma constructed_kept value params device cam0 cam :
  constructed value params device cam0 ->
  (forall slot,
     match manager_of (sensor_at slot cam) with
     | Some m => running_ m = false
     | None => True
     end /\ identity (sensor_at slot cam) = identity (sensor_at slot cam0)) ->
  constructed value params device cam.
Proof.
  unfold constructed. cbv zeta. intros (H1 & H2 & H3) Hk.
  destruct (Hk RGB) as [K1 I1]. destruct (Hk DEPTH) as [K2 I2]. destruct (Hk IR) as [K3 I3].
  cbn [sensor_at] in *.
  unfold identity, controller_identity, router_identity in *.
  split; [|split].
  - destruct (rgb_sensor_ cam0) as [|m0|m0], (rgb_sensor_ cam) as [|m|m];
      cbn [manager_of] in *; try done.
    injection I1 as -> -> ->. by destruct H1 as (? & ? & ? & ? & ?).
  - destruct (depth_sensor_ cam0) as [|m0|m0], (depth_sensor_ cam) as [|m|m];
      cbn [manager_of] in *; try done.
    injection I2 as -> -> -> -> -> ->. by destruct H2 as (? & ? & ? & ? & ? & ? & ? & ?).
  - destruct (ir_sensor_ cam0) as [|m0|m0], (ir_sensor_ cam) as [|m|m];
      cbn [manager_of] in *; try done.
    injection I3 as -> -> ->. by destruct H3 as (? & ? & ? & ? & ?).
Qed.

(** The constructor: the statements of the body leave [cam0], and the
    first call of the callback, [configure] with every bit of the mask set
    on the configuration of the server, is the rest of the run. *)
Lemma CameraImpl_new_run value fresh report params indeterminate device_info device config :
  exists cam0 evs,
    let c := configure all_changed (cam0, config) in
    new value fresh report params indeterminate device_info device config
      = (outcome c, final c,
         EvOpen (getUri device_info) :: evs ++ EvSetCallback :: map EvCallback (events c)) /\
    outcome c = (if valid_configuration value device config then Done tt
                 else AssertionFailed unknown_resolution) /\
    valid_request all_changed (cam0, config) = valid_configuration value device config /\
    resolutions_ cam0 = buildResolutionMap value ∅ /\
    dev_registration (device_ cam0) = dev_registration device /\
    dev_registration_supported (device_ cam0) = dev_registration_supported device /\
    constructed value params device cam0.
Proof.
  destruct (startup_run value fresh report params indeterminate device_info device)
    as (cam0 & evs & H & HR & Hsync & Hreg & Hsup & Hc).
  exists cam0, evs. cbv zeta.
  assert (Hvalid : valid_request all_changed (cam0, config)
                   = valid_configuration value device config).
  { destruct (constructed_absent _ _ _ _ Hc) as (Ha1 & Ha2 & Ha3).
    unfold valid_request, valid_key, valid_configuration, known_resolution.
    cbn [fst snd sensor_at]. rewrite Ha1, Ha2, Ha3, HR.
    change (flagged all_changed 8) with true. change (flagged all_changed 16) with true.
    change (flagged all_changed 32) with true. cbn [negb]. by rewrite !orb_false_r. }
  assert (Hout : outcome (configure all_changed (cam0, config))
                 = if valid_configuration value device config then Done tt
                   else AssertionFailed unknown_resolution).
  { rewrite <- Hvalid. destruct (valid_request all_changed (cam0, config)) eqn:E.
    - destruct (configure_returns _ _ E) as (s' & e & Hr & _). by rewrite Hr.
    - by apply configure_aborts. }
  split; [|done].
  unfold new.
  assert (Hz : zoom fst (fun cam (s : St) => (cam, snd s)) (fun e => e)
                 (startup value fresh report params indeterminate device_info)
                 (members device, config)
               = (Done tt, (cam0, config), EvOpen (getUri device_info) :: evs)).
  { unfold zoom. cbn [fst]. rewrite H. unfold outcome, final, events; cbn [fst snd].
    by rewrite map_id. }
  rewrite (bind_Done _ _ _ _ _ _ Hz), setCallback_run.
  - reflexivity.
  - intros what. rewrite Hout. by destruct (valid_configuration value device config).
Qed.

End Constructor.

(** X18: the constructor of the camera, with the first call of the
    callback that setCallback makes.  The constructor returns exactly when
    the configuration the reconfigure server holds is valid for the device,
    that is, names a catalog resolution for every sensor the device has;
    otherwise it ends at the assertion of configure.  It opens the device
    first, registers the callback after the managers are constructed, and
    what follows are the events of the callback.  The catalog is that of
    buildResolutionMap in every case.  When it returns, the depth-color
    synchronization is enabled; the registration mode and the configuration
    the server keeps are what configure with every bit of the mask set
    leaves, the device's mode and the configuration as they were if the
    device has no depth sensor; and a slot holds a manager exactly when the
    device has the sensor: a stream controller named rgb with the color
    frame id, a depth router named depth with no channel selected, a stream
    controller named ir with the depth frame id, none running, each with
    the 640x480 30 Hz entry of the catalog as default mode. *)
Theorem CameraImpl_new_outcome (value : Resolution -> Z) (fresh : VideoMode)
    (report : DeviceReport) (params : gmap string string) (indeterminate : Slot -> bool)
    (device_info : DeviceInfo) (device : Device) (config : CameraConfig) :
  let r := CameraImpl.new value fresh report params indeterminate device_info device
             config in
  let sup := dev_registration_supported device in
  let reg := dev_registration device in
  let has_depth := dev_has_sensor device SENSOR_DEPTH in
  outcome r = (if valid_configuration value device config then Done tt
               else AssertionFailed unknown_resolution) /\
  (exists evs cevs,
     events r
     = EvOpen (getUri device_info) :: evs ++ EvSetCallback :: map EvCallback cevs) /\
  resolutions_ (fst (final r)) = CameraImpl.buildResolutionMap value ∅ /\
  (valid_configuration value device config = true ->
     dev_depth_color_sync (device_ (fst (final r))) = true /\
     dev_registration (device_ (fst (final r)))
       = (if has_depth then registration_after sup all_changed reg config else reg) /\
     snd (final r) = (if has_depth then request_after sup all_changed config else config) /\
     constructed value params device (fst (final r))).
Proof.
  cbv zeta.
  destruct (CameraImpl_new_run value fresh report params indeterminate device_info device
              config)
    as (cam0 & evs & H & Hout & Hvalid & HR & Hreg & Hsup & Hc).
  cbv zeta in H.
  pose proof (configure_keeps_catalog all_changed (cam0, config)) as Hkeep.
  pose proof (fun slot => ensures_configure_kept slot (identity (sensor_at slot cam0))
                all_changed (cam0, config)) as Hk.
  revert H Hout Hkeep Hk.
  destruct (CameraImpl.configure all_changed (cam0, config)) as [[o s'] cevs] eqn:Hrun.
  unfold outcome, final, events; cbn [fst snd]. intros H Hout Hkeep Hk.
  rewrite H. cbn [fst snd].
  split; [exact Hout|]. split; [by eexists _, _|].
  split; [by rewrite Hkeep|].
  intros Hv. rewrite Hv in Hvalid, Hout. subst o.
  destruct (configure_returns all_changed (cam0, config) Hvalid)
    as (s'' & cevs'' & Hrun' & Hsync' & Hreg' & Hcfg').
  rewrite Hrun in Hrun'. injection Hrun' as <- <-.
  cbn [fst snd] in Hreg', Hcfg'.
  destruct (constructed_absent _ _ _ _ Hc) as (_ & Ha2 & _).
  rewrite Ha2, Hreg, Hsup in Hreg'. rewrite Ha2, Hsup in Hcfg'.
  split; [exact Hsync'|].
  split; [rewrite Hreg'; by destruct (dev_has_sensor device SENSOR_DEPTH)|].
  split; [rewrite Hcfg'; by destruct (dev_has_sensor device SENSOR_DEPTH)|].
  eapply constructed_kept; [exact Hc|]. intros slot.
  destruct (Hk slot) as [_ HQ].
  - split; [by eapply constructed_idle|done].
  - exact (HQ tt eq_refl).
Qed.

(** A device with the three sensors and registration unsupported, the
    server holding a request for registration. *)
Lemma CameraImpl_new_outcome_witness :
  let r := CameraImpl.new example_value VGA_color example_report ∅ (fun _ => false)
             (getDeviceInfo example_report) (example_device [] [] []) example_request in
  dev_depth_color_sync (device_ (fst (final r))) = true /\
  dev_registration (device_ (fst (final r))) = IMAGE_REGISTRATION_OFF /\
  snd (final r) = set_depth_registration false example_request /\
  constructed example_value ∅ (example_device [] [] []) (fst (final r)).
Proof.
  destruct (CameraImpl_new_outcome example_value VGA_color example_report ∅ (fun _ => false)
              (getDeviceInfo example_report) (example_device [] [] []) example_request)
    as (_ & _ & _ & H).
  apply H. vm_compute. reflexivity.
Defined.

(** X19: on the camera the constructor leaves, configure returns for every
    mask and every request whose three resolutions are constants of the
    catalog, and leaves the depth-color synchronization enabled.  This
    holds of the camera as it is when the callback is registered, so of the
    first call the reconfigure server makes when its configuration is such
    a request, and of the camera after that first call, whatever
    configuration the server held. *)
Theorem CameraImpl_new_then_configure (value : Resolution -> Z) (fresh : VideoMode)
    (report : DeviceReport) (params : gmap string string) (indeterminate : Slot -> bool)
    (device_info : DeviceInfo) (device : Device) (config : CameraConfig)
    (level : Z) (cfg : CameraConfig) :
  (exists c, rgb_resolution cfg = value c) ->
  (exists c, depth_resolution cfg = value c) ->
  (exists c, ir_resolution cfg = value c) ->
  let registered := final (CameraImpl.startup value fresh report params indeterminate
                             device_info (CameraImpl.members device)) in
  let cam := fst (final (CameraImpl.new value fresh report params indeterminate device_info
                           device config)) in
  (exists s' evs,
     CameraImpl.configure level (registered, cfg) = (Done tt, s', evs) /\
     dev_depth_color_sync (device_ (fst s')) = true) /\
  (exists s' evs,
     CameraImpl.configure level (cam, cfg) = (Done tt, s', evs) /\
     dev_depth_color_sync (device_ (fst s')) = true).
Proof.
  intros [c1 H1] [c2 H2] [c3 H3]. cbv zeta.
  assert (Hreturns : forall cam,
    resolutions_ cam = CameraImpl.buildResolutionMap value ∅ ->
    exists s' evs,
      CameraImpl.configure level (cam, cfg) = (Done tt, s', evs) /\
      dev_depth_color_sync (device_ (fst s')) = true).
  { intros cam HR.
    assert (Hvalid : valid_request level (cam, cfg) = true).
    { unfold valid_request, valid_key. cbn [fst snd]. rewrite HR, H1, H2, H3.
      rewrite !(bool_decide_eq_true_2 _ (buildResolutionMap_is_Some value ∅ _)).
      by rewrite !orb_true_r. }
    destruct (configure_returns level (cam, cfg) Hvalid) as (s' & evs' & Hrun & Hsync & _).
    by exists s', evs'. }
  split; apply Hreturns.
  - destruct (startup_run value fresh report params indeterminate device_info device)
      as (cam0 & evs & H & HR & _).
    by rewrite H.
  - destruct (CameraImpl_new_run value fresh report params indeterminate device_info device
                config)
      as (cam0 & evs & H & _ & _ & HR & _).
    cbv zeta in H. rewrite H. unfold final at 1; cbn [fst snd].
    by rewrite configure_keeps_catalog.
Qed.

Lemma CameraImpl_new_then_configure_witness :
  let registered := final (CameraImpl.startup example_value VGA_color example_report ∅
                             (fun _ => false) (getDeviceInfo example_report)
                             (CameraImpl.members (example_device [] [] []))) in
  let cam := fst (final (CameraImpl.new example_value VGA_color example_report ∅
                           (fun _ => false) (getDeviceInfo example_report)
                           (example_device [] [] []) example_request)) in
  (exists s' evs,
     CameraImpl.configure all_changed (registered, example_request) = (Done tt, s', evs) /\
     dev_depth_color_sync (device_ (fst s')) = true) /\
  (exists s' evs,
     CameraImpl.configure all_changed (cam, example_request) = (Done tt, s', evs) /\
     dev_depth_color_sync (device_ (fst s')) = true).
Proof.
  apply (CameraImpl_new_then_configure example_value VGA_color example_report ∅
           (fun _ => false) (getDeviceInfo example_report) (example_device [] [] [])
           example_request all_changed example_request).
  - by exists Camera_RGB_320x240_30Hz.
  - by exists Camera_DEPTH_320x240_60Hz.
  - by exists Camera_IR_640x480_30Hz.
Defined.

(** X14: what configure leaves of a valid request and of the registration
    mode.  The registration step is considered only when the depth sensor
    exists and the mask flags bit 1.  Then a request for registration sets
    the mode to DEPTH_TO_COLOR if the device supports it and otherwise
    resets depth_registration in the request and leaves the mode; a request
    without registration sets the mode to OFF.  Nothing else in the request
    changes. *)
Theorem configure_accepted_request (level : Z) (s : CameraImpl.St) :
  let sup := dev_registration_supported (device_ (fst s)) in
  let reg := dev_registration (device_ (fst s)) in
  let cfg := snd s in
  let considered :=
    negb (absent (depth_sensor_ (fst s))) && CameraImpl.flagged level 1 in
  valid_request level s = true ->
  exists s' evs,
    CameraImpl.configure level s = (Done tt, s', evs) /\
    snd s' = (if considered && depth_registration cfg && negb sup
              then set_depth_registration false cfg else cfg) /\
    dev_registration (device_ (fst s'))
      = (if considered then
           if depth_registration cfg
           then (if sup then IMAGE_REGISTRATION_DEPTH_TO_COLOR else reg)
           else IMAGE_REGISTRATION_OFF
         else reg).
Proof.
  cbv zeta. intros Hvalid.
  destruct (configure_returns level s Hvalid) as (s' & evs & H & _ & Hreg & Hcfg).
  exists s', evs. split; [done|].
  rewrite Hcfg, Hreg. unfold request_after, registration_after.
  by destruct (absent (depth_sensor_ (fst s))), (CameraImpl.flagged level 1).
Qed.

Lemma configure_accepted_request_witness :
  exists s' evs,
    CameraImpl.configure all_changed (example_camera, example_request) = (Done tt, s', evs) /\
    snd s' = set_depth_registration false example_request /\
    dev_registration (device_ (fst s')) = IMAGE_REGISTRATION_OFF.
Proof.
  apply (configure_accepted_request all_changed (example_camera, example_request)).
  by vm_compute.
Defined.
